(** * horizon-issuer: the CertificateRequest reconciler

    A shallow embedding of [controllers/certificaterequest_controller.go]
    ([CertificateRequestReconciler.Reconcile]) and of the helpers it calls,
    followed by the properties of the reconciliation state machine.

    The reconciler is stateful: it reads and writes objects of the cluster,
    talks to the Horizon service and mutates the request it has loaded.  It is
    embedded in a small state monad whose state holds the local variables the
    Go code mutates ([certificateRequest], the named results [result] and
    [err]), the objects persisted in the cluster, and the trace of the calls
    made so far.  What the cluster, the scheme, the clock and Horizon answer
    during one call is given by a record of oracles ([Reconciler]). *)

From Stdlib Require Import ZArith Ascii String List Bool Lia.
From stdpp Require Import base option list gmap strings.

Local Open Scope string_scope.
Local Open Scope list_scope.
Local Open Scope Z_scope.
Local Set Warnings "-register-all".

(** ** Go and Kubernetes base types *)

(** [time.Time] and [time.Duration] (an int64 number of nanoseconds). *)
Definition Time := Z.
Definition Duration := Z.
Definition time_Minute : Duration := 60 * 1000 * 1000 * 1000.

(** [types.NamespacedName], as the pair (namespace, name); its [String()] is
    namespace/name. *)
Abbreviation NamespacedName := (string * string)%type.

Definition NamespacedName_String (n : NamespacedName) : string :=
  fst n +:+ "/" +:+ snd n.

(** [ctrl.Result]. *)
Record Result := mkResult { Requeue : bool; RequeueAfter : Duration }.

(** [ctrl.Result{}] *)
Definition Result_zero : Result := {| Requeue := false; RequeueAfter := 0 |}.

(** ** Errors

    Go's [error] values, as far as the reconciler builds and inspects them:
    [errors.New], the not-found status error of the API server, [fmt.Errorf]
    (with the error it wraps through the verb w, if any) and the aggregate of
    [utilerrors.NewAggregate]. *)
Inductive error : Type :=
| errors_New (text : string)
| StatusNotFound (text : string)
| fmt_Errorf (text : string) (wrapped : option error)
| Aggregate (errs : list error).

(** The messages [aggregate.visit] walks through: nested aggregates are
    flattened in order. *)
Fixpoint visit (e : error) : list string :=
  match e with
  | errors_New t | StatusNotFound t | fmt_Errorf t _ => [t]
  | Aggregate errs => flat_map visit errs
  end.

(** Messages already seen are skipped. *)
Fixpoint seenerrs (msgs : list string) (seen : list string) : list string :=
  match msgs with
  | [] => []
  | m :: rest =>
      if existsb (String.eqb m) seen then seenerrs rest seen
      else m :: seenerrs rest (m :: seen)
  end.

Fixpoint join (sep : string) (msgs : list string) : string :=
  match msgs with
  | [] => EmptyString
  | [m] => m
  | m :: rest => m +:+ sep +:+ join sep rest
  end.

(** [err.Error()].  The reconciler calls it on the error of its action step
    only, which is never an aggregate. *)
Fixpoint Error (e : error) : string :=
  match e with
  | errors_New t | StatusNotFound t | fmt_Errorf t _ => t
  | Aggregate errs =>
      match errs with
      | [] => EmptyString
      | [e1] => Error e1
      | _ =>
          match seenerrs (flat_map visit errs) [] with
          | [m] => m
          | msgs => "[" +:+ join ", " msgs +:+ "]"
          end
      end
  end.

(** [utilerrors.NewAggregate]: nil entries are dropped; no entry left gives
    nil. *)
Definition NewAggregate (errlist : list (option error)) : option error :=
  match omap id errlist with
  | [] => None
  | errs => Some (Aggregate errs)
  end.

(** [apierrors.IsNotFound]: the reason of the first API status error in the
    chain of wrapped errors ([errors.As]) is not found.  An aggregate has no
    [Unwrap] and no [As], so the search does not enter it. *)
Fixpoint IsNotFound (e : error) : bool :=
  match e with
  | StatusNotFound _ => true
  | fmt_Errorf _ (Some wrapped) => IsNotFound wrapped
  | _ => false
  end.

(** [client.IgnoreNotFound]. *)
Definition IgnoreNotFound (e : error) : option error :=
  if IsNotFound e then None else Some e.

(** The error values of the package. *)
Definition errIssuerRef := errors_New "error interpreting issuerRef".
Definition errGetIssuer := errors_New "error getting issuer".
Definition errIssuerNotReady := errors_New "issuer is not ready".
Definition errSignerBuilder := errors_New "failed to build the signer".
Definition errSignerSign := errors_New "failed to sign".
Definition errInvalidBaseUrl := errors_New "invalid base url".
Definition errUnknownHorizon := errors_New "horizon returned an error".
(** Declared in issuer_controller.go. *)
Definition errGetAuthSecret :=
  errors_New "failed to get Secret containing Issuer credentials".

Definition requestIdAnnotation : string := "horizon.evertrust.io/request-id".

(** [fmt.Errorf("%w: %v", sentinel, err)] *)
Definition Errorf_w_v (sentinel e : error) : error :=
  fmt_Errorf (Error sentinel +:+ ": " +:+ Error e) (Some sentinel).

(** [fmt.Errorf("%w, secret name: %s, reason: %v", sentinel, secretName, err)] *)
Definition Errorf_secret (sentinel : error) (secretName : NamespacedName)
    (e : error) : error :=
  fmt_Errorf (Error sentinel +:+ ", secret name: "
              +:+ NamespacedName_String secretName
              +:+ ", reason: " +:+ Error e) (Some sentinel).

(** ** cert-manager API types (cmapi, cmmeta) *)

(** [cmmeta.ConditionStatus] is a string type. *)
Definition ConditionTrue : string := "True".
Definition ConditionFalse : string := "False".
Definition ConditionUnknown : string := "Unknown".

(** [cmapi.CertificateRequestConditionType] and the reasons, string types. *)
Definition CertificateRequestConditionReady : string := "Ready".
Definition CertificateRequestConditionApproved : string := "Approved".
Definition CertificateRequestConditionDenied : string := "Denied".
Definition CertificateRequestReasonPending : string := "Pending".
Definition CertificateRequestReasonFailed : string := "Failed".
Definition CertificateRequestReasonIssued : string := "Issued".
Definition CertificateRequestReasonDenied : string := "Denied".

(** [cmmeta.ObjectReference] *)
Record ObjectReference := mkObjectReference {
  ref_Name : string;
  ref_Kind : string;
  ref_Group : string
}.

(** [cmapi.CertificateRequestCondition] *)
Record CertificateRequestCondition := mkCondition {
  cond_Type : string;
  cond_Status : string;
  cond_LastTransitionTime : option Time;
  cond_Reason : string;
  cond_Message : string
}.

(** [cmapi.CertificateRequestSpec], the fields the reconciler reads. *)
Record CertificateRequestSpec := mkSpec {
  spec_IssuerRef : ObjectReference;
  spec_Request : list Byte.byte
}.

(** [cmapi.CertificateRequestStatus] *)
Record CertificateRequestStatus := mkStatus {
  status_Conditions : list CertificateRequestCondition;
  status_Certificate : list Byte.byte;
  status_FailureTime : option Time
}.

(** [cmapi.CertificateRequest].  [Annotations] is a Go map: [None] is the nil
    map (reading it finds nothing, writing it faults). *)
Record CertificateRequest := mkCertificateRequest {
  Namespace : string;
  Name : string;
  Annotations : option (gmap string string);
  Spec : CertificateRequestSpec;
  Status : CertificateRequestStatus
}.

(** The zero value of [var certificateRequest cmapi.CertificateRequest]. *)
Definition CertificateRequest_zero : CertificateRequest :=
  {| Namespace := EmptyString; Name := EmptyString; Annotations := None;
     Spec := {| spec_IssuerRef := mkObjectReference EmptyString EmptyString EmptyString;
                spec_Request := [] |};
     Status := {| status_Conditions := []; status_Certificate := [];
                  status_FailureTime := None |} |}.

(** Field updates. *)
Definition with_Status (s : CertificateRequestStatus) (cr : CertificateRequest)
    : CertificateRequest :=
  {| Namespace := Namespace cr; Name := Name cr;
     Annotations := Annotations cr; Spec := Spec cr; Status := s |}.

Definition with_Annotations (a : option (gmap string string))
    (cr : CertificateRequest) : CertificateRequest :=
  {| Namespace := Namespace cr; Name := Name cr;
     Annotations := a; Spec := Spec cr; Status := Status cr |}.

Definition with_Conditions (cs : list CertificateRequestCondition)
    (s : CertificateRequestStatus) : CertificateRequestStatus :=
  {| status_Conditions := cs; status_Certificate := status_Certificate s;
     status_FailureTime := status_FailureTime s |}.

Definition with_Certificate (c : list Byte.byte)
    (s : CertificateRequestStatus) : CertificateRequestStatus :=
  {| status_Conditions := status_Conditions s; status_Certificate := c;
     status_FailureTime := status_FailureTime s |}.

Definition with_FailureTime (t : option Time)
    (s : CertificateRequestStatus) : CertificateRequestStatus :=
  {| status_Conditions := status_Conditions s;
     status_Certificate := status_Certificate s;
     status_FailureTime := t |}.

(** [m[k]] with the comma-ok form, on a possibly nil map. *)
Definition map_index (m : option (gmap string string)) (k : string)
    : option string :=
  match m with
  | None => None
  | Some m => m !! k
  end.

(** ** cert-manager's condition helpers (cmutil)

    [github.com/jetstack/cert-manager/pkg/api/util], at the version go.mod
    requires (v1.6.1). *)
Module cmutil.

(** [CertificateRequestHasCondition]: some condition has the type and the
    status of [c], and its reason when [c] gives one. *)
Definition CertificateRequestHasCondition (cr : CertificateRequest)
    (c : CertificateRequestCondition) : bool :=
  existsb
    (fun cond =>
       String.eqb (cond_Type c) (cond_Type cond)
       && String.eqb (cond_Status c) (cond_Status cond)
       && (String.eqb (cond_Reason c) EmptyString ||
           String.eqb (cond_Reason c) (cond_Reason cond)))
    (status_Conditions (Status cr)).

(** The loop of [SetCertificateRequestCondition]: the first condition of
    the type is overwritten, and keeps its transition time when the status
    does not change; [None] when there is no condition of the type. *)
Fixpoint overwrite (newCondition : CertificateRequestCondition)
    (conds : list CertificateRequestCondition)
    : option (list CertificateRequestCondition) :=
  match conds with
  | [] => None
  | cond :: rest =>
      if negb (String.eqb (cond_Type cond) (cond_Type newCondition)) then
        option_map (cons cond) (overwrite newCondition rest)
      else if String.eqb (cond_Status cond) (cond_Status newCondition) then
        Some ({| cond_Type := cond_Type newCondition;
                 cond_Status := cond_Status newCondition;
                 cond_LastTransitionTime := cond_LastTransitionTime cond;
                 cond_Reason := cond_Reason newCondition;
                 cond_Message := cond_Message newCondition |} :: rest)
      else Some (newCondition :: rest)
  end.

(** [SetCertificateRequestCondition]; [nowTime] is what the package's
    clock reads. *)
Definition SetCertificateRequestCondition (nowTime : Time)
    (cr : CertificateRequest) (conditionType status reason message : string)
    : CertificateRequest :=
  let newCondition :=
    {| cond_Type := conditionType; cond_Status := status;
       cond_LastTransitionTime := Some nowTime;
       cond_Reason := reason; cond_Message := message |} in
  match overwrite newCondition (status_Conditions (Status cr)) with
  | Some conds => with_Status (with_Conditions conds (Status cr)) cr
  | None =>
      with_Status
        (with_Conditions (status_Conditions (Status cr) ++ [newCondition])
           (Status cr)) cr
  end.

(** [CertificateRequestIsApproved] *)
Definition CertificateRequestIsApproved (cr : CertificateRequest) : bool :=
  existsb
    (fun con =>
       String.eqb (cond_Type con) CertificateRequestConditionApproved
       && String.eqb (cond_Status con) ConditionTrue)
    (status_Conditions (Status cr)).

(** [CertificateRequestIsDenied] *)
Definition CertificateRequestIsDenied (cr : CertificateRequest) : bool :=
  existsb
    (fun con =>
       String.eqb (cond_Type con) CertificateRequestConditionDenied
       && String.eqb (cond_Status con) ConditionTrue)
    (status_Conditions (Status cr)).

End cmutil.

(** ** The issuer API (api/v1alpha1) and its helpers (controllers/util) *)

(** [issuerapi.GroupVersion.Group].  The package api/v1alpha1 is not among
    the sources; the value is the group of the kubebuilder rbac markers of
    issuer_controller.go.  No property below depends on the value. *)
Definition GroupVersion_Group : string := "horizon.k8s.evertrust.io".

(** Modelled from the spec: the Issuer resource of api/v1alpha1 (missing from
    the sources): Spec{EndpointURL, Profile, AuthSecretName} and
    Status{ReadyCondition}.  The fields carry the names the reconciler uses
    ([issuerSpec.URL], [issuerSpec.Profile], [issuerSpec.AuthSecretName]). *)
Record IssuerSpec := mkIssuerSpec {
  URL : string;
  Profile : string;
  AuthSecretName : string
}.

Record IssuerStatus := mkIssuerStatus {
  ReadyCondition : option string
}.

Record Issuer := mkIssuer {
  issuer_Spec : IssuerSpec;
  issuer_Status : IssuerStatus
}.

(** What [r.Scheme.New] builds for a kind of the group: an [*Issuer], another
    registered [client.Object] (such as the cluster-scoped issuer, whose case
    the reconciler leaves commented out), or a registered type that is not a
    [client.Object] (such as a list type).  [fmt_v] is how the verb v prints
    the value. *)
Inductive runtime_Object : Type :=
| New_Issuer
| New_OtherObject (fmt_v : string)
| New_NotAnObject.

(** The object after [r.Get] has filled it. *)
Inductive client_Object : Type :=
| Object_Issuer (i : Issuer)
| Object_Other (fmt_v : string).

Module issuerutil.

(** Modelled from the spec: [GetSpecAndStatus] of controllers/util (missing
    from the sources), the capability-typed accessor that extracts the
    Spec and Status of an issuer and fails on an unsupported variant. *)
Definition GetSpecAndStatus (issuer : client_Object)
    : error + (IssuerSpec * IssuerStatus) :=
  match issuer with
  | Object_Issuer i => inr (issuer_Spec i, issuer_Status i)
  | Object_Other t => inl (errors_New ("not an issuer type: " +:+ t))
  end.

(** Modelled from the spec: [IsReady] of controllers/util (missing from the
    sources): the issuer's Ready condition is True. *)
Definition IsReady (status : IssuerStatus) : bool :=
  match ReadyCondition status with
  | Some s => String.eqb s ConditionTrue
  | None => false
  end.

End issuerutil.

(** [corev1.Secret]: [Data] maps a field name to its bytes; a missing field
    reads as the empty string. *)
Record Secret := mkSecret { Data : gmap string string }.

Definition Data_string (secret : Secret) (k : string) : string :=
  default EmptyString (Data secret !! k).

(** ** The Horizon client (horizon-go) *)

(** [requests.LabelElement]; the reconciler only ever passes the empty
    slice. *)
Inductive LabelElement : Type := mkLabelElement (label value : string).

(** [requests.HorizonRequest], the fields the reconciler reads:
    [request.Id], [request.Status], [request.Certificate.Certificate]. *)
Record HorizonRequest := mkHorizonRequest {
  hr_Id : string;
  hr_Status : string;
  hr_Certificate : string
}.

(** ** The reconciler and what surrounds it *)

(** [CertificateRequestReconciler], with the answers its collaborators give
    during one call of [Reconcile]: the scheme, the injected clock and the
    clock of cmutil, the failures of the API server (a conflict, an outage),
    the issuer and the secret the API server holds, [url.Parse], and the
    Horizon service. *)
Record Reconciler := mkReconciler {
  Scheme_New : string -> error + runtime_Object;
  Clock_Now : Time;
  cmutil_Clock_Now : Time;
  Get_CertificateRequest_err : NamespacedName -> option error;
  Get_Issuer : NamespacedName -> error + Issuer;
  Get_Secret : NamespacedName -> error + Secret;
  Update_err : CertificateRequest -> option error;
  Status_Update_err : CertificateRequest -> option error;
  url_Parse : string -> error + string;
  Requests_Get : string -> error + HorizonRequest;
  Requests_DecentralizedEnroll :
    string -> list Byte.byte -> list LabelElement -> error + HorizonRequest
}.

(** The calls a reconcile makes, in order. *)
Inductive Event : Type :=
| Log_Info (msg : string)
| Log_Error (e : error) (msg : string)
| Client_Get_CertificateRequest (key : NamespacedName)
| Client_Get_Issuer (key : NamespacedName)
| Client_Get_Secret (key : NamespacedName)
| Client_Update (obj : CertificateRequest)
| Client_Status_Update (obj : CertificateRequest)
| HorizonClient_Init (baseUrl username password : string)
| HorizonClient_Requests_Get (id : string)
| HorizonClient_Requests_DecentralizedEnroll
    (profile : string) (csr : list Byte.byte) (labels : list LabelElement).

(** The CertificateRequest objects the API server holds. *)
Abbreviation Cluster := (gmap NamespacedName CertificateRequest).

(** The state of one call: the local variable [certificateRequest], the
    named results, the cluster and the trace. *)
Record State := mkState {
  certificateRequest : CertificateRequest;
  result : Result;
  err : option error;
  cluster : Cluster;
  trace : list Event
}.

Definition set_certificateRequest (cr : CertificateRequest) (s : State) :=
  {| certificateRequest := cr; result := result s; err := err s;
     cluster := cluster s; trace := trace s |}.

Definition set_err (e : option error) (s : State) :=
  {| certificateRequest := certificateRequest s; result := result s;
     err := e; cluster := cluster s; trace := trace s |}.

Definition set_results (res : Result) (e : option error) (s : State) :=
  {| certificateRequest := certificateRequest s; result := res;
     err := e; cluster := cluster s; trace := trace s |}.

Definition set_cluster (c : Cluster) (s : State) :=
  {| certificateRequest := certificateRequest s; result := result s;
     err := err s; cluster := c; trace := trace s |}.

Definition add_event (ev : Event) (s : State) :=
  {| certificateRequest := certificateRequest s; result := result s;
     err := err s; cluster := cluster s; trace := trace s ++ [ev] |}.

(** How a block is left before its end: by a [return] statement (the named
    results then hold the returned values) or by a run-time panic. *)
Inductive Exit : Type :=
| Returned
| Panicked (msg : string).

(** Statements: a state transformer that either goes on with a value or
    leaves the function. *)
Definition M (A : Type) : Type := State -> (A + Exit) * State.

Definition ret {A} (a : A) : M A := fun s => (inl a, s).

Definition bind {A B} (m : M A) (k : A -> M B) : M B :=
  fun s =>
    match m s with
    | (inl a, s') => k a s'
    | (inr x, s') => (inr x, s')
    end.

Notation "'do' x <- m ; k" := (bind m (fun x => k))
  (at level 10, x name, m at level 100, k at level 200).
Notation "'exec' m ; k" := (bind m (fun _ => k))
  (at level 10, m at level 100, k at level 200).

(** [return res, e] *)
Definition Return {A} (res : Result) (e : option error) : M A :=
  fun s => (inr Returned, set_results res e s).

Definition panic {A} (msg : string) : M A :=
  fun s => (inr (Panicked msg), s).

Definition get_state : M State := fun s => (inl s, s).
Definition modify (f : State -> State) : M unit := fun s => (inl tt, f s).
Definition emit (ev : Event) : M unit := modify (add_event ev).

Definition gets {A} (f : State -> A) : M A := fun s => (inl (f s), s).

(** ** The API server *)

(** The message of the not-found status error. *)
Definition not_found_text (key : NamespacedName) : string :=
  let quote := String "034"%char EmptyString in
  "certificaterequests.cert-manager.io " +:+ quote +:+ snd key +:+ quote
  +:+ " not found".

(** The annotations of an object as a client receives them: the field is
    encoded with omitempty, so an object without annotation is decoded with
    the nil map, never with an empty one. *)
Definition omitempty (annotations : option (gmap string string))
    : option (gmap string string) :=
  match annotations with
  | Some m => if decide (m = ∅) then None else Some m
  | None => None
  end.

(** The object that the client decodes from the stored one. *)
Definition decoded (obj : CertificateRequest) : CertificateRequest :=
  with_Annotations (omitempty (Annotations obj)) obj.

(** [r.Get(ctx, key, &certificateRequest)]: the stored object is decoded
    into the local variable. *)
Definition Get_CertificateRequest (r : Reconciler) (key : NamespacedName)
    : M (option error) :=
  exec emit (Client_Get_CertificateRequest key);
  match Get_CertificateRequest_err r key with
  | Some e => ret (Some e)
  | None =>
      do c <- gets cluster;
      match c !! key with
      | Some obj => exec modify (set_certificateRequest (decoded obj)); ret None
      | None => ret (Some (StatusNotFound (not_found_text key)))
      end
  end.

(** [r.Update(ctx, &certificateRequest)].  The status is a subresource (the
    reconciler writes it through [r.Status()]): an update of the object
    stores its metadata and spec and keeps the stored status, and the local
    variable receives the stored object. *)
Definition Update (r : Reconciler) : M (option error) :=
  do obj <- gets certificateRequest;
  exec emit (Client_Update obj);
  match Update_err r obj with
  | Some e => ret (Some e)
  | None =>
      do c <- gets cluster;
      let key := (Namespace obj, Name obj) in
      match c !! key with
      | Some stored =>
          let obj' := with_Status (Status stored) obj in
          exec modify (set_cluster (<[key := obj']> c));
          exec modify (set_certificateRequest obj');
          ret None
      | None => ret (Some (StatusNotFound (not_found_text key)))
      end
  end.

(** [r.Status().Update(ctx, &certificateRequest)]: only the status of the
    stored object changes. *)
Definition Status_Update (r : Reconciler) : M (option error) :=
  do obj <- gets certificateRequest;
  exec emit (Client_Status_Update obj);
  match Status_Update_err r obj with
  | Some e => ret (Some e)
  | None =>
      do c <- gets cluster;
      let key := (Namespace obj, Name obj) in
      match c !! key with
      | Some stored =>
          exec modify (set_cluster (<[key := with_Status (Status obj) stored]> c));
          ret None
      | None => ret (Some (StatusNotFound (not_found_text key)))
      end
  end.

(** ** Reconcile *)

(** The closure [setReadyCondition]. *)
Definition setReadyCondition (r : Reconciler) (status reason message : string)
    : M unit :=
  modify (fun s =>
    set_certificateRequest
      (cmutil.SetCertificateRequestCondition (cmutil_Clock_Now r)
         (certificateRequest s) CertificateRequestConditionReady
         status reason message) s).

(** The deferred function (Always attempt to update the Ready condition). *)
Definition deferred (r : Reconciler) : M unit :=
  do e <- gets err;
  exec match e with
       | Some e =>
           setReadyCondition r ConditionFalse CertificateRequestReasonPending
             (Error e)
       | None => ret tt
       end;
  do updateErr <- Status_Update r;
  match updateErr with
  | Some updateErr =>
      do e <- gets err;
      modify (set_results Result_zero (NewAggregate [e; Some updateErr]))
  | None => ret tt
  end.

(** [defer f; body]: [f] runs when [body] is left, by a return or by a
    panic, and may change the named results. *)
Definition defer {A} (f : M unit) (body : M A) : M A :=
  fun s => let '(x, s') := body s in (x, snd (f s')).

(** The statements of [Reconcile] that follow the [defer] statement, in three
    parts: the denial, the resolution of the issuer and of the Horizon
    client, and the submission or the pull. *)

(** If CertificateRequest has been denied, mark the CertificateRequest as
    Ready=Denied and set FailureTime if not already. *)
Definition mark_denied (r : Reconciler) : M unit :=
  do cr <- gets certificateRequest;
  if cmutil.CertificateRequestIsDenied cr then
    exec emit (Log_Info
                 "CertificateRequest has been denied yet. Marking as failed.");
    exec match status_FailureTime (Status cr) with
         | None =>
             let nowTime := Clock_Now r in
             modify (set_certificateRequest
                       (with_Status
                          (with_FailureTime (Some nowTime) (Status cr)) cr))
         | Some _ => ret tt
         end;
    let message :=
      "The CertificateRequest was denied by an approval controller" in
    exec setReadyCondition r ConditionFalse
           CertificateRequestReasonDenied message;
    Return Result_zero None
  else ret tt.

(** From the check of the issuerRef.Kind to [r.HorizonClient.Init]; gives
    [issuerSpec] and [secretName] to what follows. *)
Definition resolve (r : Reconciler) : M (IssuerSpec * NamespacedName) :=
  (* Ignore but log an error if the issuerRef.Kind is unrecognised *)
  do cr <- gets certificateRequest;
  do issuerRO <-
    match Scheme_New r (ref_Kind (spec_IssuerRef (Spec cr))) with
    | inl e =>
        let e := Errorf_w_v errIssuerRef e in
        exec modify (set_err (Some e));
        exec emit (Log_Error e "Unrecognised kind. Ignoring.");
        exec setReadyCondition r ConditionFalse
               CertificateRequestReasonFailed (Error e);
        Return Result_zero None
    | inr issuerRO => exec modify (set_err None); ret issuerRO
    end;
  (* issuer := issuerRO.(client.Object), then the type switch: a namespaced
     name for Issuer; the namespaces of the issuer and of its secret *)
  let issuerName_Name := ref_Name (spec_IssuerRef (Spec cr)) in
  do namespaces <-
    match issuerRO with
    | New_NotAnObject =>
        panic "interface conversion: runtime.Object is not client.Object"
    | New_Issuer => ret (Namespace cr, Namespace cr)
    | New_OtherObject t =>
        let e := fmt_Errorf ("unexpected issuer type: " +:+ t) None in
        exec emit (Log_Error e
          "The issuerRef referred to a registered Kind which is not yet handled. Ignoring.");
        exec setReadyCondition r ConditionFalse
               CertificateRequestReasonFailed (Error e);
        Return Result_zero None
    end;
  let issuerName : NamespacedName := (fst namespaces, issuerName_Name) in
  let secretNamespace := snd namespaces in
  (* Get the Issuer or ClusterIssuer *)
  exec emit (Client_Get_Issuer issuerName);
  do issuer <-
    match Get_Issuer r issuerName with
    | inl e => Return Result_zero (Some (Errorf_w_v errGetIssuer e))
    | inr i => ret (Object_Issuer i)
    end;
  do issuerSpecStatus <-
    match issuerutil.GetSpecAndStatus issuer with
    | inl e =>
        exec modify (set_err (Some e));
        exec emit (Log_Error e "Unable to get the IssuerStatus. Ignoring.");
        exec setReadyCondition r ConditionFalse
               CertificateRequestReasonFailed (Error e);
        Return Result_zero None
    | inr specStatus => exec modify (set_err None); ret specStatus
    end;
  let issuerSpec := fst issuerSpecStatus in
  let issuerStatus := snd issuerSpecStatus in
  exec if negb (issuerutil.IsReady issuerStatus) then
         Return Result_zero (Some errIssuerNotReady)
       else ret tt;
  let secretName : NamespacedName :=
    (secretNamespace, AuthSecretName issuerSpec) in
  exec emit (Client_Get_Secret secretName);
  do secret <-
    match Get_Secret r secretName with
    | inl e =>
        exec modify (set_err (Some e));
        Return Result_zero (Some (Errorf_secret errGetAuthSecret secretName e))
    | inr secret => exec modify (set_err None); ret secret
    end;
  (* From here, we're ready to instantiate a Horizon client *)
  do baseUrl <-
    match url_Parse r (URL issuerSpec) with
    | inl e =>
        exec modify (set_err (Some e));
        Return Result_zero (Some (Errorf_w_v errInvalidBaseUrl e))
    | inr baseUrl => exec modify (set_err None); ret baseUrl
    end;
  exec emit (HorizonClient_Init baseUrl (Data_string secret "username")
               (Data_string secret "password"));
  ret (issuerSpec, secretName).

Definition requeue_after_a_minute : Result :=
  {| Requeue := true; RequeueAfter := time_Minute |}.

(** If the request has been submitted to Horizon, pull info from Horizon. *)
Definition pull (r : Reconciler) (requestId : string) : M unit :=
  exec emit (Log_Info ("Pulling request " +:+ requestId));
  exec emit (HorizonClient_Requests_Get requestId);
  match Requests_Get r requestId with
  | inl e => Return Result_zero (Some (Errorf_w_v errUnknownHorizon e))
  | inr request =>
      exec if String.eqb (hr_Status request) "completed" then
             exec modify (fun s =>
               set_certificateRequest
                 (cmutil.SetCertificateRequestCondition
                    (cmutil_Clock_Now r) (certificateRequest s)
                    CertificateRequestConditionApproved
                    ConditionTrue "horizon.evertrust.io"
                    "Request approved on Horizon") s);
             exec modify (fun s =>
               set_certificateRequest
                 (with_Status
                    (with_Certificate
                       (list_byte_of_string (hr_Certificate request))
                       (Status (certificateRequest s)))
                    (certificateRequest s)) s);
             exec setReadyCondition r ConditionTrue
                    CertificateRequestReasonIssued "Signed";
             Return Result_zero None
           else ret tt;
      Return requeue_after_a_minute None
  end.

(** Else, submit the request. *)
Definition submit (r : Reconciler) (issuerSpec : IssuerSpec)
    (secretName : NamespacedName) : M unit :=
  do cr <- gets certificateRequest;
  exec emit (HorizonClient_Requests_DecentralizedEnroll
               (Profile issuerSpec) (spec_Request (Spec cr)) []);
  match Requests_DecentralizedEnroll r (Profile issuerSpec)
          (spec_Request (Spec cr)) [] with
  | inl e => Return Result_zero (Some (Errorf_w_v errUnknownHorizon e))
  | inr request =>
      (* Update the request with the Horizon request ID *)
      exec match Annotations cr with
           | None => panic "assignment to entry in nil map"
           | Some annotations =>
               modify (set_certificateRequest
                         (with_Annotations
                            (Some (<[requestIdAnnotation := hr_Id request]>
                                     annotations)) cr))
           end;
      do updateErr <- Update r;
      exec match updateErr with
           | Some e =>
               Return Result_zero
                 (Some (Errorf_secret errGetAuthSecret secretName e))
           | None => ret tt
           end;
      exec setReadyCondition r ConditionFalse
             CertificateRequestReasonPending "Submitted request to Horizon";
      Return requeue_after_a_minute None
  end.

(** If CertificateRequest has not been approved, we should submit the
    request. *)
Definition submit_or_pull (r : Reconciler) (issuerSpec : IssuerSpec)
    (secretName : NamespacedName) : M unit :=
  do cr <- gets certificateRequest;
  exec if negb (cmutil.CertificateRequestIsApproved cr) then
         match map_index (Annotations cr) requestIdAnnotation with
         | Some requestId => pull r requestId
         | None => submit r issuerSpec secretName
         end
       else ret tt;
  Return Result_zero None.

Definition action (r : Reconciler) : M unit :=
  exec mark_denied r;
  do resolved <- resolve r;
  submit_or_pull r (fst resolved) (snd resolved).

Definition Ready_condition (status reason : string)
    : CertificateRequestCondition :=
  {| cond_Type := CertificateRequestConditionReady; cond_Status := status;
     cond_LastTransitionTime := None; cond_Reason := reason;
     cond_Message := EmptyString |}.

(** [CertificateRequestReconciler.Reconcile] *)
Definition Reconcile (r : Reconciler) (req : NamespacedName) : M unit :=
  (* Get the CertificateRequest *)
  do getErr <- Get_CertificateRequest r req;
  exec match getErr with
       | Some e =>
           match IgnoreNotFound e with
           | Some e =>
               Return Result_zero
                 (Some (fmt_Errorf ("unexpected get error: " +:+ Error e) None))
           | None =>
               exec emit (Log_Info "Not found. Ignoring.");
               Return Result_zero None
           end
       | None => ret tt
       end;
  do cr <- gets certificateRequest;
  (* Ignore CertificateRequest if issuerRef doesn't match our group *)
  exec if negb (String.eqb (ref_Group (spec_IssuerRef (Spec cr)))
                  GroupVersion_Group) then
         exec emit (Log_Info "Foreign group. Ignoring.");
         Return Result_zero None
       else ret tt;
  (* Ignore CertificateRequest if it is already Ready *)
  exec if cmutil.CertificateRequestHasCondition cr
            (Ready_condition ConditionTrue EmptyString) then
         exec emit (Log_Info "CertificateRequest is Ready. Ignoring.");
         Return Result_zero None
       else ret tt;
  (* Ignore CertificateRequest if it is already Failed *)
  exec if cmutil.CertificateRequestHasCondition cr
            (Ready_condition ConditionFalse CertificateRequestReasonFailed) then
         exec emit (Log_Info "CertificateRequest is Failed. Ignoring.");
         Return Result_zero None
       else ret tt;
  (* Ignore CertificateRequest if it already has a Denied Ready Reason *)
  exec if cmutil.CertificateRequestHasCondition cr
            (Ready_condition ConditionFalse CertificateRequestReasonDenied) then
         exec emit (Log_Info
           "CertificateRequest already has a Ready condition with Denied Reason. Ignoring.");
         Return Result_zero None
       else ret tt;
  (* Always attempt to update the Ready condition *)
  defer (deferred r) (action r).

(** One call of [Reconcile] on a cluster: how it ends and the final state
    (named results, cluster, trace). *)
Definition initial (c : Cluster) : State :=
  {| certificateRequest := CertificateRequest_zero; result := Result_zero;
     err := None; cluster := c; trace := [] |}.

Definition reconcile (r : Reconciler) (req : NamespacedName) (c : Cluster)
    : Exit * State :=
  match Reconcile r req (initial c) with
  | (inr x, s) => (x, s)
  | (inl _, s) => (Returned, s)
  end.

(** ** Reading a call of [Reconcile] *)

(** The kinds of calls in a trace. *)
Definition is_Status_Update (ev : Event) : bool :=
  match ev with Client_Status_Update _ => true | _ => false end.

Definition is_Update (ev : Event) : bool :=
  match ev with Client_Update _ => true | _ => false end.

Definition is_Enroll (ev : Event) : bool :=
  match ev with
  | HorizonClient_Requests_DecentralizedEnroll _ _ _ => true
  | _ => false
  end.

Definition is_Requests_Get (ev : Event) : bool :=
  match ev with HorizonClient_Requests_Get _ => true | _ => false end.

(** A call to the external service. *)
Definition is_Horizon_call (ev : Event) : bool :=
  match ev with
  | HorizonClient_Init _ _ _ | HorizonClient_Requests_Get _
  | HorizonClient_Requests_DecentralizedEnroll _ _ _ => true
  | _ => false
  end.

(** A write to the API server. *)
Definition is_write (ev : Event) : bool :=
  match ev with
  | Client_Update _ | Client_Status_Update _ => true
  | _ => false
  end.

(** The state once the request has been loaded. *)
Definition loaded (req : NamespacedName) (cr : CertificateRequest)
    (c : Cluster) : State :=
  {| certificateRequest := cr; result := Result_zero; err := None;
     cluster := c; trace := [Client_Get_CertificateRequest req] |}.

(** The four checks that make [Reconcile] ignore a request it has loaded,
    before the [defer] statement. *)
Definition ignored (cr : CertificateRequest) : bool :=
  negb (String.eqb (ref_Group (spec_IssuerRef (Spec cr))) GroupVersion_Group)
  || cmutil.CertificateRequestHasCondition cr
       (Ready_condition ConditionTrue EmptyString)
  || cmutil.CertificateRequestHasCondition cr
       (Ready_condition ConditionFalse CertificateRequestReasonFailed)
  || cmutil.CertificateRequestHasCondition cr
       (Ready_condition ConditionFalse CertificateRequestReasonDenied).

Definition exit_of {A} (x : A + Exit) : Exit :=
  match x with
  | inr x => x
  | inl _ => Returned
  end.

(** The request has a Ready condition with this status, and with this reason
    when one is given. *)
Definition Ready_is (cr : CertificateRequest) (status : string)
    (reason : option string) : Prop :=
  exists cond,
    In cond (status_Conditions (Status cr))
    /\ cond_Type cond = CertificateRequestConditionReady
    /\ cond_Status cond = status
    /\ match reason with
       | Some reason => cond_Reason cond = reason
       | None => True
       end.

(** What a status update answers: the failure the API server injects, or
    not-found when the object is not stored. *)
Definition Status_Update_answer (r : Reconciler) (obj : CertificateRequest)
    (c : Cluster) : option error :=
  match Status_Update_err r obj with
  | Some e => Some e
  | None =>
      match c !! (Namespace obj, Name obj) with
      | Some _ => None
      | None => Some (StatusNotFound (not_found_text (Namespace obj, Name obj)))
      end
  end.

(** Objects are stored under their own namespaced name. *)
Definition well_formed (c : Cluster) : Prop :=
  forall k o, c !! k = Some o -> (Namespace o, Name o) = k.

(** A sequence of calls of [Reconcile], each with its own surroundings, on
    the cluster the previous one has left. *)
Fixpoint reconciles (calls : list (Reconciler * NamespacedName))
    (c : Cluster) : Cluster :=
  match calls with
  | [] => c
  | (r, req) :: rest => reconciles rest (cluster (snd (reconcile r req c)))
  end.

(** The trace of such a sequence. *)
Fixpoint reconciles_trace (calls : list (Reconciler * NamespacedName))
    (c : Cluster) : list Event :=
  match calls with
  | [] => []
  | (r, req) :: rest =>
      trace (snd (reconcile r req c))
      ++ reconciles_trace rest (cluster (snd (reconcile r req c)))
  end.

(** ** The scenario of the specification

    Issuer iss1, Ready, with URL https://pki.example, profile webserver and
    secret cred; a request of namespace ns that refers to it. *)
Module Scenario.

Definition iss1 : Issuer :=
  {| issuer_Spec := {| URL := "https://pki.example"; Profile := "webserver";
                       AuthSecretName := "cred" |};
     issuer_Status := {| ReadyCondition := Some ConditionTrue |} |}.

Definition cred : Secret :=
  {| Data := {[ "username" := "horizon-user"; "password" := "horizon-pass" ]} |}.

Definition csr : list Byte.byte := list_byte_of_string "CSR".

(** The annotations cert-manager gives to the requests it creates. *)
Definition annotations : gmap string string :=
  {[ "cert-manager.io/certificate-name" := "web" ]}.

Definition req : NamespacedName := ("ns", "cr1").

Definition request (group kind : string)
    (annotations : option (gmap string string))
    (conditions : list CertificateRequestCondition) : CertificateRequest :=
  {| Namespace := "ns"; Name := "cr1"; Annotations := annotations;
     Spec := {| spec_IssuerRef := mkObjectReference "iss1" kind group;
                spec_Request := csr |};
     Status := {| status_Conditions := conditions;
                  status_Certificate := [];
                  status_FailureTime := None |} |}.

(** A fresh request of our group, for the Issuer kind. *)
Definition fresh (annotations : option (gmap string string))
    : CertificateRequest :=
  request GroupVersion_Group "Issuer" annotations [].

Definition condition (type status reason : string)
    : CertificateRequestCondition :=
  {| cond_Type := type; cond_Status := status;
     cond_LastTransitionTime := Some 1; cond_Reason := reason;
     cond_Message := EmptyString |}.

Definition only (cr : CertificateRequest) : Cluster := {[ req := cr ]}.

(** The scheme knows the kinds Issuer, ClusterIssuer and IssuerList. *)
Definition scheme (kind : string) : error + runtime_Object :=
  if String.eqb kind "Issuer" then inr New_Issuer
  else if String.eqb kind "ClusterIssuer" then
    inr (New_OtherObject "&{ClusterIssuer}")
  else if String.eqb kind "IssuerList" then inr New_NotAnObject
  else inl (errors_New ("no kind " +:+ kind +:+ " is registered")).

Definition conflict : error :=
  errors_New "the object has been modified; please apply your changes to the latest version and try again".

(** Healthy surroundings; Horizon reports [status] for every request and
    gives the id req-42 to an enrollment. *)
Definition healthy (status : string) : Reconciler :=
  {| Scheme_New := scheme;
     Clock_Now := 1000;
     cmutil_Clock_Now := 1001;
     Get_CertificateRequest_err := fun _ => None;
     Get_Issuer := fun key =>
       if bool_decide (key = ("ns", "iss1")) then inr iss1
       else inl (StatusNotFound "issuer not found");
     Get_Secret := fun key =>
       if bool_decide (key = ("ns", "cred")) then inr cred
       else inl (StatusNotFound "secret not found");
     Update_err := fun _ => None;
     Status_Update_err := fun _ => None;
     url_Parse := fun u => inr u;
     Requests_Get := fun id =>
       inr {| hr_Id := id; hr_Status := status;
              hr_Certificate := "CERTDATA" |};
     Requests_DecentralizedEnroll := fun _ _ _ =>
       inr {| hr_Id := "req-42"; hr_Status := "pending";
              hr_Certificate := EmptyString |} |}.

(** The API server rejects the status update (a conflict). *)
Definition status_conflict (r : Reconciler) : Reconciler :=
  {| Scheme_New := Scheme_New r; Clock_Now := Clock_Now r;
     cmutil_Clock_Now := cmutil_Clock_Now r;
     Get_CertificateRequest_err := Get_CertificateRequest_err r;
     Get_Issuer := Get_Issuer r; Get_Secret := Get_Secret r;
     Update_err := Update_err r;
     Status_Update_err := fun _ => Some conflict;
     url_Parse := url_Parse r; Requests_Get := Requests_Get r;
     Requests_DecentralizedEnroll := Requests_DecentralizedEnroll r |}.

(** The get of the request fails with [e]. *)
Definition get_failure (e : error) (r : Reconciler) : Reconciler :=
  {| Scheme_New := Scheme_New r; Clock_Now := Clock_Now r;
     cmutil_Clock_Now := cmutil_Clock_Now r;
     Get_CertificateRequest_err := fun _ => Some e;
     Get_Issuer := Get_Issuer r; Get_Secret := Get_Secret r;
     Update_err := Update_err r;
     Status_Update_err := Status_Update_err r;
     url_Parse := url_Parse r; Requests_Get := Requests_Get r;
     Requests_DecentralizedEnroll := Requests_DecentralizedEnroll r |}.

(** The API server rejects the update of the object. *)
Definition update_conflict (r : Reconciler) : Reconciler :=
  {| Scheme_New := Scheme_New r; Clock_Now := Clock_Now r;
     cmutil_Clock_Now := cmutil_Clock_Now r;
     Get_CertificateRequest_err := Get_CertificateRequest_err r;
     Get_Issuer := Get_Issuer r; Get_Secret := Get_Secret r;
     Update_err := fun _ => Some conflict;
     Status_Update_err := Status_Update_err r;
     url_Parse := url_Parse r; Requests_Get := Requests_Get r;
     Requests_DecentralizedEnroll := Requests_DecentralizedEnroll r |}.

(** The URL of the issuer does not parse. *)
Definition bad_url (r : Reconciler) : Reconciler :=
  {| Scheme_New := Scheme_New r; Clock_Now := Clock_Now r;
     cmutil_Clock_Now := cmutil_Clock_Now r;
     Get_CertificateRequest_err := Get_CertificateRequest_err r;
     Get_Issuer := Get_Issuer r; Get_Secret := Get_Secret r;
     Update_err := Update_err r;
     Status_Update_err := Status_Update_err r;
     url_Parse := fun _ => inl (errors_New "parse: invalid URL");
     Requests_Get := Requests_Get r;
     Requests_DecentralizedEnroll := Requests_DecentralizedEnroll r |}.

(** The request once submitted: the id of the Horizon request in the
    annotation, Ready=False/Pending. *)
Definition submitted : CertificateRequest :=
  request GroupVersion_Group "Issuer"
    (Some (<[requestIdAnnotation := "req-42"]> annotations))
    [ {| cond_Type := CertificateRequestConditionReady;
         cond_Status := ConditionFalse;
         cond_LastTransitionTime := Some 1001;
         cond_Reason := CertificateRequestReasonPending;
         cond_Message := "Submitted request to Horizon" |} ].

(** A request that an approval controller has just denied. *)
Definition denied : CertificateRequest :=
  request GroupVersion_Group "Issuer" (Some annotations)
    [ condition CertificateRequestConditionDenied ConditionTrue
        "policy.cert-manager.io" ].

(** A cluster that holds one request, under its name. *)
Definition stored (cr : CertificateRequest) : Cluster :=
  {[ (Namespace cr, Name cr) := cr ]}.

(** A request of another namespace, where there is no issuer. *)
Definition elsewhere : CertificateRequest :=
  {| Namespace := "elsewhere"; Name := "cr1";
     Annotations := Some annotations;
     Spec := Spec (fresh None); Status := Status (fresh None) |}.

End Scenario.

(** ** Paths and their conditions *)

(** The request the deferred function sends to the API server: the request
    as the action has left it, with Ready=False/Pending and the text of the
    error when the action has returned one. *)
Definition written (r : Reconciler) (s : State) : CertificateRequest :=
  match err s with
  | Some e =>
      cmutil.SetCertificateRequestCondition (cmutil_Clock_Now r)
        (certificateRequest s) CertificateRequestConditionReady
        ConditionFalse CertificateRequestReasonPending (Error e)
  | None => certificateRequest s
  end.

(** The issuer is resolved: the request is not denied, its kind is the
    Issuer kind, the issuer is fetched and Ready, and its secret is
    fetched. *)
Definition issuer_resolved (r : Reconciler) (cr : CertificateRequest)
    (i : Issuer) (secret : Secret) : Prop :=
  cmutil.CertificateRequestIsDenied cr = false
  /\ Scheme_New r (ref_Kind (spec_IssuerRef (Spec cr))) = inr New_Issuer
  /\ Get_Issuer r (Namespace cr, ref_Name (spec_IssuerRef (Spec cr))) = inr i
  /\ issuerutil.IsReady (issuer_Status i) = true
  /\ Get_Secret r (Namespace cr, AuthSecretName (issuer_Spec i)) = inr secret.

(** The calls that resolve the issuer and set the Horizon client up. *)
Definition resolve_calls (cr : CertificateRequest) (i : Issuer)
    (secret : Secret) (baseUrl : string) : list Event :=
  [Client_Get_Issuer (Namespace cr, ref_Name (spec_IssuerRef (Spec cr)));
   Client_Get_Secret (Namespace cr, AuthSecretName (issuer_Spec i));
   HorizonClient_Init baseUrl (Data_string secret "username")
     (Data_string secret "password")].

(** The surroundings lead a call on the request [cr] to the Horizon
    service: the request is not ignored, not denied and not approved, its
    issuer is resolved and the URL of the issuer parses. *)
Definition reaches_Horizon (r : Reconciler) (req : NamespacedName)
    (cr : CertificateRequest) : Prop :=
  Get_CertificateRequest_err r req = None
  /\ ignored cr = false
  /\ cmutil.CertificateRequestIsApproved cr = false
  /\ exists i secret baseUrl,
       issuer_resolved r cr i secret
       /\ url_Parse r (URL (issuer_Spec i)) = inr baseUrl.

(** The surroundings lead a call on the request [cr] to pull the request
    [id] from Horizon, which answers with a status that is not completed. *)
Definition pulls_pending (r : Reconciler) (req : NamespacedName)
    (cr : CertificateRequest) (id : string) : Prop :=
  Get_CertificateRequest_err r req = None
  /\ ignored cr = false
  /\ cmutil.CertificateRequestIsApproved cr = false
  /\ map_index (Annotations cr) requestIdAnnotation = Some id
  /\ exists i secret baseUrl request,
       issuer_resolved r cr i secret
       /\ url_Parse r (URL (issuer_Spec i)) = inr baseUrl
       /\ Requests_Get r id = inr request
       /\ hr_Status request <> "completed".

(** The surroundings lead a call on the request [cr] to the submission, and
    Horizon accepts the enrollment and answers [request]. *)
Definition submits (r : Reconciler) (req : NamespacedName)
    (cr : CertificateRequest) (i : Issuer) (request : HorizonRequest) : Prop :=
  Get_CertificateRequest_err r req = None
  /\ ignored cr = false
  /\ cmutil.CertificateRequestIsApproved cr = false
  /\ map_index (Annotations cr) requestIdAnnotation = None
  /\ (exists secret baseUrl,
        issuer_resolved r cr i secret
        /\ url_Parse r (URL (issuer_Spec i)) = inr baseUrl)
  /\ Requests_DecentralizedEnroll r (Profile (issuer_Spec i))
       (spec_Request (Spec cr)) [] = inr request.

(** The collaborators of a call are healthy for the request [cr]: the
    request is fetched, its kind is the Issuer kind, the issuer [i] is
    fetched and Ready, the secret is fetched, the URL parses, and the API
    server accepts the updates. *)
Definition healthy_for (r : Reconciler) (req : NamespacedName)
    (cr : CertificateRequest) (i : Issuer) : Prop :=
  Get_CertificateRequest_err r req = None
  /\ Scheme_New r (ref_Kind (spec_IssuerRef (Spec cr))) = inr New_Issuer
  /\ Get_Issuer r (Namespace cr, ref_Name (spec_IssuerRef (Spec cr))) = inr i
  /\ issuerutil.IsReady (issuer_Status i) = true
  /\ (exists secret baseUrl,
        Get_Secret r (Namespace cr, AuthSecretName (issuer_Spec i))
        = inr secret
        /\ url_Parse r (URL (issuer_Spec i)) = inr baseUrl)
  /\ (forall obj, Update_err r obj = None)
  /\ (forall obj, Status_Update_err r obj = None).

Definition denied_message : string :=
  "The CertificateRequest was denied by an approval controller".

(** What each call of a sequence returns. *)
Fixpoint reconciles_results (calls : list (Reconciler * NamespacedName))
    (c : Cluster) : list (Exit * Result * option error) :=
  match calls with
  | [] => []
  | (r, req) :: rest =>
      let out := reconcile r req c in
      (fst out, result (snd out), err (snd out))
      :: reconciles_results rest (cluster (snd out))
  end.

(** ** The helper [updateCertificateRequest]

    A method of the reconciler that nothing calls.  Its parameter is the
    request in the local variable; its named results are those of the
    state.  The request id is read from the annotations without the comma-ok
    form: a missing annotation, or a nil map, reads as the empty string. *)
Definition updateCertificateRequest (r : Reconciler) : M unit :=
  do cr <- gets certificateRequest;
  let requestId :=
    default EmptyString (map_index (Annotations cr) requestIdAnnotation) in
  exec emit (HorizonClient_Requests_Get requestId);
  match Requests_Get r requestId with
  | inl e =>
      exec modify (set_err (Some e));
      Return Result_zero (Some (Errorf_w_v errUnknownHorizon e))
  | inr request =>
      exec modify (set_err None);
      (* todo: finish this *)
      exec if String.eqb (hr_Status request) "completed" then
             exec modify (fun s =>
               set_certificateRequest
                 (cmutil.SetCertificateRequestCondition
                    (cmutil_Clock_Now r) (certificateRequest s)
                    CertificateRequestConditionApproved
                    ConditionTrue "horizon.evertrust.io"
                    "Request approved on Horizon") s);
             exec modify (fun s =>
               set_certificateRequest
                 (with_Status
                    (with_Certificate
                       (list_byte_of_string (hr_Certificate request))
                       (Status (certificateRequest s)))
                    (certificateRequest s)) s);
             exec modify (fun s =>
               set_certificateRequest
                 (cmutil.SetCertificateRequestCondition
                    (cmutil_Clock_Now r) (certificateRequest s)
                    CertificateRequestConditionReady
                    ConditionTrue CertificateRequestReasonIssued "Signed") s);
             Return Result_zero None
           else ret tt;
      Return requeue_after_a_minute None
  end.

(** ** What a call may change of a request *)

(** The request [cr'] is [cr] up to its status and, at most, the request id
    added to its annotations. *)
Definition same_but_status_and_id (cr cr' : CertificateRequest) : Prop :=
  Namespace cr' = Namespace cr
  /\ Name cr' = Name cr
  /\ Spec cr' = Spec cr
  /\ (Annotations cr' = Annotations cr
      \/ exists m id,
           Annotations cr = Some m
           /\ m !! requestIdAnnotation = None
           /\ Annotations cr' = Some (<[requestIdAnnotation := id]> m)).

(** The Ready condition of the request is one that makes [Reconcile] ignore
    it. *)
Definition terminal (cr : CertificateRequest) : Prop :=
  Ready_is cr ConditionTrue None
  \/ Ready_is cr ConditionFalse (Some CertificateRequestReasonFailed)
  \/ Ready_is cr ConditionFalse (Some CertificateRequestReasonDenied).

(** No two conditions of the request have the same type. *)
Definition one_condition_per_type (cr : CertificateRequest) : Prop :=
  NoDup (map cond_Type (status_Conditions (Status cr))).

(** ** A call that fails *)

(** The call on [req] fails with the error [e] of its action, the request
    in memory being [before] when the action returns: the call returns the
    zero result, the request it sends to the status update is [before] with
    Ready=False/Pending and the text of [e], the stored objects are as they
    were when the status update fails, and the error returned is [e], or the
    aggregate of [e] and of the error of the status update. *)
Definition fails_with (r : Reconciler) (req : NamespacedName) (c : Cluster)
    (before : CertificateRequest) (e : error) : Prop :=
  let s := snd (reconcile r req c) in
  let pending :=
    cmutil.SetCertificateRequestCondition (cmutil_Clock_Now r) before
      CertificateRequestConditionReady ConditionFalse
      CertificateRequestReasonPending (Error e) in
  fst (reconcile r req c) = Returned
  /\ result s = Result_zero
  /\ certificateRequest s = pending
  /\ List.filter is_write (trace s)
     = List.filter is_Update (trace s) ++ [Client_Status_Update pending]
  /\ match Status_Update_answer r pending c with
     | Some updateErr =>
         err s = Some (Aggregate [e; updateErr]) /\ cluster s = c
     | None => err s = Some e
     end.

(** ** The issuer reconciler (issuer_controller.go) *)

Definition issuerReadyConditionReason : string :=
  "sample-issuer.IssuerController.Reconcile".
Definition defaultHealthCheckInterval : Duration := time_Minute.

Definition errHealthCheckerBuilder :=
  errors_New "failed to build the healthchecker".
Definition errHealthCheckerCheck := errors_New "healthcheck failed".

(** Modelled from the spec: the Ready condition of an issuer, a status entry
    with Status, Reason and Message (the type is in api/v1alpha1, missing
    from the sources). *)
Record IssuerCondition := mkIssuerCondition {
  icond_Status : string;
  icond_Reason : string;
  icond_Message : string
}.

(** The Issuer resource as the issuer reconciler fetches and stores it: its
    spec and its whole Ready condition.  [Issuer] above is what the
    CertificateRequest reconciler reads of it: the spec and the status of
    the Ready condition. *)
Record IssuerResource := mkIssuerResource {
  res_Spec : IssuerSpec;
  res_Ready : option IssuerCondition
}.

Definition Issuer_of (o : IssuerResource) : Issuer :=
  {| issuer_Spec := res_Spec o;
     issuer_Status := {| ReadyCondition := icond_Status <$> res_Ready o |} |}.

(** Modelled from the spec: [GetReadyCondition] of controllers/util (missing
    from the sources): the Ready condition of the status, nil when there is
    none. *)
Definition issuerutil_GetReadyCondition (o : IssuerResource)
    : option IssuerCondition :=
  res_Ready o.

(** Modelled from the spec: [SetReadyCondition] of controllers/util (missing
    from the sources): the Ready condition of the status becomes the one
    given.  The status is a pointer into the issuer object, which is what
    the status update then sends. *)
Definition issuerutil_SetReadyCondition (o : IssuerResource)
    (status reason message : string) : IssuerResource :=
  {| res_Spec := res_Spec o;
     res_Ready := Some {| icond_Status := status; icond_Reason := reason;
                          icond_Message := message |} |}.

(** The object [newIssuer] builds, once [r.Get] has filled it. *)
Inductive issuer_Object : Type :=
| Fetched_Issuer (o : IssuerResource)
| Fetched_Other (fmt_v : string).

Definition as_client_Object (obj : issuer_Object) : client_Object :=
  match obj with
  | Fetched_Issuer o => Object_Issuer (Issuer_of o)
  | Fetched_Other t => Object_Other t
  end.

(** The Issuer objects the API server holds. *)
Abbreviation Issuers := (gmap NamespacedName IssuerResource).

(** [IssuerReconciler], with the answers of its collaborators during one
    call: the scheme, the failures of the API server, and the secrets it
    holds.  An object of another kind than Issuer is found unless the API
    server answers with a failure. *)
Record IssuerReconciler := mkIssuerReconciler {
  Kind : string;
  issuer_Scheme_New : string -> error + runtime_Object;
  issuer_Get_err : NamespacedName -> option error;
  issuer_Get_Secret : NamespacedName -> error + Secret;
  issuer_Status_Update_err : IssuerResource -> option error
}.

(** The calls an issuer reconcile makes, in order. *)
Inductive IssuerEvent : Type :=
| Issuer_Log_Info (msg : string)
| Issuer_Log_Error (e : error) (msg : string)
| Issuer_Get (key : NamespacedName)
| Issuer_Get_Secret (key : NamespacedName)
| Issuer_Status_Update (obj : IssuerResource).

(** How a call of the issuer reconciler ends: the exit, the named results,
    the issuers of the cluster and the trace. *)
Record IssuerOutcome := mkIssuerOutcome {
  out_exit : Exit;
  out_result : Result;
  out_err : option error;
  out_issuers : Issuers;
  out_trace : list IssuerEvent
}.

(** [newIssuer] *)
Definition newIssuer (r : IssuerReconciler)
    : Exit + (error + runtime_Object) :=
  match issuer_Scheme_New r (Kind r) with
  | inl e => inr (inl e)
  | inr New_NotAnObject =>
      inl (Panicked "interface conversion: runtime.Object is not client.Object")
  | inr ro => inr (inr ro)
  end.

(** [r.Get(ctx, req.NamespacedName, issuer)] *)
Definition Get_issuer_Object (r : IssuerReconciler) (ro : runtime_Object)
    (req : NamespacedName) (issuers : Issuers) : error + issuer_Object :=
  match issuer_Get_err r req with
  | Some e => inl e
  | None =>
      match ro with
      | New_Issuer =>
          match issuers !! req with
          | Some o => inr (Fetched_Issuer o)
          | None => inl (StatusNotFound (not_found_text req))
          end
      | New_OtherObject t => inr (Fetched_Other t)
      | New_NotAnObject => inl (StatusNotFound (not_found_text req))
      end
  end.

(** The deferred function of the issuer reconciler (Always attempt to
    update the Ready condition), on the issuer in memory and the named
    results.  The status update stores the Ready condition of the issuer in
    memory in the object stored under the name of the request. *)
Definition issuer_deferred (r : IssuerReconciler) (req : NamespacedName)
    (x : Exit) (issuer : IssuerResource) (res : Result) (e : option error)
    (issuers : Issuers) (t : list IssuerEvent) : IssuerOutcome :=
  let issuer :=
    match e with
    | Some e =>
        issuerutil_SetReadyCondition issuer ConditionFalse
          issuerReadyConditionReason (Error e)
    | None => issuer
    end in
  let t := t ++ [Issuer_Status_Update issuer] in
  let updateErr :=
    match issuer_Status_Update_err r issuer with
    | Some updateErr => Some updateErr
    | None =>
        match issuers !! req with
        | Some _ => None
        | None => Some (StatusNotFound (not_found_text req))
        end
    end in
  match updateErr with
  | Some updateErr =>
      {| out_exit := x; out_result := Result_zero;
         out_err := NewAggregate [e; Some updateErr];
         out_issuers := issuers; out_trace := t |}
  | None =>
      {| out_exit := x; out_result := res; out_err := e;
         out_issuers :=
           alter (fun stored => {| res_Spec := res_Spec stored;
                                   res_Ready := res_Ready issuer |})
             req issuers;
         out_trace := t |}
  end.

(** The issuer in memory behind the spec and the status that
    [GetSpecAndStatus] returns as pointers into the object. *)
Definition issuer_in_memory (obj : issuer_Object) (issuerSpec : IssuerSpec)
    (issuerStatus : IssuerStatus) : IssuerResource :=
  match obj with
  | Fetched_Issuer o => o
  | Fetched_Other _ =>
      {| res_Spec := issuerSpec;
         res_Ready :=
           (fun status =>
              {| icond_Status := status; icond_Reason := EmptyString;
                 icond_Message := EmptyString |})
             <$> ReadyCondition issuerStatus |}
  end.

(** [IssuerReconciler.Reconcile] *)
Definition Issuer_Reconcile (r : IssuerReconciler) (req : NamespacedName)
    (issuers : Issuers) : IssuerOutcome :=
  match newIssuer r with
  | inl x =>
      {| out_exit := x; out_result := Result_zero; out_err := None;
         out_issuers := issuers; out_trace := [] |}
  | inr (inl e) =>
      {| out_exit := Returned; out_result := Result_zero; out_err := None;
         out_issuers := issuers;
         out_trace := [Issuer_Log_Error e "Unrecognised issuer type"] |}
  | inr (inr ro) =>
      match Get_issuer_Object r ro req issuers with
      | inl e =>
          match IgnoreNotFound e with
          | Some e =>
              {| out_exit := Returned; out_result := Result_zero;
                 out_err :=
                   Some (fmt_Errorf ("unexpected get error: " +:+ Error e)
                           None);
                 out_issuers := issuers; out_trace := [Issuer_Get req] |}
          | None =>
              {| out_exit := Returned; out_result := Result_zero;
                 out_err := None; out_issuers := issuers;
                 out_trace :=
                   [Issuer_Get req; Issuer_Log_Info "Not found. Ignoring."] |}
          end
      | inr obj =>
          match issuerutil.GetSpecAndStatus (as_client_Object obj) with
          | inl e =>
              {| out_exit := Returned; out_result := Result_zero;
                 out_err := None; out_issuers := issuers;
                 out_trace :=
                   [Issuer_Get req;
                    Issuer_Log_Error e
                      "Unexpected error while getting issuer spec and status. Not retrying."] |}
          | inr (issuerSpec, issuerStatus) =>
              let issuer := issuer_in_memory obj issuerSpec issuerStatus in
              (* Always attempt to update the Ready condition *)
              let t := [Issuer_Get req] in
              match issuerutil_GetReadyCondition issuer with
              | None =>
                  issuer_deferred r req Returned
                    (issuerutil_SetReadyCondition issuer ConditionUnknown
                       issuerReadyConditionReason "First seen")
                    Result_zero None issuers t
              | Some _ =>
                  match obj with
                  | Fetched_Issuer _ =>
                      let secretName : NamespacedName :=
                        (fst req, AuthSecretName issuerSpec) in
                      let t := t ++ [Issuer_Get_Secret secretName] in
                      match issuer_Get_Secret r secretName with
                      | inl e =>
                          issuer_deferred r req Returned issuer Result_zero
                            (Some (Errorf_secret errGetAuthSecret secretName e))
                            issuers t
                      | inr _ =>
                          issuer_deferred r req Returned
                            (issuerutil_SetReadyCondition issuer ConditionTrue
                               issuerReadyConditionReason "Success")
                            {| Requeue := false;
                               RequeueAfter := defaultHealthCheckInterval |}
                            None issuers t
                      end
                  | Fetched_Other fmt_v =>
                      issuer_deferred r req Returned issuer Result_zero None
                        issuers
                        (t ++ [Issuer_Log_Error
                                 (fmt_Errorf
                                    ("unexpected issuer type: " +:+ fmt_v) None)
                                 "Not retrying."])
                  end
              end
          end
      end
  end.

(** *** Observations on a call of the issuer reconciler *)

Definition is_Issuer_Status_Update (ev : IssuerEvent) : bool :=
  match ev with
  | Issuer_Status_Update _ => true
  | _ => false
  end.

Definition is_Issuer_Get_Secret (ev : IssuerEvent) : bool :=
  match ev with
  | Issuer_Get_Secret _ => true
  | _ => false
  end.

(** The call gets the issuer [o]: the kind of the reconciler is the Issuer
    kind and the issuer is stored under the name of the request. *)
Definition fetches_issuer (r : IssuerReconciler) (req : NamespacedName)
    (issuers : Issuers) (o : IssuerResource) : Prop :=
  issuer_Scheme_New r (Kind r) = inr New_Issuer
  /\ issuer_Get_err r req = None
  /\ issuers !! req = Some o.

(** The Ready condition of the issuer [o] is [status], with [message]. *)
Definition issuer_Ready_is (o : IssuerResource) (status message : string)
    : Prop :=
  res_Ready o
  = Some {| icond_Status := status;
            icond_Reason := issuerReadyConditionReason;
            icond_Message := message |}.

(** What the CertificateRequest reconciler gets when it asks the API server
    that holds [issuers] for an issuer. *)
Definition Get_Issuer_from (issuers : Issuers) (key : NamespacedName)
    : error + Issuer :=
  match issuers !! key with
  | Some o => inr (Issuer_of o)
  | None => inl (StatusNotFound (not_found_text key))
  end.

Module IssuerScenario.

Definition name : NamespacedName := ("ns", "iss1").

(** An issuer that was just created: no condition yet. *)
Definition new_issuer : IssuerResource :=
  {| res_Spec := issuer_Spec Scenario.iss1; res_Ready := None |}.

Definition issuers : Issuers := {[ name := new_issuer ]}.

(** An issuer whose health check has passed. *)
Definition ready_issuer : IssuerResource :=
  issuerutil_SetReadyCondition new_issuer ConditionTrue
    issuerReadyConditionReason "Success".

(** Healthy surroundings of the issuer reconciler of the Issuer kind. *)
Definition controller : IssuerReconciler :=
  {| Kind := "Issuer";
     issuer_Scheme_New := Scenario.scheme;
     issuer_Get_err := fun _ => None;
     issuer_Get_Secret := Get_Secret (Scenario.healthy "pending");
     issuer_Status_Update_err := fun _ => None |}.

(** The secret of the issuer is missing. *)
Definition without_secret : IssuerReconciler :=
  {| Kind := "Issuer";
     issuer_Scheme_New := Scenario.scheme;
     issuer_Get_err := fun _ => None;
     issuer_Get_Secret := fun _ => inl (StatusNotFound "secret not found");
     issuer_Status_Update_err := fun _ => None |}.

(** The get of the issuer fails with [e]. *)
Definition get_failure (e : error) : IssuerReconciler :=
  {| Kind := "Issuer";
     issuer_Scheme_New := Scenario.scheme;
     issuer_Get_err := fun _ => Some e;
     issuer_Get_Secret := Get_Secret (Scenario.healthy "pending");
     issuer_Status_Update_err := fun _ => None |}.

(** The CertificateRequest reconciler [r], reading its issuers from the
    API server that holds [issuers]. *)
Definition reading (issuers : Issuers) (r : Reconciler) : Reconciler :=
  {| Scheme_New := Scheme_New r; Clock_Now := Clock_Now r;
     cmutil_Clock_Now := cmutil_Clock_Now r;
     Get_CertificateRequest_err := Get_CertificateRequest_err r;
     Get_Issuer := Get_Issuer_from issuers; Get_Secret := Get_Secret r;
     Update_err := Update_err r;
     Status_Update_err := Status_Update_err r;
     url_Parse := url_Parse r; Requests_Get := Requests_Get r;
     Requests_DecentralizedEnroll := Requests_DecentralizedEnroll r |}.

End IssuerScenario.

(** ** Tactics *)

(** The statements of the monad, unfolded on a known state. *)
Ltac monad :=
  cbv beta iota zeta delta
    [bind ret gets modify emit Return panic defer get_state
     set_certificateRequest set_err set_results set_cluster add_event
     certificateRequest result err cluster trace fst snd exit_of
     issuerutil.GetSpecAndStatus negb].

(** The next answer of the surroundings on which the control flow depends. *)
Ltac split_next :=
  match goal with
  | |- context [cmutil.CertificateRequestIsDenied ?x] =>
      destruct (cmutil.CertificateRequestIsDenied x) eqn:?
  | |- context [match status_FailureTime ?x with _ => _ end] =>
      destruct (status_FailureTime x) eqn:?
  | |- context [Scheme_New ?r ?k] => destruct (Scheme_New r k) as [?|[]] eqn:?
  | |- context [Get_Issuer ?r ?k] => destruct (Get_Issuer r k) eqn:?
  | |- context [issuerutil.IsReady ?x] =>
      destruct (issuerutil.IsReady x) eqn:?
  | |- context [Get_Secret ?r ?k] => destruct (Get_Secret r k) eqn:?
  | |- context [url_Parse ?r ?k] => destruct (url_Parse r k) eqn:?
  | |- context [cmutil.CertificateRequestIsApproved ?x] =>
      destruct (cmutil.CertificateRequestIsApproved x) eqn:?
  | |- context [map_index ?a ?k] => destruct (map_index a k) eqn:?
  | |- context [Requests_Get ?r ?k] => destruct (Requests_Get r k) eqn:?
  | |- context [String.eqb (hr_Status ?x) ?y] =>
      destruct (String.eqb (hr_Status x) y) eqn:?
  | |- context [Requests_DecentralizedEnroll ?r ?a ?b ?c] =>
      destruct (Requests_DecentralizedEnroll r a b c) eqn:?
  | |- context [match Annotations ?x with _ => _ end] =>
      destruct (Annotations x) eqn:?
  | |- context [Update_err ?r ?k] => destruct (Update_err r k) eqn:?
  | |- context [Status_Update_err ?r ?k] =>
      destruct (Status_Update_err r k) eqn:?
  | |- context [match ?c !! ?k with _ => _ end] => destruct (c !! k) eqn:?
  end.

(** What is known of a stored request, said of the request as the client
    decodes it: the spec, the status and the name are the same. *)
Ltac as_decoded cr :=
  repeat match goal with
  | H : ?T |- _ =>
      lazymatch T with
      | context [decoded cr] => fail
      | context [cr] =>
          match eval pattern cr in T with
          | ?P _ => change (P (decoded cr)) in H; cbv beta in H
          end
      end
  end.

(** A conjunction of closed facts, each settled by evaluation. *)
Ltac evaluate :=
  repeat apply conj;
  first [ vm_compute; reflexivity | vm_compute; discriminate ].

(** All the paths through a block. *)
Ltac paths := monad; repeat (split_next; monad).

Ltac unfold_action :=
  unfold action, mark_denied, resolve, submit_or_pull, pull, submit, Update,
    setReadyCondition.

Ltac unfold_deferred := unfold deferred, Status_Update, setReadyCondition.

(** Follow one path: the answers of the surroundings are hypotheses. *)
Ltac along :=
  monad;
  repeat (match goal with
          | H : ?l = _ |- context [?l] => rewrite H
          end; monad).

#[local] Arguments String.eqb : simpl never.

(** ** The object a client receives *)

Lemma omitempty_index a k : map_index (omitempty a) k = map_index a k.
Proof.
  destruct a as [m|]; [|reflexivity]. cbn.
  destruct (decide (m = ∅)) as [->|]; [|reflexivity].
  cbn. symmetry. apply lookup_empty.
Qed.

Lemma decoded_index cr k :
  map_index (Annotations (decoded cr)) k = map_index (Annotations cr) k.
Proof. apply omitempty_index. Qed.

(** Decoding changes an object only when it is stored with an empty map. *)
Lemma decoded_same cr : Annotations cr <> Some ∅ -> decoded cr = cr.
Proof.
  intros H. destruct cr as [ns n a sp st]. unfold decoded, with_Annotations.
  cbn in *. f_equal. destruct a as [m|]; [|reflexivity]. cbn.
  destruct (decide (m = ∅)) as [->|]; [congruence | reflexivity].
Qed.

Lemma decoded_with_annotation cr k v :
  map_index (Annotations cr) k = Some v -> decoded cr = cr.
Proof.
  intros H. apply decoded_same. intros He. rewrite He in H. cbn in H.
  rewrite lookup_empty in H. discriminate H.
Qed.

Lemma decoded_empty cr :
  Annotations cr = Some ∅ -> Annotations (decoded cr) = None.
Proof.
  intros H. unfold decoded. cbn. rewrite H. cbn.
  destruct (decide (∅ = ∅)); [reflexivity | congruence].
Qed.

(** Setting a condition and decoding commute: a condition is part of the
    status. *)
Lemma decoded_Set now cr type status reason message :
  decoded (cmutil.SetCertificateRequestCondition now cr type status reason
             message)
  = cmutil.SetCertificateRequestCondition now (decoded cr) type status reason
      message.
Proof.
  unfold cmutil.SetCertificateRequestCondition.
  change (Status (decoded cr)) with (Status cr).
  destruct (cmutil.overwrite _ _); reflexivity.
Qed.

Lemma decoded_never_empty cr : Annotations (decoded cr) <> Some ∅.
Proof.
  unfold decoded. cbn. destruct (Annotations cr) as [m|]; [|discriminate].
  cbn. destruct (decide (m = ∅)); congruence.
Qed.

(** ** The shape of a call *)

Lemma ignored_false cr :
  ignored cr = false ->
  String.eqb (ref_Group (spec_IssuerRef (Spec cr))) GroupVersion_Group = true
  /\ cmutil.CertificateRequestHasCondition cr
       (Ready_condition ConditionTrue EmptyString) = false
  /\ cmutil.CertificateRequestHasCondition cr
       (Ready_condition ConditionFalse CertificateRequestReasonFailed) = false
  /\ cmutil.CertificateRequestHasCondition cr
       (Ready_condition ConditionFalse CertificateRequestReasonDenied) = false.
Proof.
  unfold ignored. intros Hi.
  apply orb_false_elim in Hi as [Hi H4].
  apply orb_false_elim in Hi as [Hi H3].
  apply orb_false_elim in Hi as [H1 H2].
  apply negb_false_iff in H1. auto.
Qed.

(** A request that is not ignored goes through the action and the deferred
    status update. *)
Lemma reconcile_active r req c cr :
  Get_CertificateRequest_err r req = None -> c !! req = Some cr ->
  ignored cr = false ->
  reconcile r req c =
    (exit_of (fst (action r (loaded req (decoded cr) c))),
     snd (deferred r (snd (action r (loaded req (decoded cr) c))))).
Proof.
  intros Hg Hc Hi.
  change (ignored (decoded cr) = false) in Hi.
  apply ignored_false in Hi as (H1 & H2 & H3 & H4).
  unfold reconcile, Reconcile, Get_CertificateRequest, initial.
  monad. rewrite Hg. monad. rewrite Hc. monad.
  rewrite H1, H2, H3, H4. monad. unfold loaded.
  destruct (action r _) as [[[]|x] s']; reflexivity.
Qed.

(** An ignored request: one log line, and nothing else. *)
Lemma reconcile_ignored r req c cr :
  Get_CertificateRequest_err r req = None -> c !! req = Some cr ->
  ignored cr = true ->
  exists msg,
    reconcile r req c
    = (Returned, add_event (Log_Info msg) (loaded req (decoded cr) c)).
Proof.
  intros Hg Hc Hi. change (ignored (decoded cr) = true) in Hi.
  unfold ignored in Hi.
  unfold reconcile, Reconcile, Get_CertificateRequest, initial.
  monad. rewrite Hg. monad. rewrite Hc. monad.
  destruct (String.eqb _ GroupVersion_Group) eqn:H1; monad;
    [|eexists; reflexivity].
  destruct (cmutil.CertificateRequestHasCondition (decoded cr)
              (Ready_condition ConditionTrue EmptyString)) eqn:H2; monad;
    [eexists; reflexivity|].
  destruct (cmutil.CertificateRequestHasCondition (decoded cr)
              (Ready_condition ConditionFalse CertificateRequestReasonFailed))
    eqn:H3; monad; [eexists; reflexivity|].
  destruct (cmutil.CertificateRequestHasCondition (decoded cr)
              (Ready_condition ConditionFalse CertificateRequestReasonDenied))
    eqn:H4; monad; [eexists; reflexivity|].
  discriminate Hi.
Qed.

(** The action never writes the status: only the deferred function does. *)
Lemma action_no_Status_Update r s :
  List.filter is_Status_Update (trace (snd (action r s)))
  = List.filter is_Status_Update (trace s).
Proof.
  unfold_action. destruct s as [cr res e c t]. paths.
  all: rewrite ?List.filter_app; cbn [List.filter is_Status_Update];
    rewrite ?app_nil_r; reflexivity.
Qed.

(** ** Conditions *)

Lemma HasCondition_Ready_True cr :
  cmutil.CertificateRequestHasCondition cr
    (Ready_condition ConditionTrue EmptyString) = true
  <-> Ready_is cr ConditionTrue None.
Proof.
  unfold cmutil.CertificateRequestHasCondition, Ready_is.
  rewrite existsb_exists. split.
  - intros (cond & Hin & H).
    cbn [Ready_condition cond_Type cond_Status cond_Reason] in H.
    rewrite String.eqb_refl, orb_true_l, andb_true_r in H.
    apply andb_true_iff in H as [Ht Hs].
    apply String.eqb_eq in Ht, Hs. exists cond. auto.
  - intros (cond & Hin & Ht & Hs & _). exists cond. split; [assumption|].
    cbn [Ready_condition cond_Type cond_Status cond_Reason].
    rewrite Ht, Hs, !String.eqb_refl. reflexivity.
Qed.

Lemma HasCondition_Ready_False cr reason :
  reason <> EmptyString ->
  cmutil.CertificateRequestHasCondition cr
    (Ready_condition ConditionFalse reason) = true
  <-> Ready_is cr ConditionFalse (Some reason).
Proof.
  intros Hne. apply String.eqb_neq in Hne.
  unfold cmutil.CertificateRequestHasCondition, Ready_is.
  rewrite existsb_exists. split.
  - intros (cond & Hin & H). cbn [Ready_condition cond_Type cond_Status
      cond_Reason] in H. rewrite Hne in H. cbn [orb] in H.
    apply andb_true_iff in H as [H Hr]. apply andb_true_iff in H as [Ht Hs].
    apply String.eqb_eq in Ht, Hs, Hr. exists cond. auto.
  - intros (cond & Hin & Ht & Hs & Hr). exists cond. split; [assumption|].
    cbn [Ready_condition cond_Type cond_Status cond_Reason].
    rewrite Ht, Hs, Hr, !String.eqb_refl, orb_true_r. reflexivity.
Qed.

(** The Ready condition is terminal, or the group is foreign: the request is
    ignored. *)
Lemma ignored_true cr :
  ref_Group (spec_IssuerRef (Spec cr)) <> GroupVersion_Group
  \/ Ready_is cr ConditionTrue None
  \/ Ready_is cr ConditionFalse (Some CertificateRequestReasonFailed)
  \/ Ready_is cr ConditionFalse (Some CertificateRequestReasonDenied) ->
  ignored cr = true.
Proof.
  unfold ignored. intros [H | [H | [H | H]]].
  - apply String.eqb_neq in H. rewrite H. reflexivity.
  - apply HasCondition_Ready_True in H. rewrite H.
    rewrite orb_true_r. reflexivity.
  - apply HasCondition_Ready_False in H; [|discriminate]. rewrite H.
    rewrite orb_true_r. reflexivity.
  - apply HasCondition_Ready_False in H; [|discriminate]. rewrite H.
    rewrite orb_true_r. reflexivity.
Qed.

(** ** Foreign and terminal requests *)

(** C5.  A request that has been loaded and whose issuer group is foreign, or
    whose Ready condition is True, False/Failed or False/Denied, is left
    alone: the call returns no error and the zero result, makes no call to
    Horizon and no write to the API server, the stored objects are as they
    were and the loaded request is the stored one, as decoded. *)
Theorem terminal_or_foreign_request_is_left_alone r req c cr :
  Get_CertificateRequest_err r req = None ->
  c !! req = Some cr ->
  ref_Group (spec_IssuerRef (Spec cr)) <> GroupVersion_Group
  \/ Ready_is cr ConditionTrue None
  \/ Ready_is cr ConditionFalse (Some CertificateRequestReasonFailed)
  \/ Ready_is cr ConditionFalse (Some CertificateRequestReasonDenied) ->
  let x := fst (reconcile r req c) in
  let s := snd (reconcile r req c) in
  x = Returned /\ err s = None /\ result s = Result_zero
  /\ cluster s = c /\ certificateRequest s = decoded cr
  /\ List.filter is_Horizon_call (trace s) = []
  /\ List.filter is_write (trace s) = [].
Proof.
  intros Hg Hc H. apply ignored_true in H.
  destruct (reconcile_ignored r req c cr Hg Hc H) as [msg ->].
  cbn. repeat split; reflexivity.
Qed.

Lemma terminal_or_foreign_request_witness :
  let cr := Scenario.request "cert-manager.io" "Issuer" None [] in
  let s := snd (reconcile (Scenario.healthy "pending") Scenario.req
                  (Scenario.only cr)) in
  err s = None /\ result s = Result_zero /\ cluster s = Scenario.only cr.
Proof.
  intros cr s.
  destruct (terminal_or_foreign_request_is_left_alone
              (Scenario.healthy "pending") Scenario.req (Scenario.only cr) cr)
    as (_ & He & Hr & Hc & _).
  - reflexivity.
  - reflexivity.
  - left. discriminate.
  - auto.
Defined.

(** ** Setting a condition *)

Lemma overwrite_In newCondition conds conds' :
  cmutil.overwrite newCondition conds = Some conds' ->
  exists ltt,
    In {| cond_Type := cond_Type newCondition;
          cond_Status := cond_Status newCondition;
          cond_LastTransitionTime := ltt;
          cond_Reason := cond_Reason newCondition;
          cond_Message := cond_Message newCondition |} conds'.
Proof.
  revert conds'. induction conds as [|cond rest IH]; intros conds' H.
  - discriminate H.
  - cbn [cmutil.overwrite] in H.
    destruct (negb (String.eqb (cond_Type cond) (cond_Type newCondition))).
    + destruct (cmutil.overwrite newCondition rest) as [rest'|];
        [|discriminate H].
      injection H as <-. destruct (IH rest' eq_refl) as [ltt Hin].
      exists ltt. right. exact Hin.
    + destruct (String.eqb (cond_Status cond) (cond_Status newCondition));
        injection H as <-.
      * eexists. left. reflexivity.
      * exists (cond_LastTransitionTime newCondition). left.
        destruct newCondition; reflexivity.
Qed.

(** After [SetCertificateRequestCondition] the request carries the
    condition, whatever its transition time. *)
Lemma SetCertificateRequestCondition_In now cr type status reason message :
  exists ltt,
    In {| cond_Type := type; cond_Status := status;
          cond_LastTransitionTime := ltt;
          cond_Reason := reason; cond_Message := message |}
       (status_Conditions
          (Status (cmutil.SetCertificateRequestCondition now cr type status
                     reason message))).
Proof.
  unfold cmutil.SetCertificateRequestCondition.
  destruct (cmutil.overwrite _ _) as [conds|] eqn:H.
  - apply overwrite_In in H as [ltt Hin]. exists ltt. exact Hin.
  - exists (Some now). cbn. apply in_or_app. right. left. reflexivity.
Qed.

(** It changes the conditions only. *)
Lemma SetCertificateRequestCondition_frame now cr type status reason message :
  let cr' := cmutil.SetCertificateRequestCondition now cr type status reason
               message in
  Namespace cr' = Namespace cr /\ Name cr' = Name cr
  /\ Annotations cr' = Annotations cr /\ Spec cr' = Spec cr
  /\ status_Certificate (Status cr') = status_Certificate (Status cr)
  /\ status_FailureTime (Status cr') = status_FailureTime (Status cr).
Proof.
  unfold cmutil.SetCertificateRequestCondition.
  destruct (cmutil.overwrite _ _); cbn; auto 10.
Qed.

(** The conditions after [SetCertificateRequestCondition]. *)
Lemma SetCertificateRequestCondition_conditions now cr type status reason
    message :
  status_Conditions
    (Status (cmutil.SetCertificateRequestCondition now cr type status reason
               message))
  = let newCondition :=
      {| cond_Type := type; cond_Status := status;
         cond_LastTransitionTime := Some now;
         cond_Reason := reason; cond_Message := message |} in
    match cmutil.overwrite newCondition (status_Conditions (Status cr)) with
    | Some conds => conds
    | None => status_Conditions (Status cr) ++ [newCondition]
    end.
Proof.
  unfold cmutil.SetCertificateRequestCondition.
  destruct (cmutil.overwrite _ _); reflexivity.
Qed.

Lemma overwrite_keeps_others newCondition conds conds' cond :
  cmutil.overwrite newCondition conds = Some conds' ->
  In cond conds ->
  cond_Type cond <> cond_Type newCondition ->
  In cond conds'.
Proof.
  revert conds'. induction conds as [|c0 rest IH]; intros conds' H Hin Hne.
  - destruct Hin.
  - cbn [cmutil.overwrite] in H.
    destruct (String.eqb (cond_Type c0) (cond_Type newCondition)) eqn:Ht;
      cbn [negb] in H.
    + apply String.eqb_eq in Ht.
      destruct Hin as [-> | Hin]; [congruence|].
      destruct (String.eqb (cond_Status c0) (cond_Status newCondition));
        injection H as <-; right; exact Hin.
    + destruct (cmutil.overwrite newCondition rest) as [rest'|];
        [|discriminate H].
      injection H as <-. destruct Hin as [-> | Hin]; [left; reflexivity|].
      right. exact (IH rest' eq_refl Hin Hne).
Qed.

(** Setting a condition keeps the conditions of the other types. *)
Lemma Set_keeps_others now cr type status reason message cond :
  In cond (status_Conditions (Status cr)) ->
  cond_Type cond <> type ->
  In cond
    (status_Conditions
       (Status (cmutil.SetCertificateRequestCondition now cr type status
                  reason message))).
Proof.
  intros Hin Hne. rewrite SetCertificateRequestCondition_conditions. cbv zeta.
  destruct (cmutil.overwrite _ _) as [conds|] eqn:H.
  - exact (overwrite_keeps_others _ _ _ _ H Hin Hne).
  - apply in_or_app. left. exact Hin.
Qed.

(** ** The deferred status update *)

Lemma deferred_spec r s :
  let s' := snd (deferred r s) in
  certificateRequest s' = written r s
  /\ trace s' = trace s ++ [Client_Status_Update (written r s)]
  /\ match Status_Update_answer r (written r s) (cluster s) with
     | Some updateErr =>
         err s' = NewAggregate [err s; Some updateErr]
         /\ result s' = Result_zero /\ cluster s' = cluster s
     | None =>
         err s' = err s /\ result s' = result s
         /\ exists stored,
              cluster s !! (Namespace (written r s), Name (written r s))
              = Some stored
              /\ cluster s'
                 = <[(Namespace (written r s), Name (written r s))
                     := with_Status (Status (written r s)) stored]> (cluster s)
     end.
Proof.
  unfold_deferred. unfold written, Status_Update_answer.
  destruct s as [cr res [e|] c t]; paths; eauto 10.
Qed.

(** ** Persisting the status *)

(** C3, as the code has it.  Once the request has been loaded, the status
    update is called exactly once on every path that gets past the four
    ignore checks (a return, an error or a panic), as the last call and with
    the request as it is in memory on exit; on the paths that ignore the
    request (foreign group, Ready already True, False/Failed or False/Denied)
    it is not called at all. *)
Theorem status_update_once_past_the_ignore_checks r req c cr :
  Get_CertificateRequest_err r req = None ->
  c !! req = Some cr ->
  let s := snd (reconcile r req c) in
  length (List.filter is_Status_Update (trace s))
  = (if ignored cr then 0 else 1)%nat
  /\ (ignored cr = false ->
      exists before,
        trace s = before ++ [Client_Status_Update (certificateRequest s)]).
Proof.
  intros Hg Hc. destruct (ignored cr) eqn:Hi.
  - destruct (reconcile_ignored r req c cr Hg Hc Hi) as [msg ->].
    split; [reflexivity | discriminate].
  - rewrite (reconcile_active r req c cr Hg Hc Hi). cbn [snd].
    destruct (deferred_spec r (snd (action r (loaded req (decoded cr) c))))
      as (Hcr & Ht & _).
    split.
    + rewrite Ht, List.filter_app, length_app, action_no_Status_Update.
      reflexivity.
    + intros _. rewrite Ht, Hcr. eexists. reflexivity.
Qed.

Lemma status_update_once_witness :
  let cr := Scenario.fresh (Some Scenario.annotations) in
  length (List.filter is_Status_Update
            (trace (snd (reconcile (Scenario.healthy "pending") Scenario.req
                           (Scenario.only cr))))) = 1%nat.
Proof.
  intros cr.
  exact (proj1 (status_update_once_past_the_ignore_checks
                  (Scenario.healthy "pending") Scenario.req
                  (Scenario.only cr) cr eq_refl eq_refl)).
Defined.

(** C3 does not hold as stated: a request of a foreign group is loaded and
    the call returns, an early no-op, without any status update. *)
Lemma foreign_request_status_not_persisted :
  let cr := Scenario.request "cert-manager.io" "Issuer" None [] in
  let out := reconcile (Scenario.healthy "pending") Scenario.req
               (Scenario.only cr) in
  fst out = Returned
  /\ certificateRequest (snd out) = cr
  /\ trace (snd out)
     = [Client_Get_CertificateRequest Scenario.req;
        Log_Info "Foreign group. Ignoring."]
  /\ length (List.filter is_Status_Update (trace (snd out))) <> 1%nat.
Proof.
  evaluate.
Qed.

(** ** Errors of the action *)





(** ** Paths of the action *)

(** With the issuer resolved and a URL that parses, the action comes to the
    submission or the pull. *)
Lemma action_resolved r cr i secret baseUrl res e c t :
  issuer_resolved r cr i secret ->
  url_Parse r (URL (issuer_Spec i)) = inr baseUrl ->
  action r {| certificateRequest := cr; result := res; err := e;
              cluster := c; trace := t |}
  = submit_or_pull r (issuer_Spec i)
      (Namespace cr, AuthSecretName (issuer_Spec i))
      {| certificateRequest := cr; result := res; err := None;
         cluster := c; trace := t ++ resolve_calls cr i secret baseUrl |}.
Proof.
  intros (Hd & Hk & Hgi & Hr & Hgs) Hu.
  unfold action, mark_denied, resolve, setReadyCondition, resolve_calls.
  along. rewrite <- !app_assoc. reflexivity.
Qed.

(** ** An unrecognised kind *)

(** C8, as the code has it.  For a request that gets past the ignore checks,
    is not denied and whose issuerRef.Kind the scheme does not recognise,
    the call logs the error, sets Ready to False with reason Failed and the
    text of the error, and calls the status update; it returns the zero
    result, with a nil error when the status update succeeds and with the
    aggregate of the update error when it fails. *)
Theorem unrecognised_kind_marks_the_request_failed r req c cr e0 :
  Get_CertificateRequest_err r req = None ->
  c !! req = Some cr ->
  ignored cr = false ->
  cmutil.CertificateRequestIsDenied cr = false ->
  Scheme_New r (ref_Kind (spec_IssuerRef (Spec cr))) = inl e0 ->
  let e := Errorf_w_v errIssuerRef e0 in
  let failed :=
    cmutil.SetCertificateRequestCondition (cmutil_Clock_Now r) (decoded cr)
      CertificateRequestConditionReady ConditionFalse
      CertificateRequestReasonFailed (Error e) in
  let x := fst (reconcile r req c) in
  let s := snd (reconcile r req c) in
  x = Returned
  /\ (exists ltt,
        In {| cond_Type := CertificateRequestConditionReady;
              cond_Status := ConditionFalse;
              cond_LastTransitionTime := ltt;
              cond_Reason := CertificateRequestReasonFailed;
              cond_Message := Error e |}
           (status_Conditions (Status failed)))
  /\ trace s
     = [Client_Get_CertificateRequest req;
        Log_Error e "Unrecognised kind. Ignoring.";
        Client_Status_Update failed]
  /\ result s = Result_zero
  /\ match Status_Update_answer r failed c with
     | Some updateErr => err s = Some (Aggregate [updateErr])
     | None => err s = None
     end.
Proof.
  intros Hg Hc Hi Hd Hk e failed x s. subst x s.
  rewrite (reconcile_active r req c cr Hg Hc Hi). cbn [fst snd].
  as_decoded cr. set (cr' := decoded cr) in *. clearbody cr'.
  assert (Ha : action r (loaded req cr' c)
               = (inr Returned,
                  {| certificateRequest := failed; result := Result_zero;
                     err := None; cluster := c;
                     trace := [Client_Get_CertificateRequest req;
                               Log_Error e "Unrecognised kind. Ignoring."] |})).
  { unfold action, mark_denied, resolve, setReadyCondition, loaded.
    along. reflexivity. }
  rewrite Ha. cbn [fst snd exit_of].
  match goal with |- context [deferred r ?s0] =>
    destruct (deferred_spec r s0) as (_ & Ht & Hu) end.
  unfold written in Ht, Hu. cbn [err certificateRequest trace cluster result]
    in Ht, Hu.
  split; [reflexivity|].
  split; [apply SetCertificateRequestCondition_In|].
  split; [exact Ht|].
  destruct (Status_Update_answer r failed c) as [updateErr|].
  - destruct Hu as (-> & -> & _). split; reflexivity.
  - destruct Hu as (-> & -> & _). split; reflexivity.
Qed.

Lemma unrecognised_kind_witness :
  let cr := Scenario.request GroupVersion_Group "Signer" None [] in
  let s := snd (reconcile (Scenario.healthy "pending") Scenario.req
                  (Scenario.only cr)) in
  result s = Result_zero /\ err s = None.
Proof.
  intros cr s.
  destruct (unrecognised_kind_marks_the_request_failed
              (Scenario.healthy "pending") Scenario.req (Scenario.only cr) cr
              (errors_New "no kind Signer is registered")
              eq_refl eq_refl eq_refl eq_refl eq_refl)
    as (_ & _ & _ & Hr & He).
  split; [exact Hr | exact He].
Defined.

(** C8 does not hold as stated: when the API server rejects the status
    update, the call for a request of an unrecognised kind returns an
    error. *)
Lemma unrecognised_kind_status_conflict_returns_error :
  let cr := Scenario.request GroupVersion_Group "Signer" None [] in
  let r := Scenario.status_conflict (Scenario.healthy "pending") in
  let out := reconcile r Scenario.req (Scenario.only cr) in
  ignored cr = false
  /\ Scheme_New r (ref_Kind (spec_IssuerRef (Spec cr)))
     = inl (errors_New "no kind Signer is registered")
  /\ fst out = Returned
  /\ err (snd out) = Some (Aggregate [Scenario.conflict])
  /\ err (snd out) <> None.
Proof.
  evaluate.
Qed.

(** ** A URL that does not parse, an issuer variant that is not handled *)

(** C9, as the code has it.  For a request that gets past the ignore checks
    and is not denied: (a) when the issuer is resolved and its URL does not
    parse, the call returns an error that wraps errInvalidBaseUrl (alone, or
    in the aggregate with the error of the status update) and the condition
    written is the non-terminal Ready=False/Pending; (b) when the kind is
    registered but its variant is not handled, the call writes the terminal
    Ready=False/Failed and the action returns no error: the call returns nil
    when the status update succeeds. *)
Theorem bad_url_is_retried_unhandled_variant_is_terminal r req c cr :
  Get_CertificateRequest_err r req = None ->
  c !! req = Some cr ->
  ignored cr = false ->
  let s := snd (reconcile r req c) in
  (forall i secret e0,
      issuer_resolved r cr i secret ->
      url_Parse r (URL (issuer_Spec i)) = inl e0 ->
      let e := Errorf_w_v errInvalidBaseUrl e0 in
      let pending :=
        cmutil.SetCertificateRequestCondition (cmutil_Clock_Now r) (decoded cr)
          CertificateRequestConditionReady ConditionFalse
          CertificateRequestReasonPending (Error e) in
      certificateRequest s = pending
      /\ result s = Result_zero
      /\ match Status_Update_answer r pending c with
         | Some updateErr => err s = Some (Aggregate [e; updateErr])
         | None => err s = Some e
         end)
  /\ (forall t,
        cmutil.CertificateRequestIsDenied cr = false ->
        Scheme_New r (ref_Kind (spec_IssuerRef (Spec cr)))
        = inr (New_OtherObject t) ->
        let e := fmt_Errorf ("unexpected issuer type: " +:+ t) None in
        let failed :=
          cmutil.SetCertificateRequestCondition (cmutil_Clock_Now r) (decoded cr)
            CertificateRequestConditionReady ConditionFalse
            CertificateRequestReasonFailed (Error e) in
        certificateRequest s = failed
        /\ result s = Result_zero
        /\ match Status_Update_answer r failed c with
           | Some updateErr => err s = Some (Aggregate [updateErr])
           | None => err s = None
           end).
Proof.
  intros Hg Hc Hi s. split.
  - intros i secret e0 (Hd & Hk & Hgi & Hr & Hgs) Hu e pending. subst s.
    rewrite (reconcile_active r req c cr Hg Hc Hi). cbn [snd].
    as_decoded cr. set (cr' := decoded cr) in *. clearbody cr'.
    assert (Ha : action r (loaded req cr' c)
                 = (inr Returned,
                    {| certificateRequest := cr'; result := Result_zero;
                       err := Some e; cluster := c;
                       trace :=
                         [Client_Get_CertificateRequest req;
                          Client_Get_Issuer
                            (Namespace cr', ref_Name (spec_IssuerRef (Spec cr')));
                          Client_Get_Secret
                            (Namespace cr', AuthSecretName (issuer_Spec i))] |})).
    { unfold action, mark_denied, resolve, setReadyCondition, loaded.
      along. reflexivity. }
    rewrite Ha. cbn [snd].
    match goal with |- context [deferred r ?s0] =>
      destruct (deferred_spec r s0) as (Hw & _ & Hu') end.
    unfold written in Hw, Hu'.
    cbn [err certificateRequest trace cluster result] in Hw, Hu'.
    fold e pending in Hw, Hu'.
    split; [exact Hw|].
    destruct (Status_Update_answer r pending c) as [updateErr|].
    + destruct Hu' as (-> & -> & _). split; reflexivity.
    + destruct Hu' as (-> & -> & _). split; reflexivity.
  - intros t Hd Hk e failed. subst s.
    rewrite (reconcile_active r req c cr Hg Hc Hi). cbn [snd].
    as_decoded cr. set (cr' := decoded cr) in *. clearbody cr'.
    assert (Ha : action r (loaded req cr' c)
                 = (inr Returned,
                    {| certificateRequest := failed; result := Result_zero;
                       err := None; cluster := c;
                       trace :=
                         [Client_Get_CertificateRequest req;
                          Log_Error e
                            "The issuerRef referred to a registered Kind which is not yet handled. Ignoring."] |})).
    { unfold action, mark_denied, resolve, setReadyCondition, loaded.
      along. reflexivity. }
    rewrite Ha. cbn [snd].
    match goal with |- context [deferred r ?s0] =>
      destruct (deferred_spec r s0) as (Hw & _ & Hu') end.
    unfold written in Hw, Hu'.
    cbn [err certificateRequest trace cluster result] in Hw, Hu'.
    split; [exact Hw|].
    destruct (Status_Update_answer r failed c) as [updateErr|].
    + destruct Hu' as (-> & -> & _). split; reflexivity.
    + destruct Hu' as (-> & -> & _). split; reflexivity.
Qed.

Lemma bad_url_witness :
  let cr := Scenario.fresh (Some Scenario.annotations) in
  let s := snd (reconcile (Scenario.bad_url (Scenario.healthy "pending"))
                  Scenario.req (Scenario.only cr)) in
  err s
  = Some (Errorf_w_v errInvalidBaseUrl (errors_New "parse: invalid URL")).
Proof.
  intros cr s.
  destruct (bad_url_is_retried_unhandled_variant_is_terminal
              (Scenario.bad_url (Scenario.healthy "pending")) Scenario.req
              (Scenario.only cr) cr eq_refl eq_refl eq_refl) as [Hurl _].
  destruct (Hurl Scenario.iss1 Scenario.cred (errors_New "parse: invalid URL"))
    as (_ & _ & He).
  - repeat split.
  - reflexivity.
  - exact He.
Defined.

(** C9 does not hold as stated: for a kind that is registered but whose
    variant is not handled, the call returns no error, and what it writes is
    the terminal condition Ready=False/Failed. *)
Lemma unhandled_variant_returns_no_error :
  let cr :=
    Scenario.request GroupVersion_Group "ClusterIssuer"
      (Some Scenario.annotations) [] in
  let r := Scenario.healthy "pending" in
  let out := reconcile r Scenario.req (Scenario.only cr) in
  Scheme_New r (ref_Kind (spec_IssuerRef (Spec cr)))
  = inr (New_OtherObject "&{ClusterIssuer}")
  /\ fst out = Returned
  /\ err (snd out) = None
  /\ result (snd out) = Result_zero
  /\ (status_Conditions <$> (Status <$> cluster (snd out) !! Scenario.req))
     = Some [ {| cond_Type := CertificateRequestConditionReady;
                 cond_Status := ConditionFalse;
                 cond_LastTransitionTime := Some 1001;
                 cond_Reason := CertificateRequestReasonFailed;
                 cond_Message := "unexpected issuer type: &{ClusterIssuer}" |} ].
Proof.
  evaluate.
Qed.

(** ** Pulling a pending request *)

Lemma with_Status_same cr : with_Status (Status cr) cr = cr.
Proof. destruct cr; reflexivity. Qed.

(** One call that pulls a pending request. *)
Lemma pull_pending_call r req c cr id :
  c !! req = Some cr ->
  (Namespace cr, Name cr) = req ->
  pulls_pending r req cr id ->
  let x := fst (reconcile r req c) in
  let s := snd (reconcile r req c) in
  x = Returned
  /\ certificateRequest s = cr
  /\ cluster s = c
  /\ List.filter is_Requests_Get (trace s) = [HorizonClient_Requests_Get id]
  /\ List.filter is_Enroll (trace s) = []
  /\ List.filter is_write (trace s) = [Client_Status_Update cr]
  /\ match Status_Update_err r cr with
     | None => result s = requeue_after_a_minute /\ err s = None
     | Some updateErr =>
         result s = Result_zero /\ err s = Some (Aggregate [updateErr])
     end.
Proof.
  intros Hc Hkey (Hg & Hi & Happ & Hann & i & secret & baseUrl & request
                  & Hres & Hurl & Hget & Hst) x s. subst x s.
  apply String.eqb_neq in Hst.
  rewrite (reconcile_active r req c cr Hg Hc Hi).
  rewrite (decoded_with_annotation cr _ _ Hann). unfold loaded.
  rewrite (action_resolved r cr i secret baseUrl _ _ _ _ Hres Hurl).
  assert (Hp : forall s0, certificateRequest s0 = cr ->
             submit_or_pull r (issuer_Spec i)
               (Namespace cr, AuthSecretName (issuer_Spec i)) s0
             = (inr Returned,
                set_results requeue_after_a_minute None
                  (add_event (HorizonClient_Requests_Get id)
                     (add_event (Log_Info ("Pulling request " +:+ id)) s0)))).
  { intros [cr0 res0 e0 c0 t0] Hcr0. cbn in Hcr0. subst cr0.
    unfold submit_or_pull, pull. along. reflexivity. }
  rewrite Hp by reflexivity. cbn [fst snd exit_of].
  match goal with |- context [deferred r ?s0] =>
    destruct (deferred_spec r s0) as (Hw & Ht & Hu) end.
  unfold written, Status_Update_answer in Hw, Ht, Hu.
  cbn [err certificateRequest trace cluster result set_results add_event]
    in Hw, Ht, Hu.
  rewrite Hkey, Hc in Hu.
  split; [reflexivity|]. split; [exact Hw|]. rewrite Ht.
  destruct (Status_Update_err r cr) as [updateErr|].
  - destruct Hu as (-> & -> & ->). repeat split.
  - destruct Hu as (-> & -> & stored & Hs & ->). injection Hs as <-.
    rewrite with_Status_same, insert_id by exact Hc. repeat split.
Qed.

(** A sequence of calls that all pull a pending request and persist the
    status: each of them asks for a retry after one minute. *)
Lemma pull_pending_calls req c cr id (rs : list Reconciler) :
  c !! req = Some cr ->
  (Namespace cr, Name cr) = req ->
  Forall (fun r => pulls_pending r req cr id /\ Status_Update_err r cr = None)
    rs ->
  reconciles_results (map (fun r => (r, req)) rs) c
  = map (fun _ => (Returned, requeue_after_a_minute, None)) rs
  /\ reconciles (map (fun r => (r, req)) rs) c = c.
Proof.
  intros Hc Hkey. induction rs as [|r rs IH]; intros Hall.
  - split; reflexivity.
  - inversion Hall as [|? ? [Hp Hu] Hrest]; subst.
    destruct (pull_pending_call r _ c cr id Hc eq_refl Hp)
      as (Hx & _ & Hcl & _ & _ & _ & Hres).
    rewrite Hu in Hres. destruct Hres as [Hr He].
    cbn [map reconciles_results reconciles]. rewrite Hx, Hr, He, Hcl.
    destruct (IH Hrest) as [IH1 IH2]. rewrite IH1, IH2. split; reflexivity.
Qed.

(** C6, as the code has it.  A call that pulls a request whose Horizon
    status is not completed leaves the request as it is, in memory and in
    the cluster (annotation, certificate and conditions, so that a Ready
    condition False/Pending stays), calls get-by-id once and submits
    nothing; when the status update succeeds it returns retry-after one
    minute and no error, when it fails the zero result and the aggregate of
    the update error.  However many such calls follow one another, each
    returns the same fixed minute. *)
Theorem pending_pull_requeues_after_a_minute r req c cr id :
  c !! req = Some cr ->
  (Namespace cr, Name cr) = req ->
  pulls_pending r req cr id ->
  let x := fst (reconcile r req c) in
  let s := snd (reconcile r req c) in
  (x = Returned
   /\ Annotations (certificateRequest s) = Annotations cr
   /\ status_Certificate (Status (certificateRequest s))
      = status_Certificate (Status cr)
   /\ (Ready_is cr ConditionFalse (Some CertificateRequestReasonPending) ->
       Ready_is (certificateRequest s) ConditionFalse
         (Some CertificateRequestReasonPending))
   /\ cluster s = c
   /\ List.filter is_Requests_Get (trace s) = [HorizonClient_Requests_Get id]
   /\ List.filter is_Enroll (trace s) = []
   /\ match Status_Update_err r cr with
      | None => result s = requeue_after_a_minute /\ err s = None
      | Some updateErr =>
          result s = Result_zero /\ err s = Some (Aggregate [updateErr])
      end)
  /\ (forall rs : list Reconciler,
        Forall (fun r' => pulls_pending r' req cr id
                          /\ Status_Update_err r' cr = None) rs ->
        reconciles_results (map (fun r' => (r', req)) rs) c
        = map (fun _ => (Returned, requeue_after_a_minute, None)) rs).
Proof.
  intros Hc Hkey Hp x s.
  destruct (pull_pending_call r req c cr id Hc Hkey Hp)
    as (Hx & Hcr & Hcl & Hget & Henr & _ & Hres).
  fold x s in Hx, Hcr, Hcl, Hget, Henr, Hres.
  split.
  - rewrite Hcr. repeat split; auto.
  - intros rs Hall. apply (pull_pending_calls req c cr id rs Hc Hkey Hall).
Qed.

Lemma pending_pull_witness :
  let r := Scenario.healthy "pending" in
  let out := reconcile r Scenario.req (Scenario.only Scenario.submitted) in
  result (snd out) = requeue_after_a_minute /\ err (snd out) = None
  /\ reconciles_results [(r, Scenario.req); (r, Scenario.req);
                         (r, Scenario.req)]
       (Scenario.only Scenario.submitted)
     = [(Returned, requeue_after_a_minute, None);
        (Returned, requeue_after_a_minute, None);
        (Returned, requeue_after_a_minute, None)].
Proof.
  intros r out.
  assert (Hp : pulls_pending r Scenario.req Scenario.submitted "req-42").
  { repeat split.
    exists Scenario.iss1, Scenario.cred, "https://pki.example",
      {| hr_Id := "req-42"; hr_Status := "pending";
         hr_Certificate := "CERTDATA" |}.
    repeat split. discriminate. }
  destruct (pending_pull_requeues_after_a_minute r Scenario.req
              (Scenario.only Scenario.submitted) Scenario.submitted "req-42"
              eq_refl eq_refl Hp) as [(_ & _ & _ & _ & _ & _ & _ & Hres) Hseq].
  destruct Hres as [Hr He]. split; [exact Hr|]. split; [exact He|].
  apply (Hseq [r; r; r]).
  repeat (constructor; [split; [exact Hp | reflexivity]|]).
  constructor.
Defined.

(** C6 does not hold as stated: get-by-id answers pending, and the API
    server rejects the status update: the call returns the zero result (no
    retry after one minute) and an error. *)
Lemma pending_pull_status_conflict_drops_the_minute :
  let r := Scenario.status_conflict (Scenario.healthy "pending") in
  let out := reconcile r Scenario.req (Scenario.only Scenario.submitted) in
  map_index (Annotations Scenario.submitted) requestIdAnnotation
  = Some "req-42"
  /\ Requests_Get r "req-42"
     = inr {| hr_Id := "req-42"; hr_Status := "pending";
              hr_Certificate := "CERTDATA" |}
  /\ List.filter is_Requests_Get (trace (snd out))
     = [HorizonClient_Requests_Get "req-42"]
  /\ fst out = Returned
  /\ result (snd out) = Result_zero
  /\ result (snd out) <> requeue_after_a_minute
  /\ err (snd out) = Some (Aggregate [Scenario.conflict]).
Proof.
  evaluate.
Qed.

(** ** Panics *)

(** The action panics at two places only: the type assertion on an object
    of the scheme that is not a [client.Object], and the write of the
    request id into a nil annotation map. *)
Lemma action_panics r s msg :
  fst (action r s) = inr (Panicked msg) ->
  Scheme_New r (ref_Kind (spec_IssuerRef (Spec (certificateRequest s))))
  = inr New_NotAnObject
  \/ Annotations (certificateRequest s) = None.
Proof.
  unfold_action. destruct s as [cr res e c t]. paths.
  all: intros H; try discriminate H; auto.
Qed.

(** With at least one annotation on the stored request and a scheme that
    only builds [client.Object]s, every call returns. *)
Lemma reconcile_returns r req c :
  (forall cr, c !! req = Some cr ->
              exists m, Annotations cr = Some m /\ m <> ∅) ->
  (forall kind, Scheme_New r kind <> inr New_NotAnObject) ->
  fst (reconcile r req c) = Returned.
Proof.
  intros Hann Hscheme.
  destruct (Get_CertificateRequest_err r req) as [e|] eqn:Hg;
    [|destruct (c !! req) as [cr|] eqn:Hc].
  - unfold reconcile, Reconcile, Get_CertificateRequest, initial.
    monad. rewrite Hg. monad. destruct (IgnoreNotFound e); reflexivity.
  - destruct (ignored cr) eqn:Hi.
    + destruct (reconcile_ignored r req c cr Hg Hc Hi) as [msg ->].
      reflexivity.
    + rewrite (reconcile_active r req c cr Hg Hc Hi). cbn [fst].
      destruct (fst (action r (loaded req (decoded cr) c)))
        as [[]|[|msg]] eqn:Ha; try reflexivity.
      exfalso. apply action_panics in Ha as [Ha|Ha].
      * exact (Hscheme _ Ha).
      * destruct (Hann cr eq_refl) as (m & Hm & Hne).
        cbn [loaded certificateRequest] in Ha.
        rewrite decoded_same, Hm in Ha by congruence. discriminate Ha.
  - unfold reconcile, Reconcile, Get_CertificateRequest, initial.
    monad. rewrite Hg. monad. rewrite Hc. reflexivity.
Qed.

(** ** The submission and the annotation map *)

(** C10.  On the submission path, once Horizon has accepted the enrollment,
    the request id is written into the annotation map of the request as the
    call holds it.  That map is nil when the stored request carries no
    annotation at all (no map, or an empty one: the client decodes both to
    the nil map); the call then panics (it does not return an error), after
    the enrollment has been sent and without any update of the object.
    When the stored request carries at least one annotation the map is not
    nil and the call returns.  More generally, every call on a request that
    carries at least one annotation returns, as long as the scheme only
    builds [client.Object]s. *)
Theorem submission_needs_an_annotation_map r req c cr i request :
  c !! req = Some cr ->
  submits r req cr i request ->
  let x := fst (reconcile r req c) in
  let s := snd (reconcile r req c) in
  (Annotations cr = None \/ Annotations cr = Some ∅ ->
   Annotations (decoded cr) = None
   /\ x = Panicked "assignment to entry in nil map"
   /\ List.filter is_Enroll (trace s)
      = [HorizonClient_Requests_DecentralizedEnroll (Profile (issuer_Spec i))
           (spec_Request (Spec cr)) []]
   /\ List.filter is_Update (trace s) = []
   /\ Annotations (certificateRequest s) = None)
  /\ (forall m, Annotations cr = Some m -> m <> ∅ ->
      Annotations (decoded cr) = Some m /\ x = Returned)
  /\ (forall r' req' c',
        (forall cr', c' !! req' = Some cr' ->
                     exists m, Annotations cr' = Some m /\ m <> ∅) ->
        (forall kind, Scheme_New r' kind <> inr New_NotAnObject) ->
        fst (reconcile r' req' c') = Returned).
Proof.
  intros Hc (Hg & Hi & Happ & Hann & (secret & baseUrl & Hres & Hurl) & Henr)
    x s.
  split; [|split; [|exact reconcile_returns]].
  - intros Hnil. subst x s.
    assert (Hnil' : Annotations (decoded cr) = None).
    { destruct Hnil as [Hnil|Hnil]; [|exact (decoded_empty cr Hnil)].
      rewrite decoded_same by congruence. exact Hnil. }
    split; [exact Hnil'|].
    rewrite (reconcile_active r req c cr Hg Hc Hi). unfold loaded.
    rewrite <- (decoded_index cr) in Hann. clear Hnil.
    as_decoded cr.
    change (Spec cr) with (Spec (decoded cr)).
    set (cr' := decoded cr) in *. clearbody cr'.
    rewrite (action_resolved r cr' i secret baseUrl _ _ _ _ Hres Hurl).
    assert (Hp : forall s0, certificateRequest s0 = cr' ->
               submit_or_pull r (issuer_Spec i)
                 (Namespace cr', AuthSecretName (issuer_Spec i)) s0
               = (inr (Panicked "assignment to entry in nil map"),
                  add_event
                    (HorizonClient_Requests_DecentralizedEnroll
                       (Profile (issuer_Spec i)) (spec_Request (Spec cr')) [])
                    s0)).
    { intros [cr0 res0 e0 c0 t0] Hcr0. cbn in Hcr0. subst cr0.
      unfold submit_or_pull, submit. along. reflexivity. }
    rewrite Hp by reflexivity. cbn [fst snd exit_of].
    match goal with |- context [deferred r ?s0] =>
      destruct (deferred_spec r s0) as (Hw & Ht & _) end.
    unfold written in Hw, Ht.
    cbn [err certificateRequest trace add_event] in Hw, Ht.
    rewrite Hw, Ht. repeat split. exact Hnil'.
  - intros m Hm Hne.
    assert (Hsame : decoded cr = cr) by (apply decoded_same; congruence).
    split; [rewrite Hsame; exact Hm|]. subst x.
    destruct (fst (reconcile r req c)) as [|msg] eqn:Hx; [reflexivity|].
    exfalso. rewrite (reconcile_active r req c cr Hg Hc Hi) in Hx.
    cbn [fst] in Hx. rewrite Hsame in Hx.
    destruct (fst (action r (loaded req cr c))) as [[]|[|msg']] eqn:Ha;
      try discriminate Hx.
    apply action_panics in Ha as [Ha|Ha].
    + destruct Hres as (_ & Hk & _). cbn in Ha. congruence.
    + cbn in Ha. congruence.
Qed.

Lemma submission_witness :
  let r := Scenario.healthy "pending" in
  fst (reconcile r Scenario.req (Scenario.only (Scenario.fresh None)))
  = Panicked "assignment to entry in nil map"
  /\ fst (reconcile r Scenario.req (Scenario.only (Scenario.fresh (Some ∅))))
     = Panicked "assignment to entry in nil map"
  /\ fst (reconcile r Scenario.req
            (Scenario.only (Scenario.fresh (Some Scenario.annotations))))
     = Returned.
Proof.
  intros r.
  assert (Hs : forall a,
             map_index a requestIdAnnotation = None ->
             submits r Scenario.req (Scenario.fresh a) Scenario.iss1
               {| hr_Id := "req-42"; hr_Status := "pending";
                  hr_Certificate := EmptyString |}).
  { intros a Ha. repeat split; try exact Ha.
    exists Scenario.cred, "https://pki.example". repeat split. }
  split; [|split].
  - apply (submission_needs_an_annotation_map r Scenario.req
             (Scenario.only (Scenario.fresh None)) (Scenario.fresh None)
             Scenario.iss1 _ eq_refl (Hs None eq_refl)).
    left. reflexivity.
  - apply (submission_needs_an_annotation_map r Scenario.req
             (Scenario.only (Scenario.fresh (Some ∅)))
             (Scenario.fresh (Some ∅)) Scenario.iss1 _ eq_refl
             (Hs (Some ∅) (lookup_empty _))).
    right. reflexivity.
  - apply (proj1 (proj2 (submission_needs_an_annotation_map r Scenario.req
                           (Scenario.only
                              (Scenario.fresh (Some Scenario.annotations)))
                           (Scenario.fresh (Some Scenario.annotations))
                           Scenario.iss1 _ eq_refl
                           (Hs (Some Scenario.annotations) eq_refl)))
             Scenario.annotations eq_refl).
    intros H. vm_compute in H. discriminate H.
Defined.

(** ** Once the request id is in the annotation *)

Lemma Set_Namespace now cr type status reason message :
  Namespace (cmutil.SetCertificateRequestCondition now cr type status reason
               message) = Namespace cr.
Proof. apply SetCertificateRequestCondition_frame. Qed.

Lemma Set_Name now cr type status reason message :
  Name (cmutil.SetCertificateRequestCondition now cr type status reason
          message) = Name cr.
Proof. apply SetCertificateRequestCondition_frame. Qed.

Lemma Set_Annotations now cr type status reason message :
  Annotations (cmutil.SetCertificateRequestCondition now cr type status reason
                 message) = Annotations cr.
Proof. apply SetCertificateRequestCondition_frame. Qed.

Lemma Set_FailureTime now cr type status reason message :
  status_FailureTime
    (Status (cmutil.SetCertificateRequestCondition now cr type status reason
               message)) = status_FailureTime (Status cr).
Proof. apply SetCertificateRequestCondition_frame. Qed.

Create Rewrite HintDb frame.
#[local] Hint Rewrite Set_Namespace Set_Name Set_Annotations Set_FailureTime
  : frame.

(** With the request id in the annotation, the action neither submits an
    enrollment nor updates the object: the cluster, the name and the
    annotations of the request are as they were. *)
Lemma action_with_annotation r s id :
  map_index (Annotations (certificateRequest s)) requestIdAnnotation = Some id ->
  let s' := snd (action r s) in
  List.filter is_Enroll (trace s') = List.filter is_Enroll (trace s)
  /\ List.filter is_Update (trace s') = List.filter is_Update (trace s)
  /\ cluster s' = cluster s
  /\ Namespace (certificateRequest s') = Namespace (certificateRequest s)
  /\ Name (certificateRequest s') = Name (certificateRequest s)
  /\ Annotations (certificateRequest s') = Annotations (certificateRequest s).
Proof.
  destruct s as [cr res e c t]. cbn [certificateRequest]. intros Hann.
  unfold_action. paths.
  all: try congruence.
  all: rewrite ?List.filter_app; cbn [List.filter is_Enroll is_Update];
    rewrite ?app_nil_r; repeat (progress (autorewrite with frame; cbn));
    auto 10.
Qed.

(** One call on a request that carries the request id, whatever the
    surroundings answer. *)
Lemma annotated_call r req c cr id :
  c !! req = Some cr ->
  (Namespace cr, Name cr) = req ->
  map_index (Annotations cr) requestIdAnnotation = Some id ->
  let s := snd (reconcile r req c) in
  List.filter is_Enroll (trace s) = []
  /\ List.filter is_Update (trace s) = []
  /\ exists cr',
       cluster s !! req = Some cr'
       /\ (Namespace cr', Name cr') = req
       /\ Annotations cr' = Annotations cr.
Proof.
  intros Hc Hkey Hann.
  destruct (Get_CertificateRequest_err r req) as [e|] eqn:Hg.
  { unfold reconcile, Reconcile, Get_CertificateRequest, initial.
    monad. rewrite Hg. monad.
    destruct (IgnoreNotFound e); cbn; eauto 10. }
  destruct (ignored cr) eqn:Hi.
  { destruct (reconcile_ignored r req c cr Hg Hc Hi) as [msg ->].
    cbn. eauto 10. }
  rewrite (reconcile_active r req c cr Hg Hc Hi). cbn [snd].
  rewrite (decoded_with_annotation cr _ _ Hann).
  set (s_a := snd (action r (loaded req cr c))).
  destruct (action_with_annotation r (loaded req cr c) id Hann)
    as (He & Hu & Hcl & Hns & Hn & Ha).
  fold s_a in He, Hu, Hcl, Hns, Hn, Ha.
  cbn [loaded certificateRequest cluster trace List.filter is_Enroll
       is_Update] in He, Hu, Hcl, Hns, Hn, Ha.
  destruct (deferred_spec r s_a) as (Hw & Ht & Hres).
  assert (Hwn : (Namespace (written r s_a), Name (written r s_a)) = req).
  { unfold written. destruct (err s_a); autorewrite with frame;
      rewrite Hns, Hn; exact Hkey. }
  rewrite Ht, !List.filter_app, He, Hu. cbn [List.filter is_Enroll is_Update app].
  split; [reflexivity|]. split; [reflexivity|].
  destruct (Status_Update_answer r _ _) as [updateErr|].
  - destruct Hres as (_ & _ & ->). rewrite Hcl. eauto.
  - destruct Hres as (_ & _ & stored & Hs & ->).
    rewrite Hwn in *. rewrite Hcl, Hc in Hs. injection Hs as <-.
    rewrite lookup_insert_eq. eexists. split; [reflexivity|].
    split; [exact Hkey | reflexivity].
Qed.

(** Over any sequence of calls on that request, no enrollment is
    submitted. *)
Lemma annotated_calls req id (rs : list Reconciler) :
  forall c cr,
    c !! req = Some cr ->
    (Namespace cr, Name cr) = req ->
    map_index (Annotations cr) requestIdAnnotation = Some id ->
    List.filter is_Enroll
      (reconciles_trace (map (fun r => (r, req)) rs) c) = [].
Proof.
  induction rs as [|r rs IH]; intros c cr Hc Hkey Hann; [reflexivity|].
  cbn [map reconciles_trace].
  destruct (annotated_call r req c cr id Hc Hkey Hann)
    as (He & _ & cr' & Hc' & Hkey' & Hann').
  rewrite List.filter_app, He. cbn [app].
  apply (IH _ cr' Hc' Hkey'). rewrite Hann'. exact Hann.
Qed.

(** A call that reaches Horizon with the request id in the annotation calls
    get-by-id once, with that id. *)
Lemma annotated_call_pulls r req c cr id :
  c !! req = Some cr ->
  reaches_Horizon r req cr ->
  map_index (Annotations cr) requestIdAnnotation = Some id ->
  List.filter is_Requests_Get (trace (snd (reconcile r req c)))
  = [HorizonClient_Requests_Get id].
Proof.
  intros Hc (Hg & Hi & Happ & i & secret & baseUrl & Hres & Hurl) Hann.
  rewrite (reconcile_active r req c cr Hg Hc Hi).
  rewrite (decoded_with_annotation cr _ _ Hann). unfold loaded.
  rewrite (action_resolved r cr i secret baseUrl _ _ _ _ Hres Hurl).
  cbn [snd].
  match goal with |- context [deferred r ?s0] =>
    destruct (deferred_spec r s0) as (_ & -> & _) end.
  rewrite List.filter_app. cbn [List.filter is_Requests_Get]. rewrite app_nil_r.
  unfold submit_or_pull, pull, setReadyCondition, resolve_calls.
  monad. rewrite Happ. monad. rewrite Hann. paths.
  all: rewrite ?List.filter_app; reflexivity.
Qed.

(** The action calls get-by-id only for a request that is not approved,
    once the issuer is resolved and its URL parsed. *)
Lemma action_Requests_Get r s :
  let cr := certificateRequest s in
  List.filter is_Requests_Get (trace (snd (action r s)))
  = List.filter is_Requests_Get (trace s)
  \/ (cmutil.CertificateRequestIsApproved cr = false
      /\ exists i secret baseUrl,
           issuer_resolved r cr i secret
           /\ url_Parse r (URL (issuer_Spec i)) = inr baseUrl).
Proof.
  destruct s as [cr res e c t]. cbn [certificateRequest]. unfold_action.
  paths.
  all: rewrite ?List.filter_app; cbn [List.filter is_Requests_Get];
    rewrite ?app_nil_r.
  all: first
    [ left; reflexivity
    | right; split; [first [assumption | reflexivity]|]; eexists _, _, _;
      split; [unfold issuer_resolved; repeat split; eassumption|];
      eassumption ].
Qed.

(** A call that does not reach Horizon makes no get-by-id call. *)
Lemma unreached_Horizon_is_not_asked r req c cr :
  c !! req = Some cr ->
  ~ reaches_Horizon r req cr ->
  List.filter is_Requests_Get (trace (snd (reconcile r req c))) = [].
Proof.
  intros Hc Hno.
  destruct (Get_CertificateRequest_err r req) as [e|] eqn:Hg.
  { unfold reconcile, Reconcile, Get_CertificateRequest, initial.
    monad. rewrite Hg. monad. destruct (IgnoreNotFound e); reflexivity. }
  destruct (ignored cr) eqn:Hi.
  { destruct (reconcile_ignored r req c cr Hg Hc Hi) as [msg ->].
    reflexivity. }
  rewrite (reconcile_active r req c cr Hg Hc Hi). cbn [snd].
  match goal with |- context [deferred r ?s0] =>
    destruct (deferred_spec r s0) as (_ & -> & _) end.
  rewrite List.filter_app. cbn [List.filter is_Requests_Get].
  rewrite app_nil_r.
  destruct (action_Requests_Get r (loaded req (decoded cr) c))
    as [H|(Happ & i & secret & baseUrl & Hres & Hurl)]; [exact H|].
  exfalso. apply Hno. split; [exact Hg|]. split; [exact Hi|].
  split; [exact Happ|]. exists i, secret, baseUrl.
  split; [exact Hres | exact Hurl].
Qed.

(** C2, as the code has it.  For a request that is stored under its name
    and carries the request id in its annotation: no call of Reconcile on it
    submits an enrollment or updates the object, and the annotation stays as
    it is in the cluster, so that no sequence of calls ever submits; a call
    that reaches the Horizon service (request not ignored, not denied and
    not approved, issuer resolved, URL parsed) calls get-by-id exactly once,
    with the id of the annotation, and a call that does not reach it makes
    no get-by-id call. *)
Theorem annotated_request_is_pulled_and_never_resubmitted req c cr id :
  c !! req = Some cr ->
  (Namespace cr, Name cr) = req ->
  map_index (Annotations cr) requestIdAnnotation = Some id ->
  (forall r,
      let s := snd (reconcile r req c) in
      List.filter is_Enroll (trace s) = []
      /\ List.filter is_Update (trace s) = []
      /\ exists cr',
           cluster s !! req = Some cr' /\ Annotations cr' = Annotations cr)
  /\ (forall rs : list Reconciler,
        List.filter is_Enroll
          (reconciles_trace (map (fun r => (r, req)) rs) c) = [])
  /\ (forall r,
        reaches_Horizon r req cr ->
        List.filter is_Requests_Get (trace (snd (reconcile r req c)))
        = [HorizonClient_Requests_Get id])
  /\ (forall r,
        ~ reaches_Horizon r req cr ->
        List.filter is_Requests_Get (trace (snd (reconcile r req c))) = []).
Proof.
  intros Hc Hkey Hann. split; [|split; [|split]].
  - intros r s.
    destruct (annotated_call r req c cr id Hc Hkey Hann)
      as (He & Hu & cr' & Hc' & _ & Ha).
    eauto 10.
  - intros rs. exact (annotated_calls req id rs c cr Hc Hkey Hann).
  - intros r Hr. exact (annotated_call_pulls r req c cr id Hc Hr Hann).
  - intros r Hr. exact (unreached_Horizon_is_not_asked r req c cr Hc Hr).
Qed.

Lemma annotated_request_witness :
  let r := Scenario.healthy "completed" in
  List.filter is_Enroll
    (reconciles_trace [(Scenario.healthy "pending", Scenario.req);
                       (r, Scenario.req); (r, Scenario.req)]
       (Scenario.only Scenario.submitted)) = []
  /\ List.filter is_Requests_Get
       (trace (snd (reconcile r Scenario.req
                      (Scenario.only Scenario.submitted))))
     = [HorizonClient_Requests_Get "req-42"].
Proof.
  intros r.
  destruct (annotated_request_is_pulled_and_never_resubmitted Scenario.req
              (Scenario.only Scenario.submitted) Scenario.submitted "req-42"
              eq_refl eq_refl eq_refl) as (_ & Hseq & Hpull & _).
  split.
  - exact (Hseq [Scenario.healthy "pending"; r; r]).
  - apply Hpull. repeat split.
    exists Scenario.iss1, Scenario.cred, "https://pki.example".
    repeat split.
Defined.

(** C2 does not hold as stated: a request that carries the request id, whose
    Ready condition is the non-terminal False/Pending and that an approver
    has approved is not pulled, although every collaborator is healthy: the
    call makes no get-by-id call and asks for no retry. *)
Lemma approved_request_with_annotation_is_not_pulled :
  let cr :=
    Scenario.request GroupVersion_Group "Issuer"
      (Some {[ requestIdAnnotation := "req-42" ]})
      [ Scenario.condition CertificateRequestConditionReady ConditionFalse
          CertificateRequestReasonPending;
        Scenario.condition CertificateRequestConditionApproved ConditionTrue
          "cert-manager.io" ] in
  let out := reconcile (Scenario.healthy "completed") Scenario.req
               (Scenario.only cr) in
  map_index (Annotations cr) requestIdAnnotation = Some "req-42"
  /\ ignored cr = false
  /\ fst out = Returned
  /\ List.filter is_Requests_Get (trace (snd out)) = []
  /\ List.filter is_Horizon_call (trace (snd out))
     = [HorizonClient_Init "https://pki.example" "horizon-user"
          "horizon-pass"]
  /\ result (snd out) = Result_zero
  /\ err (snd out) = None.
Proof.
  evaluate.
Qed.

(** ** The failure time *)

(** What the action leaves of a request stored under its name: the request
    in memory keeps its name and a failure time that was set, and the
    cluster is either as it was or holds, under that name, an object with
    the same name that keeps a failure time that was set. *)
Lemma action_keeps_FailureTime r req c stored cr :
  c !! req = Some stored ->
  (Namespace cr, Name cr) = req ->
  Status cr = Status stored ->
  let s' := snd (action r (loaded req cr c)) in
  (Namespace (certificateRequest s'), Name (certificateRequest s')) = req
  /\ (forall t, status_FailureTime (Status cr) = Some t ->
        status_FailureTime (Status (certificateRequest s')) = Some t)
  /\ (cluster s' = c
      \/ exists o',
           cluster s' = <[req := o']> c
           /\ (Namespace o', Name o') = req
           /\ (forall t, status_FailureTime (Status cr) = Some t ->
                 status_FailureTime (Status o') = Some t)).
Proof.
  intros Hc Hkey Hst. unfold loaded. unfold_action. paths.
  all: repeat (progress (autorewrite with frame;
                         cbn [Namespace Name Status status_FailureTime
                              with_Status with_Annotations with_Certificate
                              with_FailureTime certificateRequest cluster])).
  all: try (split; [exact Hkey|]; split; [congruence|]; left; reflexivity).
  all: match goal with
       | H : _ !! _ = Some _ |- _ =>
           cbn [Namespace Name with_Annotations] in H;
           rewrite Hkey, Hc in H; injection H as <-
       end.
  all: rewrite Hkey, <- ?Hst.
  all: split; [reflexivity|]; split; [auto|]; right; eexists;
    (split; [reflexivity|]); split; [exact Hkey | cbn; auto].
Qed.

(** The cluster after one call: as it was, or with the reconciled request
    replaced by an object of the same name that keeps a failure time that
    was set. *)
Lemma reconcile_cluster r req c :
  well_formed c ->
  let c' := cluster (snd (reconcile r req c)) in
  c' = c
  \/ exists cr o',
       c !! req = Some cr
       /\ c' = <[req := o']> c
       /\ (Namespace o', Name o') = req
       /\ (forall t, status_FailureTime (Status cr) = Some t ->
             status_FailureTime (Status o') = Some t).
Proof.
  intros Hwf.
  destruct (Get_CertificateRequest_err r req) as [e|] eqn:Hg.
  { left. unfold reconcile, Reconcile, Get_CertificateRequest, initial.
    monad. rewrite Hg. monad. destruct (IgnoreNotFound e); reflexivity. }
  destruct (c !! req) as [cr|] eqn:Hc.
  2:{ left. unfold reconcile, Reconcile, Get_CertificateRequest, initial.
      monad. rewrite Hg. monad. rewrite Hc. reflexivity. }
  destruct (ignored cr) eqn:Hi.
  { left. destruct (reconcile_ignored r req c cr Hg Hc Hi) as [msg ->].
    reflexivity. }
  pose proof (Hwf req cr Hc) as Hkey.
  rewrite (reconcile_active r req c cr Hg Hc Hi). cbn [snd].
  set (s_a := snd (action r (loaded req (decoded cr) c))).
  destruct (action_keeps_FailureTime r req c cr (decoded cr) Hc Hkey eq_refl)
    as (Hn & Hft & Hcl).
  change (Status (decoded cr)) with (Status cr) in Hft, Hcl.
  fold s_a in Hn, Hft, Hcl.
  destruct (deferred_spec r s_a) as (_ & _ & Hres).
  assert (Hwn : (Namespace (written r s_a), Name (written r s_a)) = req).
  { unfold written. destruct (err s_a); autorewrite with frame; exact Hn. }
  assert (Hwft : forall t, status_FailureTime (Status cr) = Some t ->
            status_FailureTime (Status (written r s_a)) = Some t).
  { intros t Ht. unfold written.
    destruct (err s_a); autorewrite with frame; exact (Hft t Ht). }
  destruct (Status_Update_answer r _ _) as [updateErr|].
  - destruct Hres as (_ & _ & ->).
    destruct Hcl as [-> | (o' & -> & Ho' & Hfo')]; [left; reflexivity|].
    right. exists cr, o'. auto.
  - destruct Hres as (_ & _ & stored & Hs & ->). rewrite Hwn in *.
    right. exists cr.
    destruct Hcl as [Hcl | (o' & Hcl & Ho' & Hfo')]; rewrite Hcl in *.
    + rewrite Hc in Hs. injection Hs as <-.
      eexists. split; [reflexivity|]. split; [reflexivity|].
      split; [exact Hkey | exact Hwft].
    + rewrite lookup_insert_eq in Hs. injection Hs as <-.
      rewrite insert_insert_eq.
      eexists. split; [reflexivity|]. split; [reflexivity|].
      split; [exact Ho' | exact Hwft].
Qed.

Lemma reconcile_well_formed r req c :
  well_formed c -> well_formed (cluster (snd (reconcile r req c))).
Proof.
  intros Hwf.
  destruct (reconcile_cluster r req c Hwf) as [-> | (cr & o' & _ & -> & Ho' & _)];
    [exact Hwf|].
  intros k o Hk. destruct (decide (req = k)) as [<-|Hne].
  - rewrite lookup_insert_eq in Hk. injection Hk as <-. exact Ho'.
  - rewrite lookup_insert_ne in Hk by exact Hne. exact (Hwf k o Hk).
Qed.

(** A failure time that is stored is still there after one call, whatever
    request the call is for. *)
Lemma reconcile_keeps_FailureTime r req c k o t :
  well_formed c ->
  c !! k = Some o ->
  status_FailureTime (Status o) = Some t ->
  exists o',
    cluster (snd (reconcile r req c)) !! k = Some o'
    /\ status_FailureTime (Status o') = Some t.
Proof.
  intros Hwf Hk Ht.
  destruct (reconcile_cluster r req c Hwf)
    as [-> | (cr & o' & Hc & -> & Ho' & Hfo')]; [eauto|].
  destruct (decide (req = k)) as [<-|Hne].
  - rewrite lookup_insert_eq. rewrite Hc in Hk. injection Hk as <-. eauto.
  - rewrite lookup_insert_ne by exact Hne. eauto.
Qed.

(** And after any sequence of calls. *)
Lemma FailureTime_set_once calls :
  forall c k o t,
    well_formed c ->
    c !! k = Some o ->
    status_FailureTime (Status o) = Some t ->
    exists o',
      reconciles calls c !! k = Some o'
      /\ status_FailureTime (Status o') = Some t.
Proof.
  induction calls as [|[r req] calls IH]; intros c k o t Hwf Hk Ht.
  - cbn. eauto.
  - cbn [reconciles].
    destruct (reconcile_keeps_FailureTime r req c k o t Hwf Hk Ht)
      as (o' & Hk' & Ht').
    exact (IH _ k o' t (reconcile_well_formed r req c Hwf) Hk' Ht').
Qed.

(** ** A denied request *)

(** C4, as the code has it.  For a request stored under its name that gets
    past the ignore checks (so that Ready is not yet False/Denied) and
    carries the denial: the call sets the failure time to the time of the
    injected clock when it is not set and leaves it as it is otherwise, sets
    Ready to False with reason Denied, makes no call to Horizon and returns
    the zero result; when the status update succeeds it returns no error and
    the cluster holds the request so marked (the request in memory is that
    request, as decoded), when it fails it returns the aggregate of the
    update error and the cluster is as it was.  A failure
    time that is stored is never changed by any later sequence of calls. *)
Theorem newly_denied_request_is_marked_and_failure_time_set_once
    r req c cr :
  Get_CertificateRequest_err r req = None ->
  well_formed c ->
  c !! req = Some cr ->
  ignored cr = false ->
  cmutil.CertificateRequestIsDenied cr = true ->
  let x := fst (reconcile r req c) in
  let s := snd (reconcile r req c) in
  let failureTime :=
    match status_FailureTime (Status cr) with
    | Some t => t
    | None => Clock_Now r
    end in
  let marked :=
    cmutil.SetCertificateRequestCondition (cmutil_Clock_Now r)
      (with_Status (with_FailureTime (Some failureTime) (Status cr)) cr)
      CertificateRequestConditionReady ConditionFalse
      CertificateRequestReasonDenied denied_message in
  (x = Returned
   /\ certificateRequest s = decoded marked
   /\ status_FailureTime (Status marked) = Some failureTime
   /\ (exists ltt,
         In {| cond_Type := CertificateRequestConditionReady;
               cond_Status := ConditionFalse;
               cond_LastTransitionTime := ltt;
               cond_Reason := CertificateRequestReasonDenied;
               cond_Message := denied_message |}
            (status_Conditions (Status marked)))
   /\ List.filter is_Horizon_call (trace s) = []
   /\ result s = Result_zero
   /\ match Status_Update_err r (decoded marked) with
      | None => err s = None /\ cluster s = <[req := marked]> c
      | Some updateErr =>
          err s = Some (Aggregate [updateErr]) /\ cluster s = c
      end)
  /\ (forall calls c0 k o t,
        well_formed c0 ->
        c0 !! k = Some o ->
        status_FailureTime (Status o) = Some t ->
        exists o',
          reconciles calls c0 !! k = Some o'
          /\ status_FailureTime (Status o') = Some t).
Proof.
  intros Hg Hwf Hc Hi Hd x s failureTime marked.
  split; [|intros calls c0 k o t; apply FailureTime_set_once].
  pose proof (Hwf req cr Hc) as Hkey.
  subst x s. rewrite (reconcile_active r req c cr Hg Hc Hi). cbn [fst snd].
  assert (Ha : action r (loaded req (decoded cr) c)
               = (inr Returned,
                  {| certificateRequest := decoded marked;
                     result := Result_zero;
                     err := None; cluster := c;
                     trace :=
                       [Client_Get_CertificateRequest req;
                        Log_Info
                          "CertificateRequest has been denied yet. Marking as failed."] |})).
  { unfold action, mark_denied, setReadyCondition, loaded.
    monad. change (cmutil.CertificateRequestIsDenied (decoded cr))
      with (cmutil.CertificateRequestIsDenied cr). rewrite Hd.
    subst marked failureTime. rewrite decoded_Set.
    change (Status (decoded cr)) with (Status cr).
    destruct (status_FailureTime (Status cr)) as [t|] eqn:Hft; monad.
    - replace (decoded
                 (with_Status (with_FailureTime (Some t) (Status cr)) cr))
        with (decoded cr); [reflexivity|].
      destruct cr as [ns n a sp [cs ce ft]]. cbn in Hft. subst ft.
      reflexivity.
    - reflexivity. }
  rewrite Ha. cbn [fst snd exit_of].
  match goal with |- context [deferred r ?s0] =>
    destruct (deferred_spec r s0) as (Hw & Ht & Hu) end.
  unfold written, Status_Update_answer in Hw, Ht, Hu.
  cbn [err certificateRequest trace cluster result] in Hw, Ht, Hu.
  assert (Hmk : (Namespace (decoded marked), Name (decoded marked)) = req).
  { subst marked. rewrite decoded_Set. autorewrite with frame. exact Hkey. }
  rewrite Hmk, Hc in Hu.
  split; [reflexivity|]. split; [exact Hw|].
  split; [subst marked; autorewrite with frame; reflexivity|].
  split; [apply SetCertificateRequestCondition_In|].
  rewrite Ht. split; [reflexivity|].
  destruct (Status_Update_err r (decoded marked)) as [updateErr|].
  - destruct Hu as (-> & -> & ->). repeat split.
  - destruct Hu as (-> & -> & stored & Hs & ->). injection Hs as <-.
    split; [reflexivity|]. split; [reflexivity|].
    f_equal. subst marked. unfold cmutil.SetCertificateRequestCondition.
    destruct (cmutil.overwrite _ _); reflexivity.
Qed.

Lemma newly_denied_witness :
  let r := Scenario.healthy "pending" in
  let s := snd (reconcile r Scenario.req (Scenario.only Scenario.denied)) in
  status_FailureTime (Status (certificateRequest s)) = Some 1000
  /\ result s = Result_zero /\ err s = None
  /\ exists o',
       reconciles [(r, Scenario.req); (Scenario.healthy "completed", Scenario.req)]
         (cluster s) !! Scenario.req = Some o'
       /\ status_FailureTime (Status o') = Some 1000.
Proof.
  intros r s.
  assert (Hwf : well_formed (Scenario.only Scenario.denied)).
  { intros k o Hk. unfold Scenario.only in Hk.
    apply lookup_singleton_Some in Hk as [<- <-].
    reflexivity. }
  destruct (newly_denied_request_is_marked_and_failure_time_set_once r
              Scenario.req (Scenario.only Scenario.denied) Scenario.denied
              eq_refl Hwf eq_refl eq_refl eq_refl)
    as ((_ & Hcr & Hft & _ & _ & Hr & He) & Hseq).
  cbn [Scenario.healthy Status_Update_err] in He. destruct He as [He Hcl].
  fold s in Hcr, Hr, He, Hcl.
  split; [rewrite Hcr; exact Hft|]. split; [exact Hr|]. split; [exact He|].
  eapply (Hseq _ (cluster s) Scenario.req _ 1000).
  - apply reconcile_well_formed. exact Hwf.
  - rewrite Hcl. apply lookup_insert_eq.
  - exact Hft.
Defined.

(** C4 does not hold as stated: when the API server rejects the status
    update, the call for a newly denied request returns an error, and the
    denial is not stored. *)
Lemma newly_denied_status_conflict_returns_error :
  let r := Scenario.status_conflict (Scenario.healthy "pending") in
  let out := reconcile r Scenario.req (Scenario.only Scenario.denied) in
  cmutil.CertificateRequestIsDenied Scenario.denied = true
  /\ ignored Scenario.denied = false
  /\ fst out = Returned
  /\ err (snd out) = Some (Aggregate [Scenario.conflict])
  /\ err (snd out) <> None
  /\ cluster (snd out) = Scenario.only Scenario.denied.
Proof.
  evaluate.
Qed.

(** ** Submitting a fresh request *)

(** One call that submits, for a request that carries at least one
    annotation: the enrollment is sent once, the request id is written in
    the annotation and the object updated, Ready becomes False/Pending, and
    the call asks for a retry after one minute. *)
Lemma submit_call r req c cr i request m :
  c !! req = Some cr ->
  (Namespace cr, Name cr) = req ->
  submits r req cr i request ->
  Annotations cr = Some m ->
  m <> ∅ ->
  let annotated :=
    with_Annotations (Some (<[requestIdAnnotation := hr_Id request]> m)) cr in
  let pending :=
    cmutil.SetCertificateRequestCondition (cmutil_Clock_Now r) annotated
      CertificateRequestConditionReady ConditionFalse
      CertificateRequestReasonPending "Submitted request to Horizon" in
  Update_err r annotated = None ->
  Status_Update_err r pending = None ->
  let x := fst (reconcile r req c) in
  let s := snd (reconcile r req c) in
  x = Returned /\ result s = requeue_after_a_minute /\ err s = None
  /\ cluster s = <[req := pending]> c
  /\ List.filter is_Enroll (trace s)
     = [HorizonClient_Requests_DecentralizedEnroll (Profile (issuer_Spec i))
          (spec_Request (Spec cr)) []]
  /\ List.filter is_Requests_Get (trace s) = []
  /\ List.filter is_write (trace s)
     = [Client_Update annotated; Client_Status_Update pending].
Proof.
  intros Hc Hkey
    (Hg & Hi & Happ & Hann & (secret & baseUrl & Hres & Hurl) & Henr)
    Hm Hne annotated pending Hupd Hsupd x s. subst x s.
  rewrite (reconcile_active r req c cr Hg Hc Hi).
  rewrite (decoded_same cr) by congruence. unfold loaded.
  rewrite (action_resolved r cr i secret baseUrl _ _ _ _ Hres Hurl).
  assert (Hc' : c !! (Namespace annotated, Name annotated) = Some cr)
    by (cbn; rewrite Hkey; exact Hc).
  assert (Hp : forall t0,
             submit_or_pull r (issuer_Spec i)
               (Namespace cr, AuthSecretName (issuer_Spec i))
               {| certificateRequest := cr; result := Result_zero;
                  err := None; cluster := c; trace := t0 |}
             = (inr Returned,
                {| certificateRequest := pending;
                   result := requeue_after_a_minute; err := None;
                   cluster := <[req := annotated]> c;
                   trace :=
                     (t0 ++ [HorizonClient_Requests_DecentralizedEnroll
                               (Profile (issuer_Spec i))
                               (spec_Request (Spec cr)) []])
                     ++ [Client_Update annotated] |})).
  { intros t0. subst pending annotated.
    unfold submit_or_pull, submit, Update, setReadyCondition.
    along. cbn [Namespace Name with_Annotations]. rewrite Hkey. reflexivity. }
  rewrite Hp. cbn [fst snd exit_of].
  match goal with |- context [deferred r ?s0] =>
    destruct (deferred_spec r s0) as (_ & Ht & Hu) end.
  unfold written, Status_Update_answer in Ht, Hu.
  cbn [err certificateRequest trace cluster result] in Ht, Hu.
  assert (Hpk : (Namespace pending, Name pending) = req).
  { subst pending annotated. autorewrite with frame. exact Hkey. }
  rewrite Hsupd, Hpk, lookup_insert_eq in Hu.
  destruct Hu as (-> & -> & stored & Hs & ->). injection Hs as <-.
  rewrite Ht, insert_insert_eq.
  split; [reflexivity|]. split; [reflexivity|]. split; [reflexivity|].
  split.
  - f_equal. subst pending. unfold cmutil.SetCertificateRequestCondition.
    destruct (cmutil.overwrite _ _); reflexivity.
  - unfold resolve_calls.
    rewrite !List.filter_app. repeat split.
Qed.

(** One call that pulls a completed request: the Approved condition is set
    to True, the certificate of Horizon is copied into the status, Ready
    becomes True/Issued, and the call asks for no retry. *)
Lemma pull_completed_call r req c cr id request :
  c !! req = Some cr ->
  (Namespace cr, Name cr) = req ->
  reaches_Horizon r req cr ->
  map_index (Annotations cr) requestIdAnnotation = Some id ->
  Requests_Get r id = inr request ->
  hr_Status request = "completed" ->
  let approved :=
    cmutil.SetCertificateRequestCondition (cmutil_Clock_Now r) cr
      CertificateRequestConditionApproved ConditionTrue
      "horizon.evertrust.io" "Request approved on Horizon" in
  let issued :=
    cmutil.SetCertificateRequestCondition (cmutil_Clock_Now r)
      (with_Status
         (with_Certificate (list_byte_of_string (hr_Certificate request))
            (Status approved)) approved)
      CertificateRequestConditionReady ConditionTrue
      CertificateRequestReasonIssued "Signed" in
  Status_Update_err r issued = None ->
  let x := fst (reconcile r req c) in
  let s := snd (reconcile r req c) in
  x = Returned /\ result s = Result_zero /\ err s = None
  /\ cluster s = <[req := issued]> c
  /\ status_Certificate (Status issued)
     = list_byte_of_string (hr_Certificate request)
  /\ Annotations issued = Annotations cr
  /\ List.filter is_Requests_Get (trace s) = [HorizonClient_Requests_Get id]
  /\ List.filter is_Enroll (trace s) = []
  /\ List.filter is_write (trace s) = [Client_Status_Update issued].
Proof.
  intros Hc Hkey (Hg & Hi & Happ & i & secret & baseUrl & Hres & Hurl)
    Hann Hget Hst approved issued Hsupd x s. subst x s.
  apply String.eqb_eq in Hst.
  rewrite (reconcile_active r req c cr Hg Hc Hi).
  rewrite (decoded_with_annotation cr _ _ Hann). unfold loaded.
  rewrite (action_resolved r cr i secret baseUrl _ _ _ _ Hres Hurl).
  assert (Hp : forall t0,
             submit_or_pull r (issuer_Spec i)
               (Namespace cr, AuthSecretName (issuer_Spec i))
               {| certificateRequest := cr; result := Result_zero;
                  err := None; cluster := c; trace := t0 |}
             = (inr Returned,
                {| certificateRequest := issued; result := Result_zero;
                   err := None; cluster := c;
                   trace := (t0 ++ [Log_Info ("Pulling request " +:+ id)])
                            ++ [HorizonClient_Requests_Get id] |})).
  { intros t0. subst issued approved.
    unfold submit_or_pull, pull, setReadyCondition. along. reflexivity. }
  rewrite Hp. cbn [fst snd exit_of].
  match goal with |- context [deferred r ?s0] =>
    destruct (deferred_spec r s0) as (_ & Ht & Hu) end.
  unfold written, Status_Update_answer in Ht, Hu.
  cbn [err certificateRequest trace cluster result] in Ht, Hu.
  assert (Hik : (Namespace issued, Name issued) = req).
  { subst issued approved.
    repeat (progress (autorewrite with frame;
                      cbn [Namespace Name with_Status])).
    exact Hkey. }
  rewrite Hsupd, Hik, Hc in Hu.
  destruct Hu as (-> & -> & stored & Hs & ->). injection Hs as <-.
  rewrite Ht.
  split; [reflexivity|]. split; [reflexivity|]. split; [reflexivity|].
  split.
  { f_equal. subst issued approved.
    unfold cmutil.SetCertificateRequestCondition.
    repeat (destruct (cmutil.overwrite _ _); cbn); reflexivity. }
  split.
  { subst issued.
    destruct (SetCertificateRequestCondition_frame (cmutil_Clock_Now r)
                (with_Status
                   (with_Certificate
                      (list_byte_of_string (hr_Certificate request))
                      (Status approved)) approved)
                CertificateRequestConditionReady ConditionTrue
                CertificateRequestReasonIssued "Signed")
      as (_ & _ & _ & _ & -> & _).
    reflexivity. }
  split.
  { subst issued approved.
    repeat (progress (autorewrite with frame; cbn [Annotations with_Status])).
    reflexivity. }
  unfold resolve_calls. rewrite !List.filter_app. repeat split.
Qed.

(** X9.  The life of a request that carries at least one annotation.  A
    fresh request (no condition, no request id) of our group, stored under
    its name, and three calls with healthy collaborators: the first submits
    the enrollment once, with the profile of the issuer, the CSR and no
    label, stores the id in the annotation, sets Ready=False/Pending and
    asks for a retry after one minute; the second, while Horizon answers a
    status that is not completed, calls get-by-id, changes nothing and asks
    for a retry after one minute; the third, when Horizon answers completed,
    stores the certificate, sets Approved=True and Ready=True/Issued and
    asks for no retry. *)
Lemma fresh_request_is_submitted_pulled_and_issued
    r1 r2 r3 req c cr m i1 i2 i3 request answer2 answer3 :
  c !! req = Some cr ->
  (Namespace cr, Name cr) = req ->
  ref_Group (spec_IssuerRef (Spec cr)) = GroupVersion_Group ->
  status_Conditions (Status cr) = [] ->
  Annotations cr = Some m ->
  m !! requestIdAnnotation = None ->
  m <> ∅ ->
  healthy_for r1 req cr i1 ->
  healthy_for r2 req cr i2 ->
  healthy_for r3 req cr i3 ->
  Requests_DecentralizedEnroll r1 (Profile (issuer_Spec i1))
    (spec_Request (Spec cr)) [] = inr request ->
  Requests_Get r2 (hr_Id request) = inr answer2 ->
  hr_Status answer2 <> "completed" ->
  Requests_Get r3 (hr_Id request) = inr answer3 ->
  hr_Status answer3 = "completed" ->
  let out1 := reconcile r1 req c in
  let out2 := reconcile r2 req (cluster (snd out1)) in
  let out3 := reconcile r3 req (cluster (snd out2)) in
  (fst out1 = Returned /\ err (snd out1) = None
   /\ result (snd out1) = requeue_after_a_minute
   /\ List.filter is_Enroll (trace (snd out1))
      = [HorizonClient_Requests_DecentralizedEnroll
           (Profile (issuer_Spec i1)) (spec_Request (Spec cr)) []]
   /\ exists cr1,
        cluster (snd out1) !! req = Some cr1
        /\ Annotations cr1
           = Some (<[requestIdAnnotation := hr_Id request]> m)
        /\ Ready_is cr1 ConditionFalse (Some CertificateRequestReasonPending))
  /\ (fst out2 = Returned /\ err (snd out2) = None
      /\ result (snd out2) = requeue_after_a_minute
      /\ List.filter is_Requests_Get (trace (snd out2))
         = [HorizonClient_Requests_Get (hr_Id request)]
      /\ List.filter is_Enroll (trace (snd out2)) = []
      /\ cluster (snd out2) = cluster (snd out1))
  /\ (fst out3 = Returned /\ err (snd out3) = None
      /\ result (snd out3) = Result_zero
      /\ List.filter is_Enroll (trace (snd out3)) = []
      /\ exists cr3,
           cluster (snd out3) !! req = Some cr3
           /\ status_Certificate (Status cr3)
              = list_byte_of_string (hr_Certificate answer3)
           /\ cmutil.CertificateRequestIsApproved cr3 = true
           /\ Ready_is cr3 ConditionTrue (Some CertificateRequestReasonIssued)).
Proof.
  intros Hc Hkey Hgroup Hconds Hm Hfree Hne H1 H2 H3 Henr Hget2 Hst2 Hget3
    Hst3.
  set (annotated :=
         with_Annotations (Some (<[requestIdAnnotation := hr_Id request]> m))
           cr).
  set (cr1 :=
         cmutil.SetCertificateRequestCondition (cmutil_Clock_Now r1) annotated
           CertificateRequestConditionReady ConditionFalse
           CertificateRequestReasonPending "Submitted request to Horizon").
  assert (Hconds1 :
            status_Conditions (Status cr1)
            = [ {| cond_Type := CertificateRequestConditionReady;
                   cond_Status := ConditionFalse;
                   cond_LastTransitionTime := Some (cmutil_Clock_Now r1);
                   cond_Reason := CertificateRequestReasonPending;
                   cond_Message := "Submitted request to Horizon" |} ]).
  { subst cr1. rewrite SetCertificateRequestCondition_conditions.
    subst annotated. cbn [Status with_Annotations]. rewrite Hconds.
    reflexivity. }
  assert (Hfr1 : Namespace cr1 = Namespace cr /\ Name cr1 = Name cr
                 /\ Spec cr1 = Spec cr
                 /\ Annotations cr1
                    = Some (<[requestIdAnnotation := hr_Id request]> m)).
  { subst cr1.
    destruct (SetCertificateRequestCondition_frame (cmutil_Clock_Now r1)
                annotated CertificateRequestConditionReady ConditionFalse
                CertificateRequestReasonPending "Submitted request to Horizon")
      as (-> & -> & -> & -> & _). auto. }
  destruct Hfr1 as (Hns1 & Hn1 & Hspec1 & Hann1).
  assert (Hign : forall cr0,
             Spec cr0 = Spec cr ->
             status_Conditions (Status cr0) = [] \/
             status_Conditions (Status cr0) = status_Conditions (Status cr1) ->
             ignored cr0 = false
             /\ cmutil.CertificateRequestIsApproved cr0 = false
             /\ cmutil.CertificateRequestIsDenied cr0 = false).
  { intros cr0 Hs Hcs. unfold ignored, cmutil.CertificateRequestHasCondition,
      cmutil.CertificateRequestIsApproved, cmutil.CertificateRequestIsDenied.
    rewrite Hs, Hgroup, String.eqb_refl.
    destruct Hcs as [-> | ->]; [|rewrite Hconds1]; repeat split. }
  (* the first call *)
  destruct H1 as (Hg1 & Hk1 & Hi1 & Hr1 & (secret1 & url1 & Hs1 & Hu1)
                  & Hupd1 & Hsupd1).
  destruct (Hign cr eq_refl (or_introl Hconds)) as (Hig0 & Hap0 & Hd0).
  assert (Hsub : submits r1 req cr i1 request).
  { repeat split; try assumption.
    - rewrite Hm. exact Hfree.
    - exists secret1, url1. repeat split; assumption. }
  destruct (submit_call r1 req c cr i1 request m Hc Hkey Hsub Hm Hne
              (Hupd1 _) (Hsupd1 _))
    as (Hx1 & Hres1 & Herr1 & Hcl1 & Henr1 & _).
  fold annotated cr1 in Hcl1.
  assert (Hc1 : cluster (snd (reconcile r1 req c)) !! req = Some cr1)
    by (rewrite Hcl1; apply lookup_insert_eq).
  assert (Hkey1 : (Namespace cr1, Name cr1) = req)
    by (rewrite Hns1, Hn1; exact Hkey).
  assert (Hid1 : map_index (Annotations cr1) requestIdAnnotation
                 = Some (hr_Id request))
    by (rewrite Hann1; apply lookup_insert_eq).
  destruct (Hign cr1 Hspec1 (or_intror eq_refl)) as (Hig1 & Hap1 & Hd1).
  (* the second call *)
  destruct H2 as (Hg2 & Hk2 & Hi2 & Hr2 & (secret2 & url2 & Hs2 & Hu2)
                  & _ & Hsupd2).
  assert (Hpull : pulls_pending r2 req cr1 (hr_Id request)).
  { repeat split; try assumption.
    exists i2, secret2, url2, answer2.
    unfold issuer_resolved. rewrite Hspec1, Hns1. repeat split; assumption. }
  destruct (pull_pending_call r2 req _ cr1 _ Hc1 Hkey1 Hpull)
    as (Hx2 & _ & Hcl2 & Hget2' & Henr2 & _ & Hres2).
  rewrite Hsupd2 in Hres2. destruct Hres2 as (Hres2 & Herr2).
  (* the third call *)
  destruct H3 as (Hg3 & Hk3 & Hi3 & Hr3 & (secret3 & url3 & Hs3 & Hu3)
                  & _ & Hsupd3).
  assert (Hreach : reaches_Horizon r3 req cr1).
  { repeat split; try assumption.
    exists i3, secret3, url3.
    unfold issuer_resolved. rewrite Hspec1, Hns1. repeat split; assumption. }
  intros out1 out2 out3. subst out3 out2 out1.
  rewrite Hcl2.
  destruct (pull_completed_call r3 req _ cr1 _ answer3 Hc1 Hkey1 Hreach Hid1
              Hget3 Hst3 (Hsupd3 _))
    as (Hx3 & Hres3 & Herr3 & Hcl3 & Hcert3 & _ & _ & Henr3 & _).
  split; [|split].
  - repeat (split; [assumption|]). exists cr1.
    split; [exact Hc1|]. split; [exact Hann1|].
    unfold Ready_is. rewrite Hconds1. eexists. split; [left; reflexivity|].
    repeat split.
  - repeat (split; [assumption|]). reflexivity.
  - repeat (split; [assumption|]). eexists.
    split; [rewrite Hcl3; apply lookup_insert_eq|].
    split; [exact Hcert3|].
    unfold cmutil.CertificateRequestIsApproved, Ready_is.
    rewrite !SetCertificateRequestCondition_conditions.
    cbn [Status with_Status with_Certificate status_Conditions].
    rewrite !SetCertificateRequestCondition_conditions, Hconds1.
    split; [reflexivity|].
    eexists. split; [left; reflexivity|]. repeat split.
Qed.

(** The scenario of the specification on a request that carries an
    annotation: the three calls do what C1 says. *)
Example scenario_with_an_annotation_map :
  let c0 := Scenario.only (Scenario.fresh (Some Scenario.annotations)) in
  let out1 := reconcile (Scenario.healthy "pending") Scenario.req c0 in
  let out2 := reconcile (Scenario.healthy "pending") Scenario.req
                (cluster (snd out1)) in
  let out3 := reconcile (Scenario.healthy "completed") Scenario.req
                (cluster (snd out2)) in
  (result (snd out1), err (snd out1)) = (requeue_after_a_minute, None)
  /\ List.filter is_Enroll (trace (snd out1))
     = [HorizonClient_Requests_DecentralizedEnroll "webserver" Scenario.csr []]
  /\ cluster (snd out1) = Scenario.only Scenario.submitted
  /\ (result (snd out2), err (snd out2)) = (requeue_after_a_minute, None)
  /\ List.filter is_Horizon_call (trace (snd out2))
     = [HorizonClient_Init "https://pki.example" "horizon-user" "horizon-pass";
        HorizonClient_Requests_Get "req-42"]
  /\ cluster (snd out2) = cluster (snd out1)
  /\ (result (snd out3), err (snd out3)) = (Result_zero, None)
  /\ (status_Certificate <$> (Status <$> cluster (snd out3) !! Scenario.req))
     = Some (list_byte_of_string "CERTDATA")
  /\ (status_Conditions <$> (Status <$> cluster (snd out3) !! Scenario.req))
     = Some
         [ {| cond_Type := CertificateRequestConditionReady;
              cond_Status := ConditionTrue;
              cond_LastTransitionTime := Some 1001;
              cond_Reason := CertificateRequestReasonIssued;
              cond_Message := "Signed" |};
           {| cond_Type := CertificateRequestConditionApproved;
              cond_Status := ConditionTrue;
              cond_LastTransitionTime := Some 1001;
              cond_Reason := "horizon.evertrust.io";
              cond_Message := "Request approved on Horizon" |} ].
Proof.
  evaluate.
Qed.

(** C1 fails on a fresh request that carries no annotation at all.  Its
    annotation map is nil: the first call sends the enrollment to Horizon
    and then panics on the write of the request id, without any update of
    the object: the cluster is as it was (no annotation, no Ready
    condition), no retry is asked for, and a second call sends a second
    enrollment. *)
Theorem fresh_request_without_annotations_panics :
  let r := Scenario.healthy "pending" in
  let cr := Scenario.fresh None in
  let out := reconcile r Scenario.req (Scenario.only cr) in
  map_index (Annotations cr) requestIdAnnotation = None
  /\ fst out = Panicked "assignment to entry in nil map"
  /\ List.filter is_Enroll (trace (snd out))
     = [HorizonClient_Requests_DecentralizedEnroll "webserver" Scenario.csr []]
  /\ List.filter is_Update (trace (snd out)) = []
  /\ cluster (snd out) = Scenario.only cr
  /\ result (snd out) = Result_zero
  /\ List.filter is_Enroll
       (reconciles_trace [(r, Scenario.req); (r, Scenario.req)]
          (Scenario.only cr))
     = [HorizonClient_Requests_DecentralizedEnroll "webserver" Scenario.csr [];
        HorizonClient_Requests_DecentralizedEnroll "webserver" Scenario.csr []].
Proof.
  evaluate.
Qed.

(** A request that does not carry the request id yet can be submitted
    twice: when the API server rejects the update of the object that stores
    the id, the call returns an error, the id is lost, and the next call
    sends a second enrollment. *)
Example rejected_update_loses_the_request_id :
  let cr := Scenario.fresh (Some Scenario.annotations) in
  let rejected := Scenario.update_conflict (Scenario.healthy "pending") in
  let out1 := reconcile rejected Scenario.req (Scenario.only cr) in
  fst out1 = Returned
  /\ err (snd out1)
     = Some (Errorf_secret errGetAuthSecret ("ns", "cred") Scenario.conflict)
  /\ (Annotations <$> cluster (snd out1) !! Scenario.req)
     = Some (Some Scenario.annotations)
  /\ List.filter is_Enroll
       (reconciles_trace
          [(rejected, Scenario.req);
           (Scenario.healthy "pending", Scenario.req)]
          (Scenario.only cr))
     = [HorizonClient_Requests_DecentralizedEnroll "webserver" Scenario.csr [];
        HorizonClient_Requests_DecentralizedEnroll "webserver" Scenario.csr []].
Proof.
  evaluate.
Qed.

(** * Further properties of the reconciler *)

(** ** A request that cannot be fetched *)

(** A call that does not get the request. *)
Lemma unfetched_call r req c :
  Get_CertificateRequest_err r req <> None \/ c !! req = None ->
  fst (reconcile r req c) = Returned
  /\ result (snd (reconcile r req c)) = Result_zero
  /\ cluster (snd (reconcile r req c)) = c
  /\ List.filter is_write (trace (snd (reconcile r req c))) = []
  /\ List.filter is_Horizon_call (trace (snd (reconcile r req c))) = []
  /\ err (snd (reconcile r req c))
     = match Get_CertificateRequest_err r req with
       | Some e =>
           if IsNotFound e then None
           else Some (fmt_Errorf ("unexpected get error: " +:+ Error e) None)
       | None => None
       end
  /\ trace (snd (reconcile r req c))
     = Client_Get_CertificateRequest req
       :: match Get_CertificateRequest_err r req with
          | Some e =>
              if IsNotFound e then [Log_Info "Not found. Ignoring."] else []
          | None => [Log_Info "Not found. Ignoring."]
          end.
Proof.
  intros H. unfold reconcile, Reconcile, Get_CertificateRequest, initial.
  monad.
  destruct (Get_CertificateRequest_err r req) as [e|] eqn:Hg; monad.
  - unfold IgnoreNotFound. destruct (IsNotFound e); cbn; repeat split.
  - destruct H as [H|H]; [congruence|]. rewrite H. cbn. repeat split.
Qed.

(** X1.  When the request cannot be fetched, the call stops there: the get
    of the request is its only call (no other read of the API server, no
    write, no call to Horizon), the cluster is as it was and the result is
    the zero result.  A request that is not found (the object is not
    stored, or the API server answers with a not-found status, wrapped or
    not) gives no error and the log line Not found; any other failure of the
    get is returned under the text unexpected get error. *)
Theorem unfetched_request_is_left_alone r req c :
  Get_CertificateRequest_err r req <> None \/ c !! req = None ->
  let x := fst (reconcile r req c) in
  let s := snd (reconcile r req c) in
  let not_found :=
    match Get_CertificateRequest_err r req with
    | Some e => IsNotFound e
    | None => true
    end in
  x = Returned
  /\ result s = Result_zero
  /\ cluster s = c
  /\ trace s
     = Client_Get_CertificateRequest req
       :: (if not_found then [Log_Info "Not found. Ignoring."] else [])
  /\ err s
     = match Get_CertificateRequest_err r req with
       | Some e =>
           if not_found then None
           else Some (fmt_Errorf ("unexpected get error: " +:+ Error e) None)
       | None => None
       end.
Proof.
  intros H x s not_found. subst x s not_found.
  destruct (unfetched_call r req c H) as (Hx & Hr & Hc & _ & _ & He & Ht).
  rewrite Hx, Hr, Hc, He, Ht.
  destruct (Get_CertificateRequest_err r req) as [e|]; repeat split.
Qed.

Lemma unfetched_request_witness :
  let gone :=
    fmt_Errorf "reading the cache: certificaterequest cr1 not found"
      (Some (StatusNotFound "certificaterequest cr1 not found")) in
  let r := Scenario.get_failure gone (Scenario.healthy "pending") in
  let s := snd (reconcile r Scenario.req ∅) in
  err s = None
  /\ trace s
     = [Client_Get_CertificateRequest Scenario.req;
        Log_Info "Not found. Ignoring."]
  /\ result s = Result_zero /\ cluster s = ∅.
Proof.
  intros gone r s.
  destruct (unfetched_request_is_left_alone r Scenario.req ∅)
    as (_ & Hr & Hc & Ht & He).
  - left. discriminate.
  - split; [exact He|]. split; [exact Ht|]. split; [exact Hr | exact Hc].
Defined.

(** ** The calls to Horizon *)

(** A call as the action and the deferred status update have left it. *)
Lemma reconcile_of_action r req c cr x s_a :
  Get_CertificateRequest_err r req = None ->
  c !! req = Some cr ->
  ignored cr = false ->
  action r (loaded req (decoded cr) c) = (inr x, s_a) ->
  let s := snd (reconcile r req c) in
  fst (reconcile r req c) = x
  /\ certificateRequest s = written r s_a
  /\ trace s = trace s_a ++ [Client_Status_Update (written r s_a)]
  /\ match Status_Update_answer r (written r s_a) (cluster s_a) with
     | Some updateErr =>
         err s = NewAggregate [err s_a; Some updateErr]
         /\ result s = Result_zero /\ cluster s = cluster s_a
     | None =>
         err s = err s_a /\ result s = result s_a
         /\ exists stored,
              cluster s_a !! (Namespace (written r s_a), Name (written r s_a))
              = Some stored
              /\ cluster s
                 = <[(Namespace (written r s_a), Name (written r s_a))
                     := with_Status (Status (written r s_a)) stored]>
                     (cluster s_a)
     end.
Proof.
  intros Hg Hc Hi Ha. rewrite (reconcile_active r req c cr Hg Hc Hi).
  rewrite Ha. cbn [fst snd exit_of]. split; [reflexivity|].
  apply deferred_spec.
Qed.

(** The action always leaves the function by a return or a panic. *)
Lemma action_exits r s : exists x, fst (action r s) = inr x.
Proof.
  unfold_action. destruct s as [cr res e c t]. paths; eauto.
Qed.

(** The calls the action makes to Horizon: none, or the initialisation of
    the client with the URL of the resolved issuer and the credentials of
    its secret, followed by at most one request. *)
Lemma action_Horizon_calls r s :
  let cr := certificateRequest s in
  let s' := snd (action r s) in
  List.filter is_Horizon_call (trace s')
  = List.filter is_Horizon_call (trace s)
  \/ exists i secret baseUrl rest,
       issuer_resolved r cr i secret
       /\ url_Parse r (URL (issuer_Spec i)) = inr baseUrl
       /\ List.filter is_Horizon_call (trace s')
          = List.filter is_Horizon_call (trace s)
            ++ HorizonClient_Init baseUrl (Data_string secret "username")
                 (Data_string secret "password") :: rest
       /\ (rest = []
           \/ (exists id, rest = [HorizonClient_Requests_Get id]
                          /\ map_index (Annotations cr) requestIdAnnotation
                             = Some id)
           \/ (rest = [HorizonClient_Requests_DecentralizedEnroll
                         (Profile (issuer_Spec i)) (spec_Request (Spec cr)) []]
               /\ map_index (Annotations cr) requestIdAnnotation = None)).
Proof.
  destruct s as [cr res e c t]. cbn [certificateRequest]. unfold_action.
  paths.
  all: rewrite ?List.filter_app; cbn [List.filter is_Horizon_call];
    rewrite ?app_nil_r.
  all: first
    [ left; reflexivity
    | right; eexists _, _, _, _;
      split; [unfold issuer_resolved; repeat split; eassumption|];
      split; [eassumption|];
      rewrite <- ?app_assoc; cbn [app];
      split; [reflexivity|]; eauto 10 ].
Qed.

(** X2.  A call never talks to Horizon before the issuer is resolved: when a
    call makes any call to Horizon, the request has been fetched and is not
    ignored nor denied, the issuer is fetched and Ready, its secret is
    fetched and its URL parses; the first call to Horizon then initialises
    the client with that URL and with the username and password fields of
    the secret, and at most one request follows: get-by-id with the id of
    the annotation when there is one, the enrollment otherwise. *)
Theorem Horizon_is_called_once_the_issuer_is_resolved r req c :
  let s := snd (reconcile r req c) in
  List.filter is_Horizon_call (trace s) = []
  \/ exists cr i secret baseUrl rest,
       c !! req = Some cr
       /\ ignored cr = false
       /\ issuer_resolved r cr i secret
       /\ url_Parse r (URL (issuer_Spec i)) = inr baseUrl
       /\ List.filter is_Horizon_call (trace s)
          = HorizonClient_Init baseUrl (Data_string secret "username")
              (Data_string secret "password") :: rest
       /\ (rest = []
           \/ (exists id, rest = [HorizonClient_Requests_Get id]
                          /\ map_index (Annotations cr) requestIdAnnotation
                             = Some id)
           \/ (rest = [HorizonClient_Requests_DecentralizedEnroll
                         (Profile (issuer_Spec i)) (spec_Request (Spec cr)) []]
               /\ map_index (Annotations cr) requestIdAnnotation = None)).
Proof.
  intros s. subst s.
  destruct (Get_CertificateRequest_err r req) as [e|] eqn:Hg.
  { left. apply (unfetched_call r req c). left. congruence. }
  destruct (c !! req) as [cr|] eqn:Hc.
  2:{ left. apply (unfetched_call r req c). right. exact Hc. }
  destruct (ignored cr) eqn:Hi.
  { left. destruct (reconcile_ignored r req c cr Hg Hc Hi) as [msg ->].
    reflexivity. }
  destruct (action_exits r (loaded req (decoded cr) c)) as [x Hx].
  destruct (action r (loaded req (decoded cr) c)) as [x' s_a] eqn:Ha.
  cbn [fst] in Hx. subst x'.
  destruct (reconcile_of_action r req c cr x s_a Hg Hc Hi Ha)
    as (_ & _ & Ht & _).
  rewrite Ht, List.filter_app. cbn [List.filter is_Horizon_call].
  rewrite app_nil_r.
  pose proof (action_Horizon_calls r (loaded req (decoded cr) c)) as Hh.
  rewrite Ha in Hh. cbn [snd loaded certificateRequest trace List.filter
    is_Horizon_call app] in Hh.
  destruct Hh as [Hh | (i & secret & baseUrl & rest & Hres & Hu & Hh & Hrest)].
  - left. exact Hh.
  - right. exists cr, i, secret, baseUrl, rest.
    split; [first [exact Hc | reflexivity]|].
    split; [first [exact Hi | reflexivity]|]. split; [exact Hres|].
    split; [exact Hu|]. split; [exact Hh|].
    destruct Hrest as [H0 | [(id & H1 & H2) | (H1 & H2)]];
      rewrite ?decoded_index in *; eauto 10.
Qed.

(** ** The failures of a call *)

(** A call whose action returns the error [e] without having changed the
    cluster fails with [e]. *)
Lemma failing_action r req c cr before e t :
  Get_CertificateRequest_err r req = None ->
  c !! req = Some cr ->
  ignored cr = false ->
  action r (loaded req (decoded cr) c)
  = (inr Returned,
     {| certificateRequest := before; result := Result_zero; err := Some e;
        cluster := c; trace := t |}) ->
  List.filter is_Status_Update t = [] ->
  let pending :=
    cmutil.SetCertificateRequestCondition (cmutil_Clock_Now r) before
      CertificateRequestConditionReady ConditionFalse
      CertificateRequestReasonPending (Error e) in
  fails_with r req c before e
  /\ trace (snd (reconcile r req c)) = t ++ [Client_Status_Update pending]
  /\ match Status_Update_answer r pending c with
     | Some _ => cluster (snd (reconcile r req c)) = c
     | None =>
         exists stored,
           c !! (Namespace pending, Name pending) = Some stored
           /\ cluster (snd (reconcile r req c))
              = <[(Namespace pending, Name pending)
                  := with_Status (Status pending) stored]> c
     end.
Proof.
  intros Hg Hc Hi Ha Ht pending. unfold fails_with. fold pending.
  destruct (reconcile_of_action r req c cr _ _ Hg Hc Hi Ha)
    as (Hx & Hw & Htr & Hu).
  unfold written in Hw, Htr, Hu.
  cbn [err certificateRequest trace cluster result] in Hw, Htr, Hu.
  fold pending in Hw, Htr, Hu.
  rewrite Htr.
  split; [|split; [reflexivity|];
           destruct (Status_Update_answer r pending c);
           [apply Hu | destruct Hu as (_ & _ & Hu); exact Hu]].
  split; [exact Hx|].
  assert (Hf : List.filter is_write t = List.filter is_Update t).
  { clear - Ht. induction t as [|ev t IH]; [reflexivity|].
    destruct ev; cbn in *; try apply IH; try exact Ht;
      try (f_equal; apply IH; exact Ht); discriminate Ht. }
  destruct (Status_Update_answer r _ c) as [updateErr|].
  - destruct Hu as (-> & -> & ->). split; [reflexivity|].
    split; [exact Hw|]. split; [|split; reflexivity].
    rewrite !List.filter_app, Hf. cbn. rewrite app_nil_r. reflexivity.
  - destruct Hu as (-> & -> & _). split; [reflexivity|].
    split; [exact Hw|]. split; [|reflexivity].
    rewrite !List.filter_app, Hf. cbn. rewrite app_nil_r. reflexivity.
Qed.

(** X3.  The failures of the resolution of the issuer, for a request that
    is not ignored nor denied and whose kind is the Issuer kind.  When the
    issuer cannot be fetched the call fails with an error that wraps
    errGetIssuer; when the issuer is fetched but not Ready, with
    errIssuerNotReady; when the secret of a Ready issuer cannot be fetched,
    with an error that wraps errGetAuthSecret and names the secret.  In the
    three cases the trace of the call is given in full: the gets of the
    request, of the issuer and (in the third case only) of the secret, then
    the status update with the request in memory; so Horizon is not called,
    the object is not updated, and the secret is not asked for unless the
    issuer is Ready. *)
Theorem issuer_resolution_failures_are_returned r req c cr :
  Get_CertificateRequest_err r req = None ->
  c !! req = Some cr ->
  ignored cr = false ->
  cmutil.CertificateRequestIsDenied cr = false ->
  Scheme_New r (ref_Kind (spec_IssuerRef (Spec cr))) = inr New_Issuer ->
  let s := snd (reconcile r req c) in
  let issuerName := (Namespace cr, ref_Name (spec_IssuerRef (Spec cr))) in
  (forall e0,
      Get_Issuer r issuerName = inl e0 ->
      fails_with r req c (decoded cr) (Errorf_w_v errGetIssuer e0)
      /\ trace s
         = [Client_Get_CertificateRequest req; Client_Get_Issuer issuerName;
            Client_Status_Update (certificateRequest s)])
  /\ (forall i,
        Get_Issuer r issuerName = inr i ->
        issuerutil.IsReady (issuer_Status i) = false ->
        fails_with r req c (decoded cr) errIssuerNotReady
        /\ trace s
           = [Client_Get_CertificateRequest req; Client_Get_Issuer issuerName;
              Client_Status_Update (certificateRequest s)])
  /\ (forall i e0,
        Get_Issuer r issuerName = inr i ->
        issuerutil.IsReady (issuer_Status i) = true ->
        Get_Secret r (Namespace cr, AuthSecretName (issuer_Spec i)) = inl e0 ->
        fails_with r req c (decoded cr)
          (Errorf_secret errGetAuthSecret
             (Namespace cr, AuthSecretName (issuer_Spec i)) e0)
        /\ trace s
           = [Client_Get_CertificateRequest req; Client_Get_Issuer issuerName;
              Client_Get_Secret (Namespace cr, AuthSecretName (issuer_Spec i));
              Client_Status_Update (certificateRequest s)]
        /\ List.filter is_Update (trace s) = []
        /\ List.filter is_Horizon_call (trace s) = []).
Proof.
  intros Hg Hc Hi Hd Hk s issuerName. subst s issuerName.
  split; [|split].
  - intros e0 Hgi.
    destruct (failing_action r req c cr (decoded cr)
                (Errorf_w_v errGetIssuer e0)
                [Client_Get_CertificateRequest req;
                 Client_Get_Issuer
                   (Namespace cr, ref_Name (spec_IssuerRef (Spec cr)))]
                Hg Hc Hi) as (Hf & Ht & Hcl); [| reflexivity |].
    { as_decoded cr.
      unfold action, mark_denied, resolve, setReadyCondition, loaded.
      along. reflexivity. }
    split; [exact Hf|]. rewrite Ht.
    destruct Hf as (_ & _ & -> & _). reflexivity.
  - intros i Hgi Hr.
    destruct (failing_action r req c cr (decoded cr) errIssuerNotReady
                [Client_Get_CertificateRequest req;
                 Client_Get_Issuer
                   (Namespace cr, ref_Name (spec_IssuerRef (Spec cr)))]
                Hg Hc Hi) as (Hf & Ht & Hcl); [| reflexivity |].
    { as_decoded cr.
      unfold action, mark_denied, resolve, setReadyCondition, loaded.
      along. reflexivity. }
    split; [exact Hf|]. rewrite Ht.
    destruct Hf as (_ & _ & -> & _). reflexivity.
  - intros i e0 Hgi Hr Hgs.
    destruct (failing_action r req c cr (decoded cr)
                (Errorf_secret errGetAuthSecret
                   (Namespace cr, AuthSecretName (issuer_Spec i)) e0)
                [Client_Get_CertificateRequest req;
                 Client_Get_Issuer
                   (Namespace cr, ref_Name (spec_IssuerRef (Spec cr)));
                 Client_Get_Secret
                   (Namespace cr, AuthSecretName (issuer_Spec i))]
                Hg Hc Hi) as (Hf & Ht & Hcl); [| reflexivity |].
    { as_decoded cr.
      unfold action, mark_denied, resolve, setReadyCondition, loaded.
      along. reflexivity. }
    split; [exact Hf|]. rewrite Ht.
    destruct Hf as (_ & _ & -> & _). repeat split.
Qed.

Lemma issuer_resolution_failures_witness :
  let r := Scenario.healthy "pending" in
  err (snd (reconcile r ("elsewhere", "cr1")
              (Scenario.stored Scenario.elsewhere)))
  = Some (Errorf_w_v errGetIssuer (StatusNotFound "issuer not found")).
Proof.
  intros r.
  destruct (issuer_resolution_failures_are_returned r ("elsewhere", "cr1")
              (Scenario.stored Scenario.elsewhere) Scenario.elsewhere
              eq_refl eq_refl eq_refl eq_refl eq_refl) as (H & _).
  destruct (H (StatusNotFound "issuer not found") eq_refl)
    as ((_ & _ & _ & _ & He) & _).
  exact He.
Defined.

(** ** An approved request *)

(** X4.  A request that already carries Approved=True and is not ignored
    is neither submitted nor pulled, whether it carries a request id or
    not: once the issuer is resolved the call initialises the Horizon
    client and stops there.  The request in memory is the stored one as
    decoded, the cluster is as it was, and the call asks for no retry; it
    returns no error when the status update succeeds. *)
Theorem approved_request_is_neither_submitted_nor_pulled
    r req c cr i secret baseUrl :
  Get_CertificateRequest_err r req = None ->
  c !! req = Some cr ->
  (Namespace cr, Name cr) = req ->
  ignored cr = false ->
  cmutil.CertificateRequestIsApproved cr = true ->
  issuer_resolved r cr i secret ->
  url_Parse r (URL (issuer_Spec i)) = inr baseUrl ->
  let s := snd (reconcile r req c) in
  fst (reconcile r req c) = Returned
  /\ certificateRequest s = decoded cr
  /\ cluster s = c
  /\ result s = Result_zero
  /\ List.filter is_Horizon_call (trace s)
     = [HorizonClient_Init baseUrl (Data_string secret "username")
          (Data_string secret "password")]
  /\ List.filter is_write (trace s) = [Client_Status_Update (decoded cr)]
  /\ match Status_Update_err r (decoded cr) with
     | None => err s = None
     | Some updateErr => err s = Some (Aggregate [updateErr])
     end.
Proof.
  intros Hg Hc Hkey Hi Happ Hres Hurl s. subst s.
  assert (Ha : action r (loaded req (decoded cr) c)
               = (inr Returned,
                  {| certificateRequest := decoded cr; result := Result_zero;
                     err := None; cluster := c;
                     trace := [Client_Get_CertificateRequest req]
                              ++ resolve_calls (decoded cr) i secret baseUrl |})).
  { unfold loaded.
    rewrite (action_resolved r (decoded cr) i secret baseUrl _ _ _ _ Hres Hurl).
    as_decoded cr. unfold submit_or_pull. along. reflexivity. }
  destruct (reconcile_of_action r req c cr _ _ Hg Hc Hi Ha)
    as (Hx & Hw & Ht & Hu).
  unfold written, Status_Update_answer in Hw, Ht, Hu.
  cbn [err certificateRequest trace cluster result] in Hw, Ht, Hu.
  change (Namespace (decoded cr), Name (decoded cr))
    with (Namespace cr, Name cr) in Hu.
  rewrite Hkey, Hc in Hu. rewrite Ht.
  split; [exact Hx|]. split; [exact Hw|].
  destruct (Status_Update_err r (decoded cr)) as [updateErr|].
  - destruct Hu as (-> & -> & ->). repeat split.
  - destruct Hu as (-> & -> & stored & Hs & ->). injection Hs as <-.
    change (Status (decoded cr)) with (Status cr).
    rewrite with_Status_same, insert_id by exact Hc. repeat split.
Qed.

Lemma approved_request_witness :
  let cr :=
    Scenario.request GroupVersion_Group "Issuer" (Some Scenario.annotations)
      [ Scenario.condition CertificateRequestConditionApproved ConditionTrue
          "cert-manager.io" ] in
  let s := snd (reconcile (Scenario.healthy "completed") Scenario.req
                  (Scenario.only cr)) in
  cluster s = Scenario.only cr /\ result s = Result_zero /\ err s = None.
Proof.
  intros cr s.
  destruct (approved_request_is_neither_submitted_nor_pulled
              (Scenario.healthy "completed") Scenario.req (Scenario.only cr)
              cr Scenario.iss1 Scenario.cred "https://pki.example"
              eq_refl eq_refl eq_refl eq_refl eq_refl)
    as (_ & _ & Hc & Hr & _ & _ & He).
  - repeat split.
  - reflexivity.
  - split; [exact Hc|]. split; [exact Hr | exact He].
Defined.

(** ** The failures of Horizon and of the update *)

(** X5.  A failure of Horizon is returned as an error that wraps
    errUnknownHorizon, and changes nothing of the request but its Ready
    condition: when get-by-id fails, the request id and the certificate are
    as they were; when the enrollment fails, no request id is written (the
    annotations in memory are the stored ones, as decoded) and the object is
    not updated. *)
Theorem Horizon_failures_change_only_the_Ready_condition r req c cr :
  c !! req = Some cr ->
  reaches_Horizon r req cr ->
  let s := snd (reconcile r req c) in
  (forall id e0,
      map_index (Annotations cr) requestIdAnnotation = Some id ->
      Requests_Get r id = inl e0 ->
      fails_with r req c cr (Errorf_w_v errUnknownHorizon e0)
      /\ Annotations (certificateRequest s) = Annotations cr
      /\ status_Certificate (Status (certificateRequest s))
         = status_Certificate (Status cr)
      /\ List.filter is_Update (trace s) = [])
  /\ (forall i e0,
        map_index (Annotations cr) requestIdAnnotation = None ->
        Get_Issuer r (Namespace cr, ref_Name (spec_IssuerRef (Spec cr)))
        = inr i ->
        Requests_DecentralizedEnroll r (Profile (issuer_Spec i))
          (spec_Request (Spec cr)) [] = inl e0 ->
        fails_with r req c (decoded cr) (Errorf_w_v errUnknownHorizon e0)
        /\ Annotations (certificateRequest s) = Annotations (decoded cr)
        /\ map_index (Annotations (certificateRequest s)) requestIdAnnotation
           = None
        /\ List.filter is_Update (trace s) = []).
Proof.
  intros Hc (Hg & Hi & Happ & i & secret & baseUrl & Hres & Hurl) s. subst s.
  split.
  - intros id e0 Hann Hget.
    pose proof (decoded_with_annotation cr _ _ Hann) as Hdec.
    destruct (failing_action r req c cr cr (Errorf_w_v errUnknownHorizon e0)
                ((([Client_Get_CertificateRequest req]
                   ++ resolve_calls cr i secret baseUrl)
                  ++ [Log_Info ("Pulling request " +:+ id)])
                 ++ [HorizonClient_Requests_Get id])
                Hg Hc Hi) as (Hf & Ht & Hcl); [| reflexivity |].
    { rewrite Hdec. unfold loaded.
      rewrite (action_resolved r cr i secret baseUrl _ _ _ _ Hres Hurl).
      unfold submit_or_pull, pull. along. reflexivity. }
    split; [exact Hf|]. rewrite Ht.
    destruct Hf as (_ & _ & -> & _). autorewrite with frame.
    destruct (SetCertificateRequestCondition_frame (cmutil_Clock_Now r) cr
                CertificateRequestConditionReady ConditionFalse
                CertificateRequestReasonPending
                (Error (Errorf_w_v errUnknownHorizon e0)))
      as (_ & _ & _ & _ & -> & _).
    repeat split.
  - intros i' e0 Hann Hgi Henr.
    assert (i' = i) as ->.
    { destruct Hres as (_ & _ & Hgi' & _). congruence. }
    rewrite <- (decoded_index cr) in Hann.
    destruct (failing_action r req c cr (decoded cr)
                (Errorf_w_v errUnknownHorizon e0)
                (([Client_Get_CertificateRequest req]
                  ++ resolve_calls (decoded cr) i secret baseUrl)
                 ++ [HorizonClient_Requests_DecentralizedEnroll
                       (Profile (issuer_Spec i))
                       (spec_Request (Spec (decoded cr))) []])
                Hg Hc Hi) as (Hf & Ht & Hcl); [| reflexivity |].
    { unfold loaded.
      rewrite (action_resolved r (decoded cr) i secret baseUrl _ _ _ _ Hres
                 Hurl).
      as_decoded cr. unfold submit_or_pull, submit. along. reflexivity. }
    split; [exact Hf|]. rewrite Ht.
    destruct Hf as (_ & _ & -> & _). autorewrite with frame.
    repeat split. exact Hann.
Qed.

Lemma Horizon_failures_witness :
  let r :=
    {| Scheme_New := Scenario.scheme; Clock_Now := 1000;
       cmutil_Clock_Now := 1001;
       Get_CertificateRequest_err := fun _ => None;
       Get_Issuer := fun _ => inr Scenario.iss1;
       Get_Secret := fun _ => inr Scenario.cred;
       Update_err := fun _ => None;
       Status_Update_err := fun _ => None;
       url_Parse := fun u => inr u;
       Requests_Get := fun _ => inl (errors_New "503 Service Unavailable");
       Requests_DecentralizedEnroll :=
         fun _ _ _ => inl (errors_New "503 Service Unavailable") |} in
  let s := snd (reconcile r Scenario.req (Scenario.only Scenario.submitted)) in
  err s
  = Some (Errorf_w_v errUnknownHorizon (errors_New "503 Service Unavailable"))
  /\ Annotations (certificateRequest s) = Annotations Scenario.submitted.
Proof.
  intros r s.
  destruct (Horizon_failures_change_only_the_Ready_condition r Scenario.req
              (Scenario.only Scenario.submitted) Scenario.submitted eq_refl)
    as [Hpull _].
  - repeat split.
    exists Scenario.iss1, Scenario.cred, "https://pki.example".
    repeat split.
  - destruct (Hpull "req-42" (errors_New "503 Service Unavailable")
                eq_refl eq_refl) as ((_ & _ & _ & _ & He) & Ha & _).
    split; [exact He | exact Ha].
Defined.

(** X6.  When the enrollment has been accepted and the API server then
    rejects the update of the object, the request id is lost: for a request
    that carries at least one annotation (so that the write of the id does
    not fault), the enrollment has been sent, the stored request carries no
    request id, and the call fails with an error that wraps errGetAuthSecret
    (the sentinel of the secret) around the error of the update and the name
    of the secret.  The request in memory, which the status update
    receives, carries the id. *)
Theorem rejected_update_loses_the_id r req c cr i request m e0 :
  c !! req = Some cr ->
  (Namespace cr, Name cr) = req ->
  submits r req cr i request ->
  Annotations cr = Some m ->
  m <> ∅ ->
  let annotated :=
    with_Annotations (Some (<[requestIdAnnotation := hr_Id request]> m)) cr in
  Update_err r annotated = Some e0 ->
  let s := snd (reconcile r req c) in
  fails_with r req c annotated
    (Errorf_secret errGetAuthSecret
       (Namespace cr, AuthSecretName (issuer_Spec i)) e0)
  /\ List.filter is_Enroll (trace s)
     = [HorizonClient_Requests_DecentralizedEnroll (Profile (issuer_Spec i))
          (spec_Request (Spec cr)) []]
  /\ List.filter is_Update (trace s) = [Client_Update annotated]
  /\ exists cr',
       cluster s !! req = Some cr' /\ Annotations cr' = Some m
       /\ map_index (Annotations cr') requestIdAnnotation = None.
Proof.
  intros Hc Hkey
    (Hg & Hi & Happ & Hann & (secret & baseUrl & Hres & Hurl) & Henr)
    Hm Hne annotated Hupd s. subst s.
  destruct (failing_action r req c cr annotated
              (Errorf_secret errGetAuthSecret
                 (Namespace cr, AuthSecretName (issuer_Spec i)) e0)
              ((([Client_Get_CertificateRequest req]
                 ++ resolve_calls cr i secret baseUrl)
                ++ [HorizonClient_Requests_DecentralizedEnroll
                      (Profile (issuer_Spec i)) (spec_Request (Spec cr)) []])
               ++ [Client_Update annotated])
              Hg Hc Hi) as (Hf & Ht & Hcl); [| reflexivity |].
  { rewrite (decoded_same cr) by congruence. unfold loaded.
    rewrite (action_resolved r cr i secret baseUrl _ _ _ _ Hres Hurl).
    subst annotated. unfold submit_or_pull, submit, Update. along.
    reflexivity. }
  split; [exact Hf|]. rewrite Ht.
  split; [reflexivity|]. split; [reflexivity|].
  set (pending := cmutil.SetCertificateRequestCondition _ annotated _ _ _ _)
    in *.
  assert (Hpk : (Namespace pending, Name pending) = req).
  { subst pending annotated. autorewrite with frame. exact Hkey. }
  destruct (Status_Update_answer r pending c).
  - rewrite Hcl. exists cr. auto.
  - destruct Hcl as (stored & Hs & ->). rewrite Hpk in *.
    rewrite Hc in Hs. injection Hs as <-. rewrite lookup_insert_eq.
    eexists. split; [reflexivity|]. cbn. auto.
Qed.

Lemma rejected_update_witness :
  let r := Scenario.update_conflict (Scenario.healthy "pending") in
  let cr := Scenario.fresh (Some Scenario.annotations) in
  let s := snd (reconcile r Scenario.req (Scenario.only cr)) in
  err s
  = Some (Errorf_secret errGetAuthSecret ("ns", "cred") Scenario.conflict)
  /\ exists cr',
       cluster s !! Scenario.req = Some cr'
       /\ Annotations cr' = Some Scenario.annotations.
Proof.
  intros r cr s.
  destruct (rejected_update_loses_the_id r Scenario.req (Scenario.only cr) cr
              Scenario.iss1
              {| hr_Id := "req-42"; hr_Status := "pending";
                 hr_Certificate := EmptyString |}
              Scenario.annotations Scenario.conflict eq_refl eq_refl)
    as ((_ & _ & _ & _ & He) & _ & _ & cr' & Hc' & Ha' & _).
  - repeat split.
    exists Scenario.cred, "https://pki.example". repeat split.
  - reflexivity.
  - intros H. vm_compute in H. discriminate H.
  - reflexivity.
  - split; [exact He|]. exists cr'. split; [exact Hc' | exact Ha'].
Defined.

(** ** What a call leaves untouched *)

Lemma Set_Spec now cr type status reason message :
  Spec (cmutil.SetCertificateRequestCondition now cr type status reason
          message) = Spec cr.
Proof. apply SetCertificateRequestCondition_frame. Qed.

#[local] Hint Rewrite Set_Spec : frame.

Lemma same_but_status_and_id_refl cr : same_but_status_and_id cr cr.
Proof. unfold same_but_status_and_id. auto. Qed.

Lemma same_but_status_and_id_with_Status cr o st :
  same_but_status_and_id cr o ->
  same_but_status_and_id cr (with_Status st o).
Proof. intros H. exact H. Qed.

Lemma same_but_status_and_id_Set cr o now type status reason message :
  same_but_status_and_id cr o ->
  same_but_status_and_id cr
    (cmutil.SetCertificateRequestCondition now o type status reason message).
Proof.
  unfold same_but_status_and_id. autorewrite with frame. auto.
Qed.

(** The action changes the status of the request and at most adds the
    request id to its annotations, in memory and in the cluster. *)
Lemma action_frame r req c cr :
  c !! req = Some cr ->
  (Namespace cr, Name cr) = req ->
  let s' := snd (action r (loaded req cr c)) in
  same_but_status_and_id cr (certificateRequest s')
  /\ (cluster s' = c
      \/ exists o',
           cluster s' = <[req := o']> c /\ same_but_status_and_id cr o').
Proof.
  intros Hc Hkey. unfold loaded. unfold_action. paths.
  all: try (split; [|left; reflexivity];
            repeat apply same_but_status_and_id_Set;
            try apply same_but_status_and_id_with_Status;
            repeat apply same_but_status_and_id_Set;
            apply same_but_status_and_id_refl).
  all: match goal with
       | H : map_index (Some ?g) _ = None |- context [hr_Id ?h] =>
           cbn [map_index] in H;
           assert (Hs : forall st,
                     same_but_status_and_id cr
                       (with_Status st
                          (with_Annotations
                             (Some (<[requestIdAnnotation := hr_Id h]> g))
                             cr)))
             by (intros st; unfold same_but_status_and_id; cbn;
                 repeat (split; [reflexivity|]); right; eauto)
       end.
  all: try match goal with
           | H : _ !! _ = Some _ |- _ =>
               cbn [Namespace Name with_Annotations] in H;
               rewrite Hkey, Hc in H; injection H as <-
           end.
  all: cbn [Namespace Name with_Annotations with_Status]; rewrite ?Hkey.
  all: split;
    [ first [ apply same_but_status_and_id_Set; apply Hs
            | exact (Hs (Status cr)) ]
    | first [ left; reflexivity
            | right; eexists; split; [reflexivity | apply Hs] ] ].
Qed.

(** With a nil annotation map the action never updates the object. *)
Lemma action_nil_annotations r s :
  Annotations (certificateRequest s) = None ->
  cluster (snd (action r s)) = cluster s.
Proof.
  destruct s as [cr res e c t]. cbn [certificateRequest]. intros Hnil.
  unfold_action. paths.
  all: first [reflexivity | congruence].
Qed.

(** The same, for the request as the call decodes it. *)
Lemma action_frame_decoded r req c cr :
  c !! req = Some cr ->
  (Namespace cr, Name cr) = req ->
  let s' := snd (action r (loaded req (decoded cr) c)) in
  cluster s' = c
  \/ exists o',
       cluster s' = <[req := o']> c /\ same_but_status_and_id cr o'.
Proof.
  intros Hc Hkey.
  destruct (decide (Annotations cr = Some ∅)) as [He|Hne].
  - left.
    apply (action_nil_annotations r (loaded req (decoded cr) c)).
    exact (decoded_empty cr He).
  - rewrite decoded_same by exact Hne.
    apply (action_frame r req c cr Hc Hkey).
Qed.

(** X7.  A call for a request touches no other stored request, creates and
    deletes none, and of the request itself changes only the status and, at
    most, adds the request id to the annotations: the namespace, the name,
    the spec and every other annotation are as they were, and a request id
    that is there is never replaced. *)
Theorem a_call_changes_only_the_status_and_the_request_id r req c :
  well_formed c ->
  let c' := cluster (snd (reconcile r req c)) in
  well_formed c'
  /\ (forall k, k <> req -> c' !! k = c !! k)
  /\ (c !! req = None -> c' !! req = None)
  /\ (forall cr,
        c !! req = Some cr ->
        exists cr',
          c' !! req = Some cr'
          /\ same_but_status_and_id cr cr'
          /\ (forall id,
                map_index (Annotations cr) requestIdAnnotation = Some id ->
                Annotations cr' = Annotations cr)).
Proof.
  intros Hwf c'. split; [apply reconcile_well_formed; exact Hwf|].
  assert (Hid : forall cr cr' id,
             same_but_status_and_id cr cr' ->
             map_index (Annotations cr) requestIdAnnotation = Some id ->
             Annotations cr' = Annotations cr).
  { intros cr cr' id (_ & _ & _ & [Ha | (m & id' & Hm & Hnone & _)]) Hsome;
      [exact Ha|].
    rewrite Hm in Hsome. cbn in Hsome. congruence. }
  assert (Hsame : c' = c
                  \/ exists cr o',
                       c !! req = Some cr /\ c' = <[req := o']> c
                       /\ same_but_status_and_id cr o').
  { subst c'.
    destruct (Get_CertificateRequest_err r req) as [e|] eqn:Hg.
    { left. apply (unfetched_call r req c). left.
      congruence. }
    destruct (c !! req) as [cr|] eqn:Hc.
    2:{ left. apply (unfetched_call r req c). right.
        exact Hc. }
    destruct (ignored cr) eqn:Hi.
    { left. destruct (reconcile_ignored r req c cr Hg Hc Hi) as [msg ->].
      reflexivity. }
    pose proof (Hwf req cr Hc) as Hkey.
    destruct (action_exits r (loaded req (decoded cr) c)) as [x Hx].
    destruct (action r (loaded req (decoded cr) c)) as [x' s_a] eqn:Ha.
    cbn [fst] in Hx. subst x'.
    destruct (reconcile_of_action r req c cr x s_a Hg Hc Hi Ha)
      as (_ & _ & _ & Hu).
    pose proof (action_frame_decoded r req c cr Hc Hkey) as Hcl.
    destruct (action_keeps_FailureTime r req c cr (decoded cr) Hc Hkey
                eq_refl) as (Hmem & _ & _).
    rewrite Ha in Hmem, Hcl. cbn [snd] in Hmem, Hcl.
    assert (Hwk : (Namespace (written r s_a), Name (written r s_a)) = req).
    { unfold written. destruct (err s_a); autorewrite with frame;
        exact Hmem. }
    rewrite Hwk in Hu.
    destruct (Status_Update_answer r _ _).
    - destruct Hu as (_ & _ & ->).
      destruct Hcl as [-> | (o' & -> & Ho')]; [left; reflexivity|].
      right. exists cr, o'. auto.
    - destruct Hu as (_ & _ & stored & Hs & ->). right. exists cr.
      destruct Hcl as [Hcl | (o' & Hcl & Ho')]; rewrite Hcl in *.
      + rewrite Hc in Hs. injection Hs as <-. eexists.
        split; [reflexivity|]. split; [reflexivity|].
        apply same_but_status_and_id_with_Status,
          same_but_status_and_id_refl.
      + rewrite lookup_insert_eq in Hs. injection Hs as <-.
        rewrite insert_insert_eq. eexists.
        split; [reflexivity|]. split; [reflexivity|].
        apply same_but_status_and_id_with_Status. exact Ho'. }
  destruct Hsame as [-> | (cr & o' & Hc & -> & Ho')].
  - split; [reflexivity|]. split; [auto|].
    intros cr Hc. exists cr. split; [exact Hc|].
    split; [apply same_but_status_and_id_refl | reflexivity].
  - split; [intros k Hk; apply lookup_insert_ne; congruence|].
    split; [congruence|].
    intros cr0 Hc0. rewrite Hc in Hc0. injection Hc0 as <-.
    exists o'. rewrite lookup_insert_eq. split; [reflexivity|].
    split; [exact Ho'|]. intros id. apply Hid. exact Ho'.
Qed.

Lemma a_call_changes_only_witness :
  let cr := Scenario.fresh (Some Scenario.annotations) in
  exists cr',
    cluster (snd (reconcile (Scenario.healthy "pending") Scenario.req
                    (Scenario.only cr))) !! Scenario.req = Some cr'
    /\ Spec cr' = Spec cr.
Proof.
  intros cr.
  assert (Hwf : well_formed (Scenario.only cr)).
  { intros k o Hk. unfold Scenario.only in Hk.
    apply lookup_singleton_Some in Hk as [<- <-]. reflexivity. }
  destruct (a_call_changes_only_the_status_and_the_request_id
              (Scenario.healthy "pending") Scenario.req (Scenario.only cr) Hwf)
    as (_ & _ & _ & H).
  destruct (H cr eq_refl) as (cr' & Hc' & (_ & _ & Hs & _) & _).
  exists cr'. split; [exact Hc' | exact Hs].
Defined.

(** ** Terminal requests stay terminal *)

(** A call on an ignored request, whatever the surroundings answer. *)
Lemma ignored_call r req c cr :
  c !! req = Some cr ->
  ignored cr = true ->
  let s := snd (reconcile r req c) in
  cluster s = c
  /\ List.filter is_Horizon_call (trace s) = []
  /\ List.filter is_write (trace s) = [].
Proof.
  intros Hc Hi.
  destruct (Get_CertificateRequest_err r req) as [e|] eqn:Hg.
  - destruct (unfetched_call r req c) as (_ & _ & H1 & H2 & H3 & _);
      [left; congruence | auto].
  - destruct (reconcile_ignored r req c cr Hg Hc Hi) as [msg ->].
    repeat split.
Qed.

Lemma ignored_calls req c cr (rs : list Reconciler) :
  c !! req = Some cr ->
  ignored cr = true ->
  let calls := map (fun r => (r, req)) rs in
  reconciles calls c = c
  /\ List.filter is_Horizon_call (reconciles_trace calls c) = []
  /\ List.filter is_write (reconciles_trace calls c) = [].
Proof.
  intros Hc Hi. induction rs as [|r rs IH]; [repeat split|].
  cbn [map reconciles reconciles_trace].
  destruct (ignored_call r req c cr Hc Hi) as (Hcl & Hh & Hw).
  rewrite Hcl, !List.filter_app, Hh, Hw. exact IH.
Qed.

(** X8.  Terminal states are absorbing.  When a call on a request that was
    not ignored returns no error and leaves the request with a Ready
    condition that is True, False/Failed or False/Denied, every later call
    for that request, whatever the surroundings answer, makes no call to
    Horizon, writes nothing and leaves the cluster as it is. *)
Theorem terminal_request_is_never_touched_again r req c cr :
  Get_CertificateRequest_err r req = None ->
  well_formed c ->
  c !! req = Some cr ->
  ignored cr = false ->
  let s := snd (reconcile r req c) in
  err s = None ->
  terminal (certificateRequest s) ->
  forall rs : list Reconciler,
    let calls := map (fun r' => (r', req)) rs in
    reconciles calls (cluster s) = cluster s
    /\ List.filter is_Horizon_call (reconciles_trace calls (cluster s)) = []
    /\ List.filter is_write (reconciles_trace calls (cluster s)) = [].
Proof.
  intros Hg Hwf Hc Hi s He Hterm rs. subst s.
  pose proof (Hwf req cr Hc) as Hkey.
  destruct (action_exits r (loaded req (decoded cr) c)) as [x Hx].
  destruct (action r (loaded req (decoded cr) c)) as [x' s_a] eqn:Ha.
  cbn [fst] in Hx. subst x'.
  destruct (reconcile_of_action r req c cr x s_a Hg Hc Hi Ha)
    as (_ & Hw & _ & Hu).
  destruct (action_keeps_FailureTime r req c cr (decoded cr) Hc Hkey eq_refl)
    as (Hmem & _ & _).
  rewrite Ha in Hmem. cbn [snd] in Hmem.
  assert (Hwk : (Namespace (written r s_a), Name (written r s_a)) = req).
  { unfold written. destruct (err s_a); autorewrite with frame;
      exact Hmem. }
  rewrite Hwk in Hu. rewrite Hw in Hterm.
  destruct (Status_Update_answer r _ _) as [updateErr|].
  - destruct Hu as (Hu & _). rewrite He in Hu.
    destruct (err s_a); discriminate Hu.
  - destruct Hu as (_ & _ & stored & Hs & Hcl). rewrite Hcl.
    apply (ignored_calls req _ (with_Status (Status (written r s_a)) stored)).
    + apply lookup_insert_eq.
    + apply ignored_true. right. exact Hterm.
Qed.

Lemma terminal_request_witness :
  let r := Scenario.healthy "completed" in
  let c1 := cluster (snd (reconcile r Scenario.req
                            (Scenario.only Scenario.submitted))) in
  reconciles [(Scenario.healthy "pending", Scenario.req); (r, Scenario.req)] c1
  = c1.
Proof.
  intros r c1.
  assert (Hwf : well_formed (Scenario.only Scenario.submitted)).
  { intros k o Hk. unfold Scenario.only in Hk.
    apply lookup_singleton_Some in Hk as [<- <-]. reflexivity. }
  refine (proj1 (terminal_request_is_never_touched_again r Scenario.req
                   (Scenario.only Scenario.submitted) Scenario.submitted
                   eq_refl Hwf eq_refl eq_refl eq_refl _
                   [Scenario.healthy "pending"; r])).
  left. vm_compute. eexists. split; [left; reflexivity|]. repeat split.
Defined.

(** ** The whole life of a request *)

Lemma fresh_request_witness :
  let r := Scenario.healthy "pending" in
  let r3 := Scenario.healthy "completed" in
  let cr := Scenario.fresh (Some Scenario.annotations) in
  let out1 := reconcile r Scenario.req (Scenario.only cr) in
  let out2 := reconcile r Scenario.req (cluster (snd out1)) in
  let out3 := reconcile r3 Scenario.req (cluster (snd out2)) in
  result (snd out1) = requeue_after_a_minute
  /\ result (snd out2) = requeue_after_a_minute
  /\ result (snd out3) = Result_zero.
Proof.
  intros r r3 cr.
  assert (Hh : forall status,
             healthy_for (Scenario.healthy status) Scenario.req cr
               Scenario.iss1).
  { intros status. repeat split.
    exists Scenario.cred, "https://pki.example". repeat split. }
  assert (Hne : Scenario.annotations <> ∅).
  { intros H. vm_compute in H. discriminate H. }
  destruct (fresh_request_is_submitted_pulled_and_issued r r r3 Scenario.req
              (Scenario.only cr) cr Scenario.annotations Scenario.iss1
              Scenario.iss1 Scenario.iss1
              {| hr_Id := "req-42"; hr_Status := "pending";
                 hr_Certificate := EmptyString |}
              {| hr_Id := "req-42"; hr_Status := "pending";
                 hr_Certificate := "CERTDATA" |}
              {| hr_Id := "req-42"; hr_Status := "completed";
                 hr_Certificate := "CERTDATA" |}
              eq_refl eq_refl eq_refl eq_refl eq_refl eq_refl Hne
              (Hh _) (Hh _) (Hh _) eq_refl eq_refl)
    as ((_ & _ & H1 & _) & (_ & _ & H2 & _) & (_ & _ & H3 & _)).
  - discriminate.
  - reflexivity.
  - reflexivity.
  - auto.
Defined.

(** ** An object of the scheme that is not a client object *)

(** X10.  The type assertion on the object the scheme builds is not
    guarded: for a request that is not ignored nor denied and whose kind the
    scheme maps to a type that is not a [client.Object], the call panics.
    It has then called neither the API server for the issuer nor Horizon;
    the deferred status update still runs, with the request as it was
    fetched (the stored one, as decoded). *)
Theorem kind_of_a_non_object_panics r req c cr :
  Get_CertificateRequest_err r req = None ->
  c !! req = Some cr ->
  ignored cr = false ->
  cmutil.CertificateRequestIsDenied cr = false ->
  Scheme_New r (ref_Kind (spec_IssuerRef (Spec cr))) = inr New_NotAnObject ->
  let s := snd (reconcile r req c) in
  fst (reconcile r req c)
  = Panicked "interface conversion: runtime.Object is not client.Object"
  /\ certificateRequest s = decoded cr
  /\ trace s
     = [Client_Get_CertificateRequest req; Client_Status_Update (decoded cr)].
Proof.
  intros Hg Hc Hi Hd Hk s. subst s.
  assert (Ha : action r (loaded req (decoded cr) c)
               = (inr (Panicked
                         "interface conversion: runtime.Object is not client.Object"),
                  {| certificateRequest := decoded cr; result := Result_zero;
                     err := None; cluster := c;
                     trace := [Client_Get_CertificateRequest req] |})).
  { as_decoded cr.
    unfold action, mark_denied, resolve, setReadyCondition, loaded.
    along. reflexivity. }
  destruct (reconcile_of_action r req c cr _ _ Hg Hc Hi Ha)
    as (Hx & Hw & Ht & _).
  split; [exact Hx|]. split; [exact Hw | exact Ht].
Qed.

Lemma kind_of_a_non_object_witness :
  let cr :=
    Scenario.request GroupVersion_Group "IssuerList"
      (Some Scenario.annotations) [] in
  fst (reconcile (Scenario.healthy "pending") Scenario.req (Scenario.only cr))
  = Panicked "interface conversion: runtime.Object is not client.Object".
Proof.
  intros cr.
  exact (proj1 (kind_of_a_non_object_panics (Scenario.healthy "pending")
                  Scenario.req (Scenario.only cr) cr
                  eq_refl eq_refl eq_refl eq_refl eq_refl)).
Defined.

(** ** One condition per type *)

Lemma overwrite_types newCondition conds conds' :
  cmutil.overwrite newCondition conds = Some conds' ->
  map cond_Type conds' = map cond_Type conds.
Proof.
  revert conds'. induction conds as [|cond rest IH]; intros conds' H.
  - discriminate H.
  - cbn [cmutil.overwrite] in H.
    destruct (String.eqb (cond_Type cond) (cond_Type newCondition)) eqn:Ht;
      cbn [negb] in H.
    + apply String.eqb_eq in Ht.
      destruct (String.eqb (cond_Status cond) (cond_Status newCondition));
        injection H as <-; cbn; rewrite Ht; reflexivity.
    + destruct (cmutil.overwrite newCondition rest) as [rest'|];
        [|discriminate H].
      injection H as <-. cbn. rewrite (IH rest' eq_refl). reflexivity.
Qed.

Lemma overwrite_None newCondition conds :
  cmutil.overwrite newCondition conds = None ->
  ~ In (cond_Type newCondition) (map cond_Type conds).
Proof.
  induction conds as [|cond rest IH]; intros H; [intros []|].
  cbn [cmutil.overwrite] in H.
  destruct (String.eqb (cond_Type cond) (cond_Type newCondition)) eqn:Ht;
    cbn [negb] in H.
  - destruct (String.eqb (cond_Status cond) (cond_Status newCondition));
      discriminate H.
  - destruct (cmutil.overwrite newCondition rest); [discriminate H|].
    apply String.eqb_neq in Ht. intros [Heq | Hin]; [congruence|].
    exact (IH eq_refl Hin).
Qed.

(** [SetCertificateRequestCondition] never adds a second condition of a
    type. *)
Lemma Set_one_condition_per_type now cr type status reason message :
  one_condition_per_type cr ->
  one_condition_per_type
    (cmutil.SetCertificateRequestCondition now cr type status reason message).
Proof.
  unfold one_condition_per_type.
  rewrite SetCertificateRequestCondition_conditions. cbv zeta.
  destruct (cmutil.overwrite _ _) as [conds|] eqn:H; intros Hnd.
  - rewrite (overwrite_types _ _ _ H). exact Hnd.
  - apply overwrite_None in H. cbn [cond_Type] in H.
    rewrite map_app. cbn [map]. apply NoDup_app. split; [exact Hnd|].
    split; [|apply NoDup_singleton].
    intros x Hx Hx'. apply list_elem_of_singleton in Hx'. subst x.
    apply H. apply list_elem_of_In. exact Hx.
Qed.

(** The action keeps the invariant, in memory and in the cluster. *)
Lemma action_one_condition_per_type r req c stored cr :
  c !! req = Some stored ->
  (Namespace cr, Name cr) = req ->
  one_condition_per_type stored ->
  one_condition_per_type cr ->
  let s' := snd (action r (loaded req cr c)) in
  one_condition_per_type (certificateRequest s')
  /\ (cluster s' = c
      \/ exists o',
           cluster s' = <[req := o']> c /\ one_condition_per_type o').
Proof.
  intros Hc Hkey Hst Hone. unfold loaded. unfold_action. paths.
  all: try match goal with
           | H : _ !! _ = Some _ |- _ =>
               cbn [Namespace Name with_Annotations] in H;
               rewrite Hkey, Hc in H; injection H as <-
           end.
  all: cbn [Namespace Name with_Annotations with_Status]; rewrite ?Hkey.
  all: split;
    [ repeat first [ apply Set_one_condition_per_type | exact Hone
                   | exact Hst ]
    | first [ left; reflexivity
            | right; eexists; split; [reflexivity | exact Hst] ] ].
Qed.

(** X11.  A call never gives a request a second condition of a type: when
    no stored request carries two conditions of the same type, none does
    after the call, whatever path the call takes. *)
Theorem a_call_keeps_one_condition_per_type r req c :
  well_formed c ->
  (forall k o, c !! k = Some o -> one_condition_per_type o) ->
  forall k o,
    cluster (snd (reconcile r req c)) !! k = Some o ->
    one_condition_per_type o.
Proof.
  intros Hwf Hall.
  assert (Hsame : cluster (snd (reconcile r req c)) = c
                  \/ exists o',
                       cluster (snd (reconcile r req c)) = <[req := o']> c
                       /\ one_condition_per_type o').
  { destruct (Get_CertificateRequest_err r req) as [e|] eqn:Hg.
    { left. apply (unfetched_call r req c). left.
      congruence. }
    destruct (c !! req) as [cr|] eqn:Hc.
    2:{ left. apply (unfetched_call r req c). right.
        exact Hc. }
    destruct (ignored cr) eqn:Hi.
    { left. destruct (reconcile_ignored r req c cr Hg Hc Hi) as [msg ->].
      reflexivity. }
    pose proof (Hwf req cr Hc) as Hkey.
    pose proof (Hall req cr Hc) as Hone.
    destruct (action_exits r (loaded req (decoded cr) c)) as [x Hx].
    destruct (action r (loaded req (decoded cr) c)) as [x' s_a] eqn:Ha.
    cbn [fst] in Hx. subst x'.
    destruct (reconcile_of_action r req c cr x s_a Hg Hc Hi Ha)
      as (_ & _ & _ & Hu).
    destruct (action_one_condition_per_type r req c cr (decoded cr) Hc Hkey
                Hone Hone) as (Hmem & Hcl).
    destruct (action_keeps_FailureTime r req c cr (decoded cr) Hc Hkey
                eq_refl) as (Hfr & _ & _).
    rewrite Ha in Hmem, Hcl, Hfr. cbn [snd] in Hmem, Hcl, Hfr.
    assert (Hw : one_condition_per_type (written r s_a)).
    { unfold written. destruct (err s_a);
        [apply Set_one_condition_per_type|]; exact Hmem. }
    assert (Hwk : (Namespace (written r s_a), Name (written r s_a)) = req).
    { unfold written. destruct (err s_a); autorewrite with frame;
        exact Hfr. }
    rewrite Hwk in Hu.
    destruct (Status_Update_answer r _ _).
    - destruct Hu as (_ & _ & ->). exact Hcl.
    - destruct Hu as (_ & _ & stored & Hs & ->). right.
      destruct Hcl as [Hcl | (o' & Hcl & Ho')]; rewrite Hcl in *.
      + eexists. split; [reflexivity | exact Hw].
      + rewrite insert_insert_eq. eexists. split; [reflexivity | exact Hw]. }
  intros k o Hk.
  destruct Hsame as [Heq | (o' & Heq & Ho')]; rewrite Heq in Hk.
  - exact (Hall k o Hk).
  - destruct (decide (req = k)) as [<-|Hne].
    + rewrite lookup_insert_eq in Hk. injection Hk as <-. exact Ho'.
    + rewrite lookup_insert_ne in Hk by exact Hne. exact (Hall k o Hk).
Qed.

Lemma one_condition_per_type_witness :
  exists o,
    cluster (snd (reconcile (Scenario.healthy "completed") Scenario.req
                    (Scenario.only Scenario.submitted))) !! Scenario.req
    = Some o
    /\ one_condition_per_type o.
Proof.
  eexists. split; [vm_compute; reflexivity|].
  apply (a_call_keeps_one_condition_per_type (Scenario.healthy "completed")
           Scenario.req (Scenario.only Scenario.submitted)) with Scenario.req.
  - intros k o Hk. unfold Scenario.only in Hk.
    apply lookup_singleton_Some in Hk as [<- <-]. reflexivity.
  - intros k o Hk. unfold Scenario.only in Hk.
    apply lookup_singleton_Some in Hk as [<- <-].
    unfold one_condition_per_type. cbn. apply NoDup_singleton.
  - vm_compute. reflexivity.
Defined.

(** ** The completion *)

Lemma Ready_is_Set now cr status reason message :
  Ready_is
    (cmutil.SetCertificateRequestCondition now cr
       CertificateRequestConditionReady status reason message)
    status (Some reason).
Proof.
  destruct (SetCertificateRequestCondition_In now cr
              CertificateRequestConditionReady status reason message)
    as [ltt Hin].
  eexists. split; [exact Hin|]. repeat split.
Qed.

(** X12.  A pull that finds the request completed issues the certificate,
    whatever the request carried before: for a request stored under its
    name that carries the request id and reaches Horizon, when get-by-id
    answers completed and the status update succeeds, the stored request
    holds the certificate of Horizon, is Approved=True and Ready=True with
    reason Issued, keeps its annotations, and the call asks for no retry
    and returns no error. *)
Theorem completed_pull_issues_the_certificate r req c cr id request :
  c !! req = Some cr ->
  (Namespace cr, Name cr) = req ->
  reaches_Horizon r req cr ->
  map_index (Annotations cr) requestIdAnnotation = Some id ->
  Requests_Get r id = inr request ->
  hr_Status request = "completed" ->
  (forall obj, Status_Update_err r obj = None) ->
  let s := snd (reconcile r req c) in
  fst (reconcile r req c) = Returned
  /\ result s = Result_zero /\ err s = None
  /\ List.filter is_Requests_Get (trace s) = [HorizonClient_Requests_Get id]
  /\ List.filter is_Enroll (trace s) = []
  /\ exists issued,
       cluster s !! req = Some issued
       /\ status_Certificate (Status issued)
          = list_byte_of_string (hr_Certificate request)
       /\ cmutil.CertificateRequestIsApproved issued = true
       /\ Ready_is issued ConditionTrue (Some CertificateRequestReasonIssued)
       /\ Annotations issued = Annotations cr
       /\ Spec issued = Spec cr.
Proof.
  intros Hc Hkey Hreach Hann Hget Hst Hsupd s. subst s.
  destruct (pull_completed_call r req c cr id request Hc Hkey Hreach Hann
              Hget Hst (Hsupd _))
    as (Hx & Hr & He & Hcl & Hcert & Ha & Hg & Henr & _).
  repeat (split; [assumption|]).
  eexists. split; [rewrite Hcl; apply lookup_insert_eq|].
  split; [exact Hcert|].
  split.
  { unfold cmutil.CertificateRequestIsApproved. apply existsb_exists.
    destruct (SetCertificateRequestCondition_In (cmutil_Clock_Now r) cr
                CertificateRequestConditionApproved ConditionTrue
                "horizon.evertrust.io" "Request approved on Horizon")
      as [ltt Hin].
    eexists. split.
    - apply Set_keeps_others; [exact Hin|].
      intros H. vm_compute in H. discriminate H.
    - reflexivity. }
  split; [apply Ready_is_Set|].
  split; [exact Ha|].
  repeat (progress (autorewrite with frame; cbn [Spec with_Status])).
  reflexivity.
Qed.

Lemma completed_pull_witness :
  let s := snd (reconcile (Scenario.healthy "completed") Scenario.req
                  (Scenario.only Scenario.submitted)) in
  result s = Result_zero /\ err s = None
  /\ exists issued,
       cluster s !! Scenario.req = Some issued
       /\ status_Certificate (Status issued) = list_byte_of_string "CERTDATA".
Proof.
  intros s.
  destruct (completed_pull_issues_the_certificate
              (Scenario.healthy "completed") Scenario.req
              (Scenario.only Scenario.submitted) Scenario.submitted "req-42"
              {| hr_Id := "req-42"; hr_Status := "completed";
                 hr_Certificate := "CERTDATA" |} eq_refl eq_refl)
    as (_ & Hr & He & _ & _ & issued & Hc & Hcert & _).
  - repeat split.
    exists Scenario.iss1, Scenario.cred, "https://pki.example".
    repeat split.
  - reflexivity.
  - reflexivity.
  - reflexivity.
  - reflexivity.
  - split; [exact Hr|]. split; [exact He|]. exists issued. auto.
Defined.

(** ** The helper [updateCertificateRequest] *)

(** X13.  The helper is the pull of [Reconcile] without its log line: on a
    request that carries the request id, it leaves the function in the same
    way and in the same state as the pull does once the line Pulling request
    is logged. *)
Theorem updateCertificateRequest_is_the_pull r s id :
  map_index (Annotations (certificateRequest s)) requestIdAnnotation
  = Some id ->
  updateCertificateRequest r
    (add_event (Log_Info ("Pulling request " +:+ id)) s)
  = pull r id s.
Proof.
  destruct s as [cr res e c t]. cbn [certificateRequest]. intros Hann.
  unfold updateCertificateRequest, pull, setReadyCondition.
  monad. rewrite Hann. cbv beta iota delta [default from_option Datatypes.id].
  paths; reflexivity.
Qed.

Lemma updateCertificateRequest_is_the_pull_witness :
  let s := loaded Scenario.req Scenario.submitted
             (Scenario.only Scenario.submitted) in
  result (snd (updateCertificateRequest (Scenario.healthy "pending")
                 (add_event (Log_Info "Pulling request req-42") s)))
  = result (snd (pull (Scenario.healthy "pending") "req-42" s)).
Proof.
  intros s.
  rewrite <- (updateCertificateRequest_is_the_pull
                (Scenario.healthy "pending") s "req-42" eq_refl).
  reflexivity.
Defined.

(** X14.  The helper only asks Horizon: it returns (reading a nil
    annotation map does not fault), writes nothing to the API server, leaves
    the cluster, the spec and the annotations as they are, and calls
    get-by-id exactly once, with the request id of the annotation, or with
    the empty id when the annotation is missing.  It changes the request in
    memory only when Horizon answers completed: it then stores the
    certificate and sets Approved=True and Ready=True/Issued, with the zero
    result; any other status gives a retry after one minute, and a failure
    of Horizon the zero result and an error that wraps errUnknownHorizon. *)
Theorem updateCertificateRequest_only_asks_Horizon r s :
  let cr := certificateRequest s in
  let id :=
    default EmptyString (map_index (Annotations cr) requestIdAnnotation) in
  let s' := snd (updateCertificateRequest r s) in
  fst (updateCertificateRequest r s) = inr Returned
  /\ trace s' = trace s ++ [HorizonClient_Requests_Get id]
  /\ (map_index (Annotations cr) requestIdAnnotation = None ->
      id = EmptyString)
  /\ cluster s' = cluster s
  /\ Annotations (certificateRequest s') = Annotations cr
  /\ Spec (certificateRequest s') = Spec cr
  /\ match Requests_Get r id with
     | inl e =>
         certificateRequest s' = cr /\ result s' = Result_zero
         /\ err s' = Some (Errorf_w_v errUnknownHorizon e)
     | inr request =>
         err s' = None
         /\ if String.eqb (hr_Status request) "completed" then
              result s' = Result_zero
              /\ status_Certificate (Status (certificateRequest s'))
                 = list_byte_of_string (hr_Certificate request)
              /\ cmutil.CertificateRequestIsApproved (certificateRequest s')
                 = true
              /\ Ready_is (certificateRequest s') ConditionTrue
                   (Some CertificateRequestReasonIssued)
            else
              certificateRequest s' = cr
              /\ result s' = requeue_after_a_minute
     end.
Proof.
  destruct s as [cr0 res e c t]. intros cr id s'. subst cr s'.
  cbn [certificateRequest] in *.
  unfold updateCertificateRequest. monad. fold id.
  split.
  { destruct (Requests_Get r id) as [e0|request]; monad; [reflexivity|].
    destruct (String.eqb (hr_Status request) "completed"); reflexivity. }
  split.
  { destruct (Requests_Get r id) as [e0|request]; monad; [reflexivity|].
    destruct (String.eqb (hr_Status request) "completed"); reflexivity. }
  split; [intros Hnone; subst id; rewrite Hnone; reflexivity|].
  destruct (Requests_Get r id) as [e0|request]; monad;
    [repeat split|].
  destruct (String.eqb (hr_Status request) "completed"); monad;
    [|repeat split].
  split; [reflexivity|].
  split.
  { repeat (progress (autorewrite with frame; cbn [Annotations with_Status])).
    reflexivity. }
  split.
  { repeat (progress (autorewrite with frame; cbn [Spec with_Status])).
    reflexivity. }
  split; [reflexivity|]. split; [reflexivity|].
  split.
  { match goal with |- status_Certificate (Status ?x) = _ =>
      match x with
      | cmutil.SetCertificateRequestCondition ?now ?y ?ty ?st ?re ?me =>
          destruct (SetCertificateRequestCondition_frame now y ty st re me)
            as (_ & _ & _ & _ & -> & _)
      end
    end. reflexivity. }
  split; [|apply Ready_is_Set].
  unfold cmutil.CertificateRequestIsApproved. apply existsb_exists.
  destruct (SetCertificateRequestCondition_In (cmutil_Clock_Now r) cr0
              CertificateRequestConditionApproved ConditionTrue
              "horizon.evertrust.io" "Request approved on Horizon")
    as [ltt Hin].
  eexists. split.
  - apply Set_keeps_others; [exact Hin|].
    intros H. vm_compute in H. discriminate H.
  - reflexivity.
Qed.

(** * The issuer reconciler *)

(** The deferred status update, when the issuer is stored. *)
Lemma issuer_deferred_stored r req x o issuer res e issuers t :
  issuers !! req = Some o ->
  res_Spec issuer = res_Spec o ->
  let sent :=
    match e with
    | Some e =>
        issuerutil_SetReadyCondition issuer ConditionFalse
          issuerReadyConditionReason (Error e)
    | None => issuer
    end in
  issuer_deferred r req x issuer res e issuers t
  = match issuer_Status_Update_err r sent with
    | Some updateErr =>
        {| out_exit := x; out_result := Result_zero;
           out_err := NewAggregate [e; Some updateErr];
           out_issuers := issuers;
           out_trace := t ++ [Issuer_Status_Update sent] |}
    | None =>
        {| out_exit := x; out_result := res; out_err := e;
           out_issuers := <[req := sent]> issuers;
           out_trace := t ++ [Issuer_Status_Update sent] |}
    end.
Proof.
  intros Ho Hs sent. unfold issuer_deferred. fold sent.
  destruct (issuer_Status_Update_err r sent) as [updateErr|];
    [reflexivity|].
  rewrite Ho. f_equal.
  apply map_eq. intros key. destruct (decide (key = req)) as [->|Hne].
  - rewrite lookup_alter_eq, lookup_insert_eq, Ho. cbn.
    f_equal. destruct sent as [sp rd] eqn:Hsent. cbn. f_equal.
    assert (H : res_Spec sent = res_Spec issuer)
      by (subst sent; destruct e; reflexivity).
    rewrite Hsent in H. cbn in H. congruence.
  - rewrite lookup_alter_ne, lookup_insert_ne by congruence. reflexivity.
Qed.

(** A call that gets an issuer, up to the Ready condition of it. *)
Lemma Issuer_Reconcile_fetched r req issuers o :
  fetches_issuer r req issuers o ->
  Issuer_Reconcile r req issuers
  = match res_Ready o with
    | None =>
        issuer_deferred r req Returned
          (issuerutil_SetReadyCondition o ConditionUnknown
             issuerReadyConditionReason "First seen")
          Result_zero None issuers [Issuer_Get req]
    | Some _ =>
        let secretName := (fst req, AuthSecretName (res_Spec o)) in
        match issuer_Get_Secret r secretName with
        | inl e =>
            issuer_deferred r req Returned o Result_zero
              (Some (Errorf_secret errGetAuthSecret secretName e)) issuers
              [Issuer_Get req; Issuer_Get_Secret secretName]
        | inr _ =>
            issuer_deferred r req Returned
              (issuerutil_SetReadyCondition o ConditionTrue
                 issuerReadyConditionReason "Success")
              {| Requeue := false; RequeueAfter := time_Minute |} None
              issuers [Issuer_Get req; Issuer_Get_Secret secretName]
        end
    end.
Proof.
  intros (Hk & Hg & Ho).
  unfold Issuer_Reconcile, newIssuer, Get_issuer_Object.
  rewrite Hk, Hg, Ho. cbn.
  unfold issuerutil_GetReadyCondition.
  destruct (res_Ready o); reflexivity.
Qed.

(** A call that gets no issuer. *)
Lemma Issuer_Reconcile_unfetched r req issuers :
  issuer_Scheme_New r (Kind r) <> inr New_NotAnObject ->
  (forall o, ~ fetches_issuer r req issuers o) ->
  let out := Issuer_Reconcile r req issuers in
  out_exit out = Returned
  /\ out_result out = Result_zero
  /\ out_issuers out = issuers
  /\ List.filter is_Issuer_Status_Update (out_trace out) = []
  /\ List.filter is_Issuer_Get_Secret (out_trace out) = []
  /\ out_err out
     = match issuer_Scheme_New r (Kind r), issuer_Get_err r req with
       | inr _, Some e =>
           if IsNotFound e then None
           else Some (fmt_Errorf ("unexpected get error: " +:+ Error e) None)
       | _, _ => None
       end.
Proof.
  intros Hobj Hno out. subst out.
  unfold Issuer_Reconcile, newIssuer, Get_issuer_Object.
  destruct (issuer_Scheme_New r (Kind r)) as [e|[| t |]] eqn:Hk;
    [cbn; repeat split | | | congruence].
  - destruct (issuer_Get_err r req) as [e|] eqn:Hg.
    + unfold IgnoreNotFound. destruct (IsNotFound e); cbn; repeat split.
    + destruct (issuers !! req) as [o|] eqn:Ho.
      * exfalso. apply (Hno o). repeat split; assumption.
      * cbn. repeat split.
  - destruct (issuer_Get_err r req) as [e|] eqn:Hg.
    + unfold IgnoreNotFound. destruct (IsNotFound e); cbn; repeat split.
    + cbn. repeat split.
Qed.

(** A call gets an issuer, or changes nothing and asks for no retry. *)
Lemma Issuer_Reconcile_cases r req issuers :
  (exists o, fetches_issuer r req issuers o)
  \/ (out_result (Issuer_Reconcile r req issuers) = Result_zero
      /\ out_issuers (Issuer_Reconcile r req issuers) = issuers).
Proof.
  destruct (issuer_Scheme_New r (Kind r)) as [e|[| t |]] eqn:Hk.
  - right. unfold Issuer_Reconcile, newIssuer. rewrite Hk. split; reflexivity.
  - destruct (issuer_Get_err r req) as [e|] eqn:Hg;
      [|destruct (issuers !! req) as [o|] eqn:Ho].
    + right.
      destruct (Issuer_Reconcile_unfetched r req issuers)
        as (_ & Hz & Hi & _); [congruence| |split; assumption].
      intros o (_ & Hg' & _). congruence.
    + left. exists o. repeat split; assumption.
    + right.
      destruct (Issuer_Reconcile_unfetched r req issuers)
        as (_ & Hz & Hi & _); [congruence| |split; assumption].
      intros o (_ & _ & Ho'). congruence.
  - right.
    destruct (Issuer_Reconcile_unfetched r req issuers)
      as (_ & Hz & Hi & _); [congruence| |split; assumption].
    intros o (Hk' & _). congruence.
  - right. unfold Issuer_Reconcile, newIssuer. rewrite Hk. split; reflexivity.
Qed.

(** ** An issuer that is seen for the first time *)

(** X15.  The first call on an issuer that has no Ready condition sets
    Ready=Unknown with the message First seen, sends the status update and
    stops: the secret of the issuer is not asked for and no retry is asked
    for.  When the status update is accepted the issuer is stored with that
    condition and the call returns no error; when it is rejected the issuers
    are as they were and the call returns the aggregate of that one error. *)
Theorem new_issuer_is_marked_first_seen r req issuers o :
  fetches_issuer r req issuers o ->
  res_Ready o = None ->
  let out := Issuer_Reconcile r req issuers in
  let seen :=
    issuerutil_SetReadyCondition o ConditionUnknown
      issuerReadyConditionReason "First seen" in
  out_exit out = Returned
  /\ out_result out = Result_zero
  /\ out_trace out = [Issuer_Get req; Issuer_Status_Update seen]
  /\ match issuer_Status_Update_err r seen with
     | None => out_err out = None /\ out_issuers out = <[req := seen]> issuers
     | Some updateErr =>
         out_err out = Some (Aggregate [updateErr])
         /\ out_issuers out = issuers
     end.
Proof.
  intros Hf Hr out seen. subst out.
  rewrite (Issuer_Reconcile_fetched r req issuers o Hf), Hr.
  fold seen.
  rewrite (issuer_deferred_stored r req Returned o seen Result_zero None
             issuers [Issuer_Get req]); [|apply Hf|reflexivity].
  cbv zeta.
  destruct (issuer_Status_Update_err r seen); cbn; repeat split.
Qed.

Lemma new_issuer_witness :
  out_issuers
    (Issuer_Reconcile IssuerScenario.controller IssuerScenario.name
       IssuerScenario.issuers)
  !! IssuerScenario.name
  = Some {| res_Spec := issuer_Spec Scenario.iss1;
            res_Ready :=
              Some {| icond_Status := "Unknown";
                      icond_Reason :=
                        "sample-issuer.IssuerController.Reconcile";
                      icond_Message := "First seen" |} |}.
Proof.
  destruct (new_issuer_is_marked_first_seen IssuerScenario.controller
              IssuerScenario.name IssuerScenario.issuers
              IssuerScenario.new_issuer)
    as (_ & _ & _ & _ & ->).
  - repeat split.
  - reflexivity.
  - apply lookup_insert_eq.
Defined.

(** ** The health check *)

(** X16.  A call on an issuer that has a Ready condition, whatever it
    says, asks for the secret that the issuer names, in the namespace of the
    issuer.  When the secret is there the call sets Ready=True with the
    message Success and sends the status update; when the update is
    accepted the issuer is stored Ready, the call returns no error and asks
    for the next call after one minute (RequeueAfter, with Requeue unset);
    when the update is rejected the issuers are as they were, the retry
    after a minute is dropped and the error is returned. *)
Theorem issuer_with_its_secret_becomes_Ready r req issuers o cond secret :
  fetches_issuer r req issuers o ->
  res_Ready o = Some cond ->
  issuer_Get_Secret r (fst req, AuthSecretName (res_Spec o)) = inr secret ->
  let out := Issuer_Reconcile r req issuers in
  let ready :=
    issuerutil_SetReadyCondition o ConditionTrue
      issuerReadyConditionReason "Success" in
  out_exit out = Returned
  /\ out_trace out
     = [Issuer_Get req;
        Issuer_Get_Secret (fst req, AuthSecretName (res_Spec o));
        Issuer_Status_Update ready]
  /\ match issuer_Status_Update_err r ready with
     | None =>
         out_err out = None
         /\ out_result out = {| Requeue := false; RequeueAfter := time_Minute |}
         /\ out_issuers out = <[req := ready]> issuers
     | Some updateErr =>
         out_err out = Some (Aggregate [updateErr])
         /\ out_result out = Result_zero
         /\ out_issuers out = issuers
     end.
Proof.
  intros Hf Hr Hs out ready. subst out.
  rewrite (Issuer_Reconcile_fetched r req issuers o Hf), Hr.
  cbv zeta. rewrite Hs. fold ready.
  rewrite (issuer_deferred_stored r req Returned o ready _ None
             issuers _); [|apply Hf|reflexivity].
  cbv zeta.
  destruct (issuer_Status_Update_err r ready); cbn; repeat split.
Qed.

Lemma issuer_with_its_secret_witness :
  let issuers : Issuers :=
    {[ IssuerScenario.name
       := issuerutil_SetReadyCondition IssuerScenario.new_issuer
            ConditionUnknown issuerReadyConditionReason "First seen" ]} in
  let out :=
    Issuer_Reconcile IssuerScenario.controller IssuerScenario.name issuers in
  out_err out = None
  /\ out_result out = {| Requeue := false; RequeueAfter := 60000000000 |}.
Proof.
  intros issuers out.
  destruct (issuer_with_its_secret_becomes_Ready IssuerScenario.controller
              IssuerScenario.name issuers
              (issuerutil_SetReadyCondition IssuerScenario.new_issuer
                 ConditionUnknown issuerReadyConditionReason "First seen")
              {| icond_Status := ConditionUnknown;
                 icond_Reason := issuerReadyConditionReason;
                 icond_Message := "First seen" |}
              Scenario.cred)
    as (_ & _ & He & Hres & _).
  - repeat split.
  - reflexivity.
  - reflexivity.
  - split; [exact He | exact Hres].
Defined.

(** X17.  When the secret of an issuer that has a Ready condition cannot
    be fetched, the call fails with an error that wraps errGetAuthSecret and
    names the secret, and the deferred function sets Ready=False with the
    text of that error as message: an issuer that was Ready stops being
    Ready.  When the status update is rejected too, the issuers are as they
    were and the two errors are returned as an aggregate.  No retry delay is
    asked for. *)
Theorem issuer_without_its_secret_is_marked_not_Ready r req issuers o cond e0 :
  fetches_issuer r req issuers o ->
  res_Ready o = Some cond ->
  issuer_Get_Secret r (fst req, AuthSecretName (res_Spec o)) = inl e0 ->
  let out := Issuer_Reconcile r req issuers in
  let e :=
    Errorf_secret errGetAuthSecret (fst req, AuthSecretName (res_Spec o)) e0 in
  let failed :=
    issuerutil_SetReadyCondition o ConditionFalse
      issuerReadyConditionReason (Error e) in
  out_exit out = Returned
  /\ out_result out = Result_zero
  /\ out_trace out
     = [Issuer_Get req;
        Issuer_Get_Secret (fst req, AuthSecretName (res_Spec o));
        Issuer_Status_Update failed]
  /\ issuerutil.IsReady (issuer_Status (Issuer_of failed)) = false
  /\ match issuer_Status_Update_err r failed with
     | None =>
         out_err out = Some e /\ out_issuers out = <[req := failed]> issuers
     | Some updateErr =>
         out_err out = Some (Aggregate [e; updateErr])
         /\ out_issuers out = issuers
     end.
Proof.
  intros Hf Hr Hs out e failed. subst out.
  rewrite (Issuer_Reconcile_fetched r req issuers o Hf), Hr.
  cbv zeta. rewrite Hs. fold e.
  rewrite (issuer_deferred_stored r req Returned o o _ (Some e)
             issuers _); [|apply Hf|reflexivity].
  cbv zeta. fold failed.
  destruct (issuer_Status_Update_err r failed); cbn; repeat split.
Qed.

Lemma issuer_without_its_secret_witness :
  let issuers : Issuers :=
    {[ IssuerScenario.name := IssuerScenario.ready_issuer ]} in
  let out :=
    Issuer_Reconcile IssuerScenario.without_secret IssuerScenario.name
      issuers in
  exists failed,
    out_issuers out !! IssuerScenario.name = Some failed
    /\ issuerutil.IsReady (issuer_Status (Issuer_of failed)) = false.
Proof.
  intros issuers out.
  destruct (issuer_without_its_secret_is_marked_not_Ready
              IssuerScenario.without_secret IssuerScenario.name issuers
              IssuerScenario.ready_issuer
              {| icond_Status := ConditionTrue;
                 icond_Reason := issuerReadyConditionReason;
                 icond_Message := "Success" |}
              (StatusNotFound "secret not found"))
    as (_ & _ & _ & Hn & _ & Hi).
  - repeat split.
  - reflexivity.
  - reflexivity.
  - eexists. split; [|exact Hn].
    subst out. rewrite Hi. apply lookup_insert_eq.
Defined.

(** ** Calls that do not get an issuer *)

(** X18.  A call that gets no issuer (the kind is not registered, the get
    fails, the issuer is not stored, or the object is of a registered kind
    that is not an issuer) sends no status update, asks for no secret,
    changes no issuer and asks for no retry; the one case left out is a
    scheme that builds an object that is no client object, where
    [newIssuer] panics.  The only error it returns is a failure of the get
    whose chain of wrapped errors holds no not-found status, under the text
    unexpected get error; an unregistered kind, an issuer that is gone
    (the not-found status, wrapped or not) and an object of another kind
    return no error, so the call is not retried. *)
Theorem issuer_call_without_an_issuer_writes_nothing r req issuers :
  issuer_Scheme_New r (Kind r) <> inr New_NotAnObject ->
  (forall o, ~ fetches_issuer r req issuers o) ->
  let out := Issuer_Reconcile r req issuers in
  out_exit out = Returned
  /\ out_result out = Result_zero
  /\ out_issuers out = issuers
  /\ List.filter is_Issuer_Status_Update (out_trace out) = []
  /\ List.filter is_Issuer_Get_Secret (out_trace out) = []
  /\ out_err out
     = match issuer_Scheme_New r (Kind r), issuer_Get_err r req with
       | inr _, Some e =>
           if IsNotFound e then None
           else Some (fmt_Errorf ("unexpected get error: " +:+ Error e) None)
       | _, _ => None
       end.
Proof.
  exact (Issuer_Reconcile_unfetched r req issuers).
Qed.

Lemma issuer_call_without_an_issuer_witness :
  let gone :=
    fmt_Errorf "reading the cache: issuer iss1 not found"
      (Some (StatusNotFound "issuer iss1 not found")) in
  let out1 :=
    Issuer_Reconcile (IssuerScenario.get_failure gone) IssuerScenario.name
      IssuerScenario.issuers in
  let out2 :=
    Issuer_Reconcile (IssuerScenario.get_failure Scenario.conflict)
      IssuerScenario.name IssuerScenario.issuers in
  (out_err out1 = None /\ out_issuers out1 = IssuerScenario.issuers)
  /\ out_err out2
     = Some (fmt_Errorf
               ("unexpected get error: " +:+ Error Scenario.conflict) None).
Proof.
  intros gone out1 out2. split.
  - destruct (issuer_call_without_an_issuer_writes_nothing
                (IssuerScenario.get_failure gone) IssuerScenario.name
                IssuerScenario.issuers)
      as (_ & _ & Hi & _ & _ & He).
    + intros H. vm_compute in H. discriminate H.
    + intros o (_ & H & _). discriminate H.
    + split; [exact He | exact Hi].
  - destruct (issuer_call_without_an_issuer_writes_nothing
                (IssuerScenario.get_failure Scenario.conflict)
                IssuerScenario.name IssuerScenario.issuers)
      as (_ & _ & _ & _ & _ & He).
    + intros H. vm_compute in H. discriminate H.
    + intros o (_ & H & _). discriminate H.
    + exact He.
Defined.

(** ** What a call may change *)

(** X19.  A call of the issuer reconciler changes at most the Ready
    condition of the issuer it is called for: every other issuer is as it
    was, no issuer is created or deleted, the spec of the issuer is as it
    was, and a call never takes a Ready condition away. *)
Theorem issuer_call_changes_only_the_Ready_condition r req issuers key :
  let out := Issuer_Reconcile r req issuers in
  out_issuers out !! key = issuers !! key
  \/ (key = req
      /\ exists o cond,
           issuers !! req = Some o
           /\ out_issuers out !! req
              = Some {| res_Spec := res_Spec o; res_Ready := Some cond |}).
Proof.
  intros out. subst out.
  destruct (Issuer_Reconcile_cases r req issuers) as [(o & Hf)|(Hz & Hi)].
  2:{ left. first [exact Hz | rewrite Hi; reflexivity]. }
  assert (Ho : issuers !! req = Some o) by apply Hf.
  rewrite (Issuer_Reconcile_fetched r req issuers o Hf).
  assert (Hd : forall issuer res e t cond,
             res_Spec issuer = res_Spec o ->
             (e = None -> res_Ready issuer = Some cond) ->
             let out := issuer_deferred r req Returned issuer res e issuers t in
             out_issuers out !! key = issuers !! key
             \/ (key = req
                 /\ exists o0 cond0,
                      issuers !! req = Some o0
                      /\ out_issuers out !! req
                         = Some {| res_Spec := res_Spec o0;
                                   res_Ready := Some cond0 |})).
  { intros issuer res e t cond Hs Hc out. subst out.
    rewrite (issuer_deferred_stored r req Returned o issuer res e issuers t
               Ho Hs).
    cbv zeta.
    destruct (issuer_Status_Update_err r _) as [updateErr|];
      [left; reflexivity|].
    cbn [out_issuers].
    destruct (decide (key = req)) as [->|Hne].
    - right. split; [reflexivity|]. exists o.
      rewrite lookup_insert_eq.
      destruct e as [e|].
      + eexists. split; [exact Ho|]. cbn. rewrite <- Hs. reflexivity.
      + exists cond. split; [exact Ho|]. f_equal.
        destruct issuer as [sp rd]. cbn in *. rewrite <- Hs, (Hc eq_refl).
        reflexivity.
    - left. apply lookup_insert_ne. congruence. }
  destruct (res_Ready o) as [cond|] eqn:Hr.
  - cbv zeta.
    destruct (issuer_Get_Secret r _) as [e|secret].
    + apply (Hd o _ _ _ cond); [reflexivity | discriminate].
    + eapply Hd; [reflexivity | reflexivity].
  - eapply Hd; [reflexivity | reflexivity].
Qed.

(** X20.  The call asks for the next health check, one minute later, only
    when the check has passed and the result is stored: whenever the result
    is not the zero result, it is RequeueAfter one minute without Requeue,
    no error is returned, and the issuer is stored with Ready=True and the
    message Success. *)
Theorem issuer_recheck_is_asked_only_when_Ready_is_stored r req issuers :
  let out := Issuer_Reconcile r req issuers in
  out_result out = Result_zero
  \/ (out_result out = {| Requeue := false; RequeueAfter := time_Minute |}
      /\ out_err out = None
      /\ out_exit out = Returned
      /\ exists o,
           out_issuers out !! req = Some o
           /\ issuer_Ready_is o ConditionTrue "Success"
           /\ issuerutil.IsReady (issuer_Status (Issuer_of o)) = true).
Proof.
  intros out. subst out.
  destruct (Issuer_Reconcile_cases r req issuers) as [(o & Hf)|(Hz & Hi)].
  2:{ left. first [exact Hz | rewrite Hi; reflexivity]. }
  assert (Ho : issuers !! req = Some o) by apply Hf.
  rewrite (Issuer_Reconcile_fetched r req issuers o Hf).
  destruct (res_Ready o) as [cond|] eqn:Hr.
  - cbv zeta.
    destruct (issuer_Get_Secret r _) as [e|secret].
    + left.
      erewrite (issuer_deferred_stored r req Returned o);
        [|exact Ho|reflexivity].
      cbv zeta. destruct (issuer_Status_Update_err r _); reflexivity.
    + erewrite (issuer_deferred_stored r req Returned o);
        [|exact Ho|reflexivity].
      cbv zeta. destruct (issuer_Status_Update_err r _);
        [left; reflexivity|].
      right. cbn. repeat split.
      eexists. split; [apply lookup_insert_eq|]. split; reflexivity.
  - left.
    erewrite (issuer_deferred_stored r req Returned o);
      [|exact Ho|reflexivity].
    cbv zeta. destruct (issuer_Status_Update_err r _); reflexivity.
Qed.

(** ** From a new issuer to a served request *)

(** X21.  A new issuer becomes Ready with the second call, not with the
    first: when the status updates are accepted and the secret is there, the
    first call stores Ready=Unknown and asks for no retry, and a second call
    on the issuers it left stores Ready=True and asks for the next check
    after one minute. *)
Theorem new_issuer_is_Ready_after_two_calls r1 r2 req issuers o secret :
  fetches_issuer r1 req issuers o ->
  res_Ready o = None ->
  (forall obj, issuer_Status_Update_err r1 obj = None) ->
  issuer_Scheme_New r2 (Kind r2) = inr New_Issuer ->
  issuer_Get_err r2 req = None ->
  issuer_Get_Secret r2 (fst req, AuthSecretName (res_Spec o)) = inr secret ->
  (forall obj, issuer_Status_Update_err r2 obj = None) ->
  let out1 := Issuer_Reconcile r1 req issuers in
  let out2 := Issuer_Reconcile r2 req (out_issuers out1) in
  (exists seen,
     out_issuers out1 !! req = Some seen
     /\ issuer_Ready_is seen ConditionUnknown "First seen"
     /\ issuerutil.IsReady (issuer_Status (Issuer_of seen)) = false)
  /\ out_result out1 = Result_zero
  /\ List.filter is_Issuer_Get_Secret (out_trace out1) = []
  /\ out_issuers out2
     = <[req := issuerutil_SetReadyCondition o ConditionTrue
                  issuerReadyConditionReason "Success"]> issuers
  /\ out_result out2 = {| Requeue := false; RequeueAfter := time_Minute |}
  /\ out_err out1 = None
  /\ out_err out2 = None.
Proof.
  intros Hf Hr Hu1 Hk2 Hg2 Hs2 Hu2 out1 out2. subst out2 out1.
  rewrite (Issuer_Reconcile_fetched r1 req issuers o Hf), Hr.
  erewrite (issuer_deferred_stored r1 req Returned o);
    [|apply Hf|reflexivity].
  cbv zeta. rewrite Hu1. cbn [out_issuers out_result out_err out_trace].
  set (seen := issuerutil_SetReadyCondition o ConditionUnknown
                 issuerReadyConditionReason "First seen").
  assert (Hf2 : fetches_issuer r2 req (<[req := seen]> issuers) seen).
  { split; [exact Hk2|]. split; [exact Hg2|]. apply lookup_insert_eq. }
  rewrite (Issuer_Reconcile_fetched r2 req _ seen Hf2).
  cbn [res_Ready seen issuerutil_SetReadyCondition res_Spec]. cbv zeta.
  rewrite Hs2.
  erewrite (issuer_deferred_stored r2 req Returned seen);
    [|apply lookup_insert_eq|reflexivity].
  cbv zeta. rewrite Hu2. cbn [out_issuers out_result out_err out_trace].
  split; [exists seen; split; [apply lookup_insert_eq|split; reflexivity]|].
  split; [reflexivity|]. split; [reflexivity|].
  split; [apply insert_insert_eq|]. repeat split.
Qed.

Lemma new_issuer_two_calls_witness :
  let out1 :=
    Issuer_Reconcile IssuerScenario.controller IssuerScenario.name
      IssuerScenario.issuers in
  let out2 :=
    Issuer_Reconcile IssuerScenario.controller IssuerScenario.name
      (out_issuers out1) in
  out_issuers out2 !! IssuerScenario.name = Some IssuerScenario.ready_issuer
  /\ out_result out2 = {| Requeue := false; RequeueAfter := 60000000000 |}.
Proof.
  intros out1 out2.
  destruct (new_issuer_is_Ready_after_two_calls IssuerScenario.controller
              IssuerScenario.controller IssuerScenario.name
              IssuerScenario.issuers IssuerScenario.new_issuer Scenario.cred)
    as (_ & _ & _ & Hi & Hres & _).
  - repeat split.
  - reflexivity.
  - reflexivity.
  - reflexivity.
  - reflexivity.
  - reflexivity.
  - reflexivity.
  - split; [|exact Hres]. subst out2 out1. rewrite Hi.
    apply lookup_insert_eq.
Defined.

(** A call on a request whose issuer is not Ready. *)
Lemma unready_issuer_call r req c cr i :
  Get_CertificateRequest_err r req = None ->
  c !! req = Some cr ->
  ignored cr = false ->
  cmutil.CertificateRequestIsDenied cr = false ->
  Scheme_New r (ref_Kind (spec_IssuerRef (Spec cr))) = inr New_Issuer ->
  Get_Issuer r (Namespace cr, ref_Name (spec_IssuerRef (Spec cr))) = inr i ->
  issuerutil.IsReady (issuer_Status i) = false ->
  fails_with r req c (decoded cr) errIssuerNotReady
  /\ List.filter is_Horizon_call (trace (snd (reconcile r req c))) = [].
Proof.
  intros Hg Hc Hi Hd Hk Hgi Hr.
  destruct (failing_action r req c cr (decoded cr) errIssuerNotReady
              [Client_Get_CertificateRequest req;
               Client_Get_Issuer
                 (Namespace cr, ref_Name (spec_IssuerRef (Spec cr)))]
              Hg Hc Hi) as (Hf & Ht & Hcl); [| reflexivity |].
  { as_decoded cr.
    unfold action, mark_denied, resolve, setReadyCondition, loaded.
    along. reflexivity. }
  split; [exact Hf|]. rewrite Ht. reflexivity.
Qed.

(** X22.  The two reconcilers together: a request that is not ignored nor
    denied, of the Issuer kind, whose issuer the issuer reconciler has just
    been called for (the status update accepted), and a call of the request
    reconciler that reads the issuer as that call left it.  When the issuer
    call asked for no recheck (the issuer was seen for the first time, or its
    secret could not be fetched), the request call fails with
    errIssuerNotReady and Horizon is not called; when it asked for the
    recheck after a minute, the request reconciler gets a Ready issuer with
    the spec of the stored one. *)
Theorem request_is_served_only_after_the_health_check
    ri issuers o r req c cr :
  let name := (Namespace cr, ref_Name (spec_IssuerRef (Spec cr))) in
  let out := Issuer_Reconcile ri name issuers in
  fetches_issuer ri name issuers o ->
  (forall obj, issuer_Status_Update_err ri obj = None) ->
  Get_CertificateRequest_err r req = None ->
  c !! req = Some cr ->
  ignored cr = false ->
  cmutil.CertificateRequestIsDenied cr = false ->
  Scheme_New r (ref_Kind (spec_IssuerRef (Spec cr))) = inr New_Issuer ->
  Get_Issuer r name = Get_Issuer_from (out_issuers out) name ->
  (out_result out = Result_zero ->
   fails_with r req c (decoded cr) errIssuerNotReady
   /\ List.filter is_Horizon_call (trace (snd (reconcile r req c))) = [])
  /\ (out_result out <> Result_zero ->
      exists i,
        Get_Issuer r name = inr i
        /\ issuerutil.IsReady (issuer_Status i) = true
        /\ issuer_Spec i = res_Spec o).
Proof.
  intros name out Hf Hu Hg Hc Hi Hd Hk Hgi.
  assert (Ho : issuers !! name = Some o) by apply Hf.
  assert (Hout : exists stored,
             out_issuers out !! name = Some stored
             /\ res_Spec stored = res_Spec o
             /\ issuerutil.IsReady (issuer_Status (Issuer_of stored))
                = negb (Z.eqb (RequeueAfter (out_result out)) 0)).
  { subst out.
    rewrite (Issuer_Reconcile_fetched ri name issuers o Hf).
    destruct (res_Ready o) as [cond|] eqn:Hr.
    - cbv zeta.
      destruct (issuer_Get_Secret ri _) as [e|secret].
      + erewrite (issuer_deferred_stored ri name Returned o);
          [|exact Ho|reflexivity].
        cbv zeta. rewrite Hu. cbn [out_issuers out_result].
        eexists. split; [apply lookup_insert_eq|]. split; reflexivity.
      + erewrite (issuer_deferred_stored ri name Returned o);
          [|exact Ho|reflexivity].
        cbv zeta. rewrite Hu. cbn [out_issuers out_result].
        eexists. split; [apply lookup_insert_eq|]. split; reflexivity.
    - erewrite (issuer_deferred_stored ri name Returned o);
        [|exact Ho|reflexivity].
      cbv zeta. rewrite Hu. cbn [out_issuers out_result].
      eexists. split; [apply lookup_insert_eq|]. split; reflexivity. }
  destruct Hout as (stored & Hst & Hsp & Hready).
  unfold Get_Issuer_from in Hgi. rewrite Hst in Hgi.
  split.
  - intros Hz. rewrite Hz in Hready. cbn in Hready.
    exact (unready_issuer_call r req c cr (Issuer_of stored)
             Hg Hc Hi Hd Hk Hgi Hready).
  - intros Hnz. exists (Issuer_of stored).
    split; [exact Hgi|]. split; [|exact Hsp].
    rewrite Hready.
    destruct (Z.eqb_spec (RequeueAfter (out_result out)) 0) as [H0|H0];
      [|reflexivity].
    exfalso. apply Hnz.
    destruct (Issuer_Reconcile_cases ri name issuers) as [_|(Hz & _)];
      [|exact Hz].
    clear - H0 Hf Hu Ho. subst out.
    rewrite (Issuer_Reconcile_fetched ri name issuers o Hf) in *.
    destruct (res_Ready o) as [cond|].
    + cbv zeta in *.
      destruct (issuer_Get_Secret ri _) as [e|secret].
      * unfold issuer_deferred. rewrite Hu, Ho. reflexivity.
      * exfalso. revert H0. unfold issuer_deferred. rewrite Hu, Ho.
        cbn. discriminate.
    + unfold issuer_deferred. rewrite Hu, Ho. reflexivity.
Qed.

Lemma request_is_served_witness :
  let cr := Scenario.fresh (Some Scenario.annotations) in
  let out :=
    Issuer_Reconcile IssuerScenario.controller IssuerScenario.name
      IssuerScenario.issuers in
  let r := IssuerScenario.reading (out_issuers out) (Scenario.healthy "pending") in
  err (snd (reconcile r Scenario.req (Scenario.stored cr)))
  = Some errIssuerNotReady.
Proof.
  intros cr out r.
  destruct (request_is_served_only_after_the_health_check
              IssuerScenario.controller IssuerScenario.issuers
              IssuerScenario.new_issuer r Scenario.req (Scenario.stored cr) cr)
    as (H & _).
  - repeat split.
  - reflexivity.
  - reflexivity.
  - reflexivity.
  - reflexivity.
  - reflexivity.
  - reflexivity.
  - reflexivity.
  - destruct (H eq_refl) as ((_ & _ & _ & _ & He) & _). exact He.
Defined.
